(** * Trip planner: place ranking, feature engineering and budget model

    A shallow embedding of the scoring and ranking core of the trip planner
    (models/recommender/osm_recommender.py, models/recommender/ml_ranking_model.py,
    models/budget_prediction/ml_budget_model.py, data/feature_engineering.py)
    together with the properties its specification states about it.

    Python floats are IEEE binary64 numbers: they are embedded as Rocq's
    primitive floats, so that [0.5 + 0.1], [0 / 0] and the comparisons
    evaluate here exactly as they do in the interpreter.  Functions of the
    language runtime and of numpy, pandas and scikit-learn whose result is not
    an IEEE operation (decimal rounding, powers, logarithms, the clock, fitted
    regressors and scalers) are fields of the [Runtime] and [Sklearn]
    interfaces, and every statement below holds for all their
    implementations. *)

From Stdlib Require Import Floats ZArith Ascii String List Permutation Sorted Lia.
From Stdlib Require Uint63.
From stdpp Require Import base option list gmap strings.

Set Warnings "-inexact-float".

Open Scope string_scope.
Open Scope list_scope.
Open Scope stdpp_scope.
Open Scope float_scope.
Open Scope Z_scope.

(** ** Python floats *)

Module PyFloat.

(** [float(n)] for an integer [n]: the nearest binary64 number. *)
Definition of_Z (z : Z) : float :=
  SF2Prim (binary_normalize prec emax z 0 false).

Definition of_nat (n : nat) : float := of_Z (Z.of_nat n).

(** [min(a, b)] keeps its first argument unless the second is smaller. *)
Definition min (a b : float) : float := if (b <? a)%float then b else a.

(** [max(a, b)] keeps its first argument unless the second is larger. *)
Definition max (a b : float) : float := if (a <? b)%float then b else a.

Definition not_nan (x : float) : Prop := PrimFloat.is_nan x = false.

(** The position of a number that is not NaN in the order of the
    comparison [SFcompare]: sign class first, then exponent, then mantissa. *)
Definition sf_key (x : spec_float) : Z * Z * Z :=
  match x with
  | S754_zero _ => (0, 0, 0)
  | S754_infinity s => (if s then -2 else 2, 0, 0)
  | S754_nan => (0, 0, 0)
  | S754_finite s m e => if s then (-1, - e, - Z.pos m) else (1, e, Z.pos m)
  end.

Definition lex_lt (a b : Z * Z * Z) : Prop :=
  let '(a1, a2, a3) := a in
  let '(b1, b2, b3) := b in
  a1 < b1 \/ (a1 = b1 /\ (a2 < b2 \/ (a2 = b2 /\ a3 < b3))).

(** The order position of a float. *)
Definition key (x : float) : Z * Z * Z := sf_key (Prim2SF x).

(** A number that is +0, positive or +infinity. *)
Definition sf_nonneg (x : spec_float) : Prop :=
  match x with
  | S754_zero false | S754_infinity false | S754_finite false _ _ => True
  | _ => False
  end.

Definition nonneg (x : float) : Prop := sf_nonneg (Prim2SF x).

(** A positive finite number. *)
Definition positive_finite (c : float) : Prop :=
  match Prim2SF c with S754_finite false _ _ => True | _ => False end.

(** Descending order with NaN last: the first number is not smaller than
    the second, and a NaN is only followed by NaN. *)
Definition descending (x y : float) : Prop :=
  (x <? y)%float = false /\ (PrimFloat.is_nan x = true -> PrimFloat.is_nan y = true).

End PyFloat.

(** ** Python strings (byte strings; case mapping on the ASCII letters) *)

Module PyStr.

Definition lower_ascii (c : ascii) : ascii :=
  let n := nat_of_ascii c in
  if (65 <=? n)%nat && (n <=? 90)%nat then ascii_of_nat (n + 32) else c.

(** [s.lower()] *)
Fixpoint lower (s : string) : string :=
  match s with
  | EmptyString => EmptyString
  | String c s' => String (lower_ascii c) (lower s')
  end.

(** [s.startswith(p)] *)
Fixpoint startswith (p s : string) : bool :=
  match p, s with
  | EmptyString, _ => true
  | String _ _, EmptyString => false
  | String a p', String b s' => if Ascii.eqb a b then startswith p' s' else false
  end.

(** [needle in hay] on strings: substring test. *)
Fixpoint contains (needle hay : string) : bool :=
  if startswith needle hay then true
  else match hay with
       | EmptyString => false
       | String _ hay' => contains needle hay'
       end.

(** [s.replace(old, new)] for a non-empty [old]: [skip] characters of a
    match found earlier are still to be dropped. *)
Fixpoint replace_from (old new : string) (skip : nat) (s : string) : string :=
  match s with
  | EmptyString => EmptyString
  | String c s' =>
      match skip with
      | S skip => replace_from old new skip s'
      | O =>
          if startswith old s
          then new ++ replace_from old new (String.length old - 1) s'
          else String c (replace_from old new 0 s')
      end
  end.

(** [s.replace(old, new)]; an empty [old] matches before every character
    and at the end. *)
Fixpoint replace_empty (new s : string) : string :=
  match s with
  | EmptyString => new
  | String c s' => new ++ String c (replace_empty new s')
  end.

Definition replace (old new s : string) : string :=
  match old with
  | EmptyString => replace_empty new s
  | _ => replace_from old new 0 s
  end.

(** Truthiness of a string: the empty string is false. *)
Definition truthy (s : string) : bool :=
  match s with EmptyString => false | _ => true end.

Definition is_lower (c : ascii) : bool :=
  let n := nat_of_ascii c in (97 <=? n)%nat && (n <=? 122)%nat.

Definition is_upper (c : ascii) : bool :=
  let n := nat_of_ascii c in (65 <=? n)%nat && (n <=? 90)%nat.

Definition upper_ascii (c : ascii) : ascii :=
  if is_lower c then ascii_of_nat (nat_of_ascii c - 32) else c.

(** [s.title()]: a letter that follows a letter is lowered, any other letter
    is raised; [previous_is_cased] tells whether the character before was a
    letter. *)
Fixpoint title_from (previous_is_cased : bool) (s : string) : string :=
  match s with
  | EmptyString => EmptyString
  | String c s' =>
      if is_lower c then
        String (if previous_is_cased then c else upper_ascii c) (title_from true s')
      else if is_upper c then
        String (if previous_is_cased then lower_ascii c else c) (title_from true s')
      else String c (title_from false s')
  end.

Definition title (s : string) : string := title_from false s.

(** [s.isascii()]: every character is below 128.  The case mappings above
    are those of Python on such strings. *)
Fixpoint is_ascii (s : string) : bool :=
  match s with
  | EmptyString => true
  | String c s' => (nat_of_ascii c <? 128)%nat && is_ascii s'
  end.

End PyStr.

(** ** Builtins on lists *)

Module PyList.

(** [sorted(l, key=key, reverse=True)]: the stable sort into descending
    order; elements compare by [<] on their keys, and elements none of which
    is smaller than the other keep their order. *)
Fixpoint insert_desc {A} (key : A -> float) (x : A) (l : list A) : list A :=
  match l with
  | [] => [x]
  | y :: l' =>
      if (key x <? key y)%float then y :: insert_desc key x l' else x :: y :: l'
  end.

Fixpoint sorted_reverse {A} (key : A -> float) (l : list A) : list A :=
  match l with
  | [] => []
  | x :: l' => insert_desc key x (sorted_reverse key l')
  end.

(** The distinct elements of a list in the order of their first
    occurrence: the keys of a dictionary filled in that order. *)
Definition first_seen (l : list string) : list string :=
  reverse (remove_dups (reverse l)).

End PyList.

(** ** The language runtime *)

(** Builtins and library calls of the ranking code that are no IEEE
    operation. *)
Class Runtime := {
  (** [round(x, ndigits)] on a float *)
  py_round : float -> Z -> float;
  (** [x ** y] on floats *)
  py_pow : float -> float -> float;
  (** [datetime.datetime.now().month] *)
  now_month : Z;
  (** [numpy.log1p] *)
  np_log1p : float -> float;
  (** [Series.round(decimals)] *)
  np_round : float -> Z -> float;
  (** [Series.median()] *)
  pd_median : list float -> float
}.

(** ** Exceptions *)

Module Py.

Inductive exn :=
| KeyError (key : string)
| ValueError (msg : string)
| TypeError (msg : string)
| AttributeError (msg : string)
| IndexError (msg : string)
| FileNotFoundError (path : string)
| OSError (path : string)
| ReferenceError.

(** The outcome of a call: an exception raised, or the value returned. *)
Definition result (A : Type) : Type := exn + A.

Definition raise {A} (e : exn) : result A := inl e.
Definition ret {A} (a : A) : result A := inr a.

Definition bind {A B} (r : result A) (k : A -> result B) : result B :=
  match r with
  | inl e => inl e
  | inr a => k a
  end.

(** [[f x for x in l]], stopping at the first exception. *)
Fixpoint mapM {A B} (f : A -> result B) (l : list A) : result (list B) :=
  match l with
  | [] => inr []
  | x :: l =>
      match f x with
      | inl e => inl e
      | inr y =>
          match mapM f l with
          | inl e => inl e
          | inr ys => inr (y :: ys)
          end
      end
  end.

End Py.

Notation "'let*' x := e 'in' k" := (Py.bind e (fun x => k))
  (at level 10, x pattern, e at level 100, k at level 200).

(** ** pandas data frames *)

Module Pandas.
Import Py.

(** A value held in a frame, a dictionary or a row. *)
Inductive cell :=
| Num (x : float)
| Int (n : Z)
| Bool (b : bool)
| Str (s : string)
| Null.

(** A frame: the column labels in order, and the rows in order, each with
    its index label and its values by column.  A column label missing from a
    row reads as the missing value [Null]. *)
Record DataFrame := {
  columns : list string;
  rows : list (Z * gmap string cell)
}.

Definition nrows (df : DataFrame) : nat := length (rows df).

(** A cell of a numeric column in float arithmetic; the missing value is
    NaN.  pandas types a column as a whole: this is its conversion on a
    column of numbers ([number] below), where arithmetic on an integer
    column gives what arithmetic on the float values gives. *)
Definition to_float (c : cell) : result float :=
  match c with
  | Num x => ret x
  | Int n => ret (PyFloat.of_Z n)
  | Bool b => ret (if b then 1%float else 0%float)
  | Null => ret PrimFloat.nan
  | Str _ => raise (TypeError "unsupported operand type(s) for str")
  end.

(** A number of a numeric column: a float, or an integer that float64 holds
    exactly.  A column of such cells is a float64 or int64 column of pandas,
    and arithmetic on it gives what arithmetic on the float values gives. *)
Definition number (c : cell) : Prop :=
  match c with
  | Num _ => True
  | Int n => - 2 ^ 53 <= n <= 2 ^ 53
  | _ => False
  end.

(** A value converted to float64 by [numpy.asarray(..., dtype=float)]. *)
Definition as_float64 (c : cell) : result float :=
  match c with
  | Str _ => raise (ValueError "could not convert string to float")
  | _ => to_float c
  end.

(** [c in df.columns] *)
Definition has_column (c : string) (df : DataFrame) : bool :=
  bool_decide (c ∈ columns df).

Definition at_column (c : string) (r : Z * gmap string cell) : cell :=
  default Null (r.2 !! c).

(** [df[c]] *)
Definition getitem (df : DataFrame) (c : string) : result (list cell) :=
  if has_column c df then ret (map (at_column c) (rows df))
  else raise (KeyError c).

(** [df[c]] as floats, for arithmetic. *)
Definition numeric (df : DataFrame) (c : string) : result (list float) :=
  let* col := getitem df c in mapM to_float col.

Definition with_column (c : string) (cols : list string) : list string :=
  if bool_decide (c ∈ cols) then cols else cols ++ [c].

(** [df[c] = values] for an array or a series over the frame's index. *)
Definition setitem (df : DataFrame) (c : string) (values : list cell)
    : result DataFrame :=
  if (length values =? nrows df)%nat then
    ret {| columns := with_column c (columns df);
           rows := zip_with (fun r v => (r.1, <[c := v]> r.2)) (rows df) values |}
  else raise (ValueError "Length of values does not match length of index").

(** [df[c] = value] for a scalar. *)
Definition setitem_scalar (df : DataFrame) (c : string) (value : cell) : DataFrame :=
  {| columns := with_column c (columns df);
     rows := map (fun r => (r.1, <[c := value]> r.2)) (rows df) |}.

(** [df[names]] for a list of labels. *)
Definition select (df : DataFrame) (names : list string) : result DataFrame :=
  match List.filter (fun c => negb (has_column c df)) names with
  | missing :: _ => raise (KeyError missing)
  | [] =>
      ret {| columns := names;
             rows := map (fun r => (r.1, filter (fun kv => kv.1 ∈ names) r.2))
                         (rows df) |}
  end.

(** The frame as a float64 matrix, row by row, columns in order. *)
Definition to_matrix (df : DataFrame) : result (list (list float)) :=
  mapM (fun r => mapM (fun c => as_float64 (at_column c r)) (columns df)) (rows df).

(** [df.sort_values(by, ascending=False)] on a numeric column: descending,
    NaN last, equal keys in their order (as the sort does on the short
    frames the ranking sees; no statement below depends on the order of
    equal keys). *)
Definition sort_values_desc (df : DataFrame) (by_ : string) : result DataFrame :=
  let* keys := numeric df by_ in
  let keyed := zip keys (rows df) in
  let numbers := filter (fun kr => PrimFloat.is_nan kr.1 = false) keyed in
  let nans := filter (fun kr => ~ PrimFloat.is_nan kr.1 = false) keyed in
  ret {| columns := columns df;
         rows := (PyList.sorted_reverse fst numbers ++ nans).*2 |}.

(** [df.head(n)]: the first [n] rows; all but the last [-n] for a negative
    [n]. *)
Definition head (df : DataFrame) (n : Z) : DataFrame :=
  {| columns := columns df;
     rows := if 0 <=? n then take (Z.to_nat n) (rows df)
             else take (nrows df - Z.to_nat (- n)) (rows df) |}.

(** [row.get(c, default)] for a row of [df.iterrows()]. *)
Definition row_get (df : DataFrame) (r : Z * gmap string cell) (c : string)
    (default : cell) : cell :=
  if has_column c df then at_column c r else default.

(** The keys of a dictionary, in insertion order. *)
Definition keys (d : list (string * cell)) : list string := d.*1.

(** [d.get(k, default)] *)
Fixpoint dict_get (d : list (string * cell)) (k : string) (default : cell) : cell :=
  match d with
  | [] => default
  | (k', v) :: d => if String.eqb k k' then v else dict_get d k default
  end.

(** [pd.DataFrame([record])]: one row labelled 0, a column per key. *)
Definition from_record (record : list (string * cell)) : DataFrame :=
  {| columns := keys record;
     rows := [(0, list_to_map record)] |}.

(** The float value of a row at a column; NaN where there is none. *)
Definition num (c : string) (r : Z * gmap string cell) : float :=
  match to_float (at_column c r) with
  | inr x => x
  | inl _ => PrimFloat.nan
  end.

(** [df'] has the rows of [df], in order and under the same labels, with
    the columns [changed] assigned: every other column holds what it held. *)
Definition updates (changed : list string) (df df' : DataFrame) : Prop :=
  (forall c, c ∈ columns df -> c ∈ columns df')
  /\ (forall c, c ∈ columns df' -> c ∈ columns df \/ c ∈ changed)
  /\ Forall2 (fun r r' => r'.1 = r.1
                          /\ forall c, c ∉ changed -> at_column c r' = at_column c r)
             (rows df) (rows df').

(** The column [c] of [df] is there and holds the values [values]. *)
Definition holds (df : DataFrame) (c : string) (values : list cell) : Prop :=
  c ∈ columns df /\ map (at_column c) (rows df) = values.

(** Two frames agree on the columns [names]: each of them is in both frames
    or in neither, and the rows hold the same values at them, one by one;
    the other columns, the order of the columns and the index are free. *)
Definition agree_on (names : list string) (X X' : DataFrame) : Prop :=
  (forall c, c ∈ names -> (c ∈ columns X <-> c ∈ columns X'))
  /\ Forall2 (fun r r' => forall c, c ∈ names -> at_column c r = at_column c r')
             (rows X) (rows X').

(** *** Frames shared with the caller *)

(** Frames that a caller holds a reference to live in a store; a function
    that assigns to such a frame changes it for the caller too. *)
Abbreviation loc := positive (only parsing).
Abbreviation store := (gmap positive DataFrame) (only parsing).

(** A computation on the store that raises or returns. *)
Definition M (A : Type) : Type := store -> result A * store.

Definition mret {A} (a : A) : M A := fun h => (inr a, h).

Definition mbind {A B} (m : M A) (k : A -> M B) : M B :=
  fun h =>
    match m h with
    | (inl e, h') => (inl e, h')
    | (inr a, h') => k a h'
    end.

(** A computation that does not touch the store. *)
Definition lift {A} (r : result A) : M A := fun h => (r, h).

(** The frame behind a reference. *)
Definition read (l : loc) : M DataFrame :=
  fun h =>
    match h !! l with
    | Some df => (inr df, h)
    | None => (inl ReferenceError, h)
    end.

(** Assignments to the frame behind [l]: [f] gives the frame after them, or
    raises and leaves the frame as it was. *)
Definition modify (l : loc) (f : DataFrame -> result DataFrame) : M unit :=
  fun h =>
    match h !! l with
    | Some df =>
        match f df with
        | inr df' => (inr tt, <[l := df']> h)
        | inl e => (inl e, h)
        end
    | None => (inl ReferenceError, h)
    end.

(** [df.copy()]: a new frame with the same contents. *)
Definition copy (l : loc) : M loc :=
  fun h =>
    match h !! l with
    | Some df => let l' := fresh (dom h) in (inr l', <[l' := df]> h)
    | None => (inl ReferenceError, h)
    end.

(** [try: body except Exception as e: ...]: the exception [body] raised,
    if any, as a value; what [body] assigned before raising stays assigned. *)
Definition attempt {A} (body : M A) : M (result A) :=
  fun h => let '(r, h') := body h in (inr r, h').

End Pandas.

Notation "'let!' x := e 'in' k" := (Pandas.mbind e (fun x => k))
  (at level 10, x pattern, e at level 100, k at level 200).

(** ** services/nominatim_service.py *)

Module NominatimService.
Import Py.

(** The attributes of a [NominatimService] object, besides those every
    object has: the geocoder, and the methods of the class. *)
Definition attributes : list string :=
  ["geocoder"; "find_destination"; "find_attractions"; "find_hotels";
   "find_restaurants"; "find_museums"; "find_parks"; "plan_route_between_cities";
   "find_points_of_interest"; "get_nearby_cities"; "validate_address";
   "get_location_context"; "search_accommodation"; "calculate_travel_distance";
   "find_central_location"].

(** [self.nominatim.<name>] *)
Definition getattr (name : string) : result unit :=
  if bool_decide (name ∈ attributes) then ret tt
  else raise (AttributeError
                ("'NominatimService' object has no attribute '" ++ name ++ "'")%string).

End NominatimService.

(** ** models/location/resolver.py *)

Module LocationResolver.
Import Py.

(** [str(x)] for an optional string. *)
Definition str (x : option string) : string := default "None" x.

Section WithValidation.

(** The dictionaries a resolver returns, and what a validation of a
    location would be. *)
Variable Location Validation : Type.

(** The call of the validation, the test [validation['valid']], and the two
    dictionaries [resolve_location] builds from a validation. *)
Variable validate : string -> option string -> option string -> result Validation.
Variable valid : Validation -> result bool.
Variable not_found : Validation -> result Location.
Variable found : string -> option string -> option string -> Validation -> result Location.

(** [resolve_location(country, state, city)]: the outcome and the cache
    after the call. *)
Definition resolve_location (cache : gmap string Location) (country : string)
    (state city : option string) : result Location * gmap string Location :=
  let cache_key := (country ++ "|" ++ str state ++ "|" ++ str city)%string in
  match cache !! cache_key with
  | Some location => (ret location, cache)
  | None =>
      match (let* _ := NominatimService.getattr "validate_location" in
             let* validation := validate country state city in
             let* ok := valid validation in
             if ok then
               let* location := found country state city validation in
               ret (location, true)
             else
               let* location := not_found validation in
               ret (location, false)) with
      | inl e => (inl e, cache)
      | inr (location, true) => (ret location, <[cache_key := location]> cache)
      | inr (location, false) => (ret location, cache)
      end
  end.

End WithValidation.

End LocationResolver.

(** ** models/recommender/osm_recommender.py *)

Module OSMRecommender.

(** The [score_breakdown] entry of a ranked place. *)
Record ScoreBreakdown := {
  popularity : float;
  interest_match : float;
  season_fit : float;
  distance : float;
  diversity : float
}.

(** A place dictionary as [OverpassService._parse_element] builds it.  The
    keys [rank_score], [score_breakdown] and [rank] are absent ([None])
    until [_rank_places] writes them.  [tags] holds the tags with a string
    value; a tag whose value is [None] is absent from the map.  The places
    of one list are distinct dictionary objects. *)
Record Place := {
  name : string;
  category : string;
  lat : float;
  lon : float;
  tags : gmap string string;
  rank_score : option float;
  score_breakdown : option ScoreBreakdown;
  rank : option nat
}.

Definition CATEGORY_KEYWORDS : gmap string (list string) :=
  list_to_map [
    ("nature", ["beach"; "mountain"; "park"; "waterfall"; "viewpoint"]);
    ("religious", ["temple"; "monument"]);
    ("culture", ["museum"; "monument"; "tourist_attraction"]);
    ("adventure", ["mountain"; "viewpoint"; "beach"]);
    ("history", ["monument"; "museum"; "tourist_attraction"]);
    ("relaxation", ["beach"; "park"]);
    ("heritage", ["monument"; "tourist_attraction"])
  ].

(** [if tags.get(k):] *)
Definition tag_set (tags : gmap string string) (k : string) : bool :=
  match tags !! k with
  | Some v => PyStr.truthy v
  | None => false
  end.

Definition _calculate_popularity (place : Place) : float :=
  let tags := tags place in
  let score := 0.5%float in
  let score := if tag_set tags "wikipedia" then (score + 0.2)%float else score in
  let score := if tag_set tags "website" then (score + 0.1)%float else score in
  let score := if tag_set tags "description" then (score + 0.1)%float else score in
  let score :=
    if bool_decide (tags !! "tourism" = Some "attraction")
    then (score + 0.1)%float else score in
  PyFloat.min score 1.0.

(** The inner [for cat in relevant_categories: ... break]. *)
Definition keyword_hit (relevant_categories : list string) (place_category : string) : bool :=
  existsb (fun cat => PyStr.contains cat place_category) relevant_categories.

(** The body of [for interest in interests] of [_calculate_interest_match];
    [n] is [len(interests)]. *)
Definition interest_step (n : nat) (place_category : string)
    (score : float) (interest : string) : float :=
  let interest := PyStr.lower interest in
  let score :=
    match CATEGORY_KEYWORDS !! interest with
    | Some relevant_categories =>
        if keyword_hit relevant_categories place_category
        then (score + 1.0 / PyFloat.of_nat n)%float else score
    | None => score
    end in
  if PyStr.contains interest place_category || PyStr.contains place_category interest
  then (score + 0.5 / PyFloat.of_nat n)%float else score.

Definition _calculate_interest_match (place : Place)
    (interests : option (list string)) : float :=
  match interests with
  | None => 0.5%float
  | Some [] => 0.5%float
  | Some interests =>
      let place_category := PyStr.lower (category place) in
      let score := fold_left (interest_step (length interests) place_category)
                             interests 0.0%float in
      PyFloat.min score 1.0
  end.

Section WithRuntime.
Context `{RT : Runtime}.

Definition _calculate_season_fit (place : Place) : float :=
  let category := PyStr.lower (category place) in
  let month := now_month in
  if PyStr.contains "beach" category then
    if ((6 <=? month) && (month <=? 8))%Z then 1.0%float
    else if (((3 <=? month) && (month <=? 5)) || ((9 <=? month) && (month <=? 11)))%Z
         then 0.7%float
         else 0.4%float
  else if PyStr.contains "mountain" category || PyStr.contains "hill" category then
    if (((3 <=? month) && (month <=? 5)) || ((9 <=? month) && (month <=? 11)))%Z
    then 1.0%float
    else 0.7%float
  else 0.8%float.

Definition _calculate_distance_score
    (place_lat place_lon center_lat center_lon : float) : float :=
  let lat_diff := PrimFloat.abs (place_lat - center_lat) in
  let lon_diff := PrimFloat.abs (place_lon - center_lon) in
  let distance := py_pow (py_pow lat_diff 2 + py_pow lon_diff 2)%float 0.5%float in
  if (distance <? 0.1)%float then 1.0%float
  else if (distance <? 0.3)%float then 0.8%float
  else if (distance <? 0.5)%float then 0.6%float
  else 0.4%float.

(** The five sub-scores of one pass of [for place in places], before any
    rounding; [count] is [category_counts[category]] when the pass starts. *)
Definition sub_scores (interests : option (list string))
    (center_lat center_lon : float) (count : nat) (place : Place)
    : ScoreBreakdown :=
  {| popularity := _calculate_popularity place;
     interest_match := _calculate_interest_match place interests;
     season_fit := _calculate_season_fit place;
     distance :=
       _calculate_distance_score (lat place) (lon place) center_lat center_lon;
     diversity := (1.0 / (1.0 + PyFloat.of_nat count * 0.1))%float |}.

Definition final_score (s : ScoreBreakdown) : float :=
  (0.35 * popularity s +
   0.25 * interest_match s +
   0.20 * season_fit s +
   0.10 * distance s +
   0.10 * diversity s)%float.

(** [place['rank_score'] = ...; place['score_breakdown'] = {...}] *)
Definition write_scores (s : ScoreBreakdown) (place : Place) : Place :=
  {| name := name place; category := category place; lat := lat place;
     lon := lon place; tags := tags place;
     rank_score := Some (py_round (final_score s) 4);
     score_breakdown := Some {|
       popularity := py_round (popularity s) 2;
       interest_match := py_round (interest_match s) 2;
       season_fit := py_round (season_fit s) 2;
       distance := py_round (distance s) 2;
       diversity := py_round (diversity s) 2 |};
     rank := rank place |}.

(** The loop [for place in places] of [_rank_places].  [category_counts] is
    the [defaultdict(int)]: a missing key reads as 0.  Each scored place
    comes with the sub-scores the pass computed for it. *)
Fixpoint score_loop (interests : option (list string))
    (center_lat center_lon : float)
    (category_counts : gmap string nat) (places : list Place)
    : list (Place * ScoreBreakdown) :=
  match places with
  | [] => []
  | place :: places =>
      let category := category place in
      let count := default 0%nat (category_counts !! category) in
      let s := sub_scores interests center_lat center_lon count place in
      let category_counts := <[category := S count]> category_counts in
      (write_scores s place, s)
        :: score_loop interests center_lat center_lon category_counts places
  end.

(** [scored_places], in input order. *)
Definition score_places (interests : option (list string))
    (center_lat center_lon : float) (places : list Place) : list Place :=
  (score_loop interests center_lat center_lon ∅ places).*1.

End WithRuntime.

(** The sort key [lambda x: x['rank_score']]; every scored place has one. *)
Definition rank_key (place : Place) : float :=
  default PrimFloat.nan (rank_score place).

Definition set_rank (i : nat) (place : Place) : Place :=
  {| name := name place; category := category place; lat := lat place;
     lon := lon place; tags := tags place; rank_score := rank_score place;
     score_breakdown := score_breakdown place; rank := Some i |}.

(** [for i, place in enumerate(ranked, i0): place['rank'] = i] *)
Fixpoint enumerate_rank (i : nat) (ranked : list Place) : list Place :=
  match ranked with
  | [] => []
  | place :: ranked => set_rank i place :: enumerate_rank (S i) ranked
  end.

Definition _rank_places `{RT : Runtime} (places : list Place)
    (interests : option (list string)) (center_lat center_lon : float)
    : list Place :=
  let scored_places := score_places interests center_lat center_lon places in
  let ranked := PyList.sorted_reverse rank_key scored_places in
  enumerate_rank 1 ranked.

(** The place without the three keys that ranking writes. *)
Definition unranked (place : Place) : Place :=
  {| name := name place; category := category place; lat := lat place;
     lon := lon place; tags := tags place; rank_score := None;
     score_breakdown := None; rank := None |}.

(** The place without its [rank] key. *)
Definition clear_rank (place : Place) : Place :=
  {| name := name place; category := category place; lat := lat place;
     lon := lon place; tags := tags place; rank_score := rank_score place;
     score_breakdown := score_breakdown place; rank := None |}.

(** The number of places of category [c] in a list. *)
Definition category_count (c : string) (places : list Place) : nat :=
  length (filter (fun p => category p = c) places).

(** The composite score as the ranking formula states it. *)
Definition composite_score `{RT : Runtime}
    (popularity interest season distance diversity : float) : float :=
  py_round (0.35 * popularity + 0.25 * interest + 0.20 * season
            + 0.10 * distance + 0.10 * diversity)%float 4.

(** The diversity score of the [k]-th place of its category, [k] from 1. *)
Definition diversity_of_kth (k : nat) : float :=
  (1.0 / (1.0 + PyFloat.of_nat (k - 1) * 0.1))%float.

(** [categories[c] += 1] on a [defaultdict(int)], the keys in insertion
    order. *)
Fixpoint increment (c : string) (categories : list (string * nat))
    : list (string * nat) :=
  match categories with
  | [] => [(c, 1%nat)]
  | (c', n) :: rest =>
      if String.eqb c c' then (c', S n) :: rest else (c', n) :: increment c rest
  end.

(** [max(categories, key=categories.get)]: an entry is replaced only by a
    later one with a larger count. *)
Fixpoint max_by_count (best : string * nat) (rest : list (string * nat))
    : string * nat :=
  match rest with
  | [] => best
  | kv :: rest => max_by_count (if (best.2 <? kv.2)%nat then kv else best) rest
  end.

(** The dictionary [get_summary_statistics] returns when it is not empty. *)
Record Summary := {
  total_places : nat;
  categories : list (string * nat);
  average_score : float;
  top_category : string
}.

Section Statistics.
Context `{RT : Runtime}.
(** [sum] on floats; its rounding depends on the interpreter version. *)
Variable py_sum : list float -> float.

(** [None] is the empty dictionary [{}]. *)
Definition get_summary_statistics (recommendations : list Place)
    : Py.result (option Summary) :=
  match recommendations with
  | [] => Py.ret None
  | _ =>
      let categories :=
        fold_left (fun categories place => increment (category place) categories)
                  recommendations [] in
      let* scores :=
        Py.mapM (fun p => match rank_score p with
                       | Some x => Py.ret x
                       | None => Py.raise (Py.KeyError "rank_score")
                       end) recommendations in
      let avg_score := (py_sum scores / PyFloat.of_nat (length recommendations))%float in
      match categories with
      | [] => Py.raise (Py.ValueError "max() arg is an empty sequence")
      | first :: rest =>
          Py.ret (Some {| total_places := length recommendations;
                       categories := categories;
                       average_score := py_round avg_score 2;
                       top_category := (max_by_count first rest).1 |})
      end
  end.

End Statistics.

(** The entry points of the recommender resolve the location first. *)
Section EntryPoints.
Variable Location Validation Recommendations : Type.
Variable validate : string -> option string -> option string -> Py.result Validation.
Variable valid : Validation -> Py.result bool.
Variable not_found : Validation -> Py.result Location.
Variable found :
  string -> option string -> option string -> Validation -> Py.result Location.

(** The statements that follow the resolution of the location, in
    [get_recommendations] and in [get_places_by_category]; and
    [result.get('recommendations', [])]. *)
Variable recommendations_at :
  Location -> option (list string) -> Z -> Py.result Recommendations.
Variable places_at : Location -> string -> Z -> Py.result (list Place).
Variable recommendations_of : Recommendations -> list Place.

Definition get_recommendations (cache : gmap string Location) (country : string)
    (state city : option string) (interests : option (list string)) (limit : Z)
    : Py.result Recommendations * gmap string Location :=
  match LocationResolver.resolve_location Location Validation validate valid not_found
          found cache country state city with
  | (inl e, cache) => (inl e, cache)
  | (inr location, cache) => (recommendations_at location interests limit, cache)
  end.

Definition get_top_places (cache : gmap string Location) (country : string)
    (state city : option string) (interests : option (list string))
    : Py.result (list Place) * gmap string Location :=
  match get_recommendations cache country state city interests 10 with
  | (inl e, cache) => (inl e, cache)
  | (inr result, cache) => (Py.ret (recommendations_of result), cache)
  end.

Definition get_places_by_category (cache : gmap string Location) (country : string)
    (state city : option string) (category : string) (limit : Z)
    : Py.result (list Place) * gmap string Location :=
  match LocationResolver.resolve_location Location Validation validate valid not_found
          found cache country state city with
  | (inl e, cache) => (inl e, cache)
  | (inr location, cache) => (places_at location category limit, cache)
  end.

End EntryPoints.

End OSMRecommender.

(** ** services/overpass_service.py *)

Module OverpassService.
Import Py PyStr.

(** An element of an Overpass response.  [tags] is [element.get('tags', {})];
    a key that is absent from the element is [None]; [center], when there,
    holds the keys [lat] and [lon] it has. *)
Record Element := {
  tags : gmap string string;
  type : option string;
  id : option Z;
  lat : option float;
  lon : option float;
  center : option (option float * option float)
}.

(** A place as [_parse_element] returns it: the keys the recommender reads,
    and the OSM identity of the element. *)
Record ParsedPlace := {
  place : OSMRecommender.Place;
  osm_id : option Z;
  osm_type : string
}.

(** [tags.get(k) == v] *)
Definition tag_is (tags : gmap string string) (k v : string) : bool :=
  bool_decide (tags !! k = Some v).

Definition _categorize_place (tags : gmap string string) : string :=
  if tag_is tags "natural" "beach" then "Beach"
  else if tag_is tags "natural" "peak" then "Mountain"
  else if tag_is tags "natural" "waterfall" then "Waterfall"
  else if tag_is tags "tourism" "attraction" then "Tourist Attraction"
  else if tag_is tags "tourism" "museum" then "Museum"
  else if tag_is tags "tourism" "viewpoint" then "Viewpoint"
  else if tag_is tags "historic" "monument" then "Monument"
  else if tag_is tags "historic" "castle" then "Castle"
  else if tag_is tags "historic" "archaeological_site" then "Archaeological Site"
  else if tag_is tags "amenity" "place_of_worship" then
    let religion := default "Religious Site" (tags !! "religion") in
    if PyStr.truthy religion then (title religion ++ " Temple")%string else "Temple"
  else if tag_is tags "leisure" "park" then "Park"
  else "Point of Interest".

(** [tags.get(k)] when it is a non-empty string. *)
Definition tag_value (tags : gmap string string) (k : string) : option string :=
  match tags !! k with
  | Some v => if PyStr.truthy v then Some v else None
  | None => None
  end.

(** [tags.get('name') or tags.get('name:en') or tags.get('ref')], when it is
    not empty. *)
Definition name_of (tags : gmap string string) : option string :=
  match tag_value tags "name" with
  | Some name => Some name
  | None =>
      match tag_value tags "name:en" with
      | Some name => Some name
      | None => tag_value tags "ref"
      end
  end.

(** The tags a place keeps. *)
Definition PLACE_TAGS : list string :=
  ["tourism"; "natural"; "historic"; "leisure"; "amenity"; "religion";
   "wikipedia"; "website"; "description"].

(** [not x] on a coordinate: a missing coordinate and 0 are false. *)
Definition coordinate (x : option float) : option float :=
  match x with
  | Some x => if (x =? 0)%float then None else Some x
  | None => None
  end.

Definition _parse_element (element : Element) : result (option ParsedPlace) :=
  let tags := tags element in
  match name_of tags with
  | None => ret None
  | Some name =>
      let* type :=
        match type element with
        | Some type => ret type
        | None => raise (KeyError "type")
        end in
      let coordinates :=
        if String.eqb type "node" then Some (lat element, lon element)
        else center element in
      match coordinates with
      | None => ret None
      | Some (lat, lon) =>
          match coordinate lat, coordinate lon with
          | Some lat, Some lon =>
              ret (Some {|
                place := {|
                  OSMRecommender.name := name;
                  OSMRecommender.category := _categorize_place tags;
                  OSMRecommender.lat := lat;
                  OSMRecommender.lon := lon;
                  OSMRecommender.tags :=
                    filter (fun kv : string * string => kv.1 ∈ PLACE_TAGS) tags;
                  OSMRecommender.rank_score := None;
                  OSMRecommender.score_breakdown := None;
                  OSMRecommender.rank := None |};
                osm_id := id element;
                osm_type := type |})
          | _, _ => ret None
          end
      end
  end.

(** The loop [for element in result['elements']] of the fetch methods. *)
Fixpoint parse_elements (elements : list Element) : result (list ParsedPlace) :=
  match elements with
  | [] => ret []
  | element :: elements =>
      let* parsed := _parse_element element in
      let* places := parse_elements elements in
      ret (match parsed with Some p => p :: places | None => places end)
  end.

(** The public endpoints of the Overpass API. *)
Definition ENDPOINTS : list string :=
  ["https://overpass-api.de/api/interpreter";
   "https://overpass.kumi.systems/api/interpreter";
   "https://overpass.openstreetmap.ru/api/interpreter"].

(** [self.ENDPOINTS[self.current_endpoint % len(self.ENDPOINTS)]] *)
Definition _get_endpoint (current_endpoint : nat) : string :=
  nth (current_endpoint mod length ENDPOINTS) ENDPOINTS "".

(** [self.current_endpoint += 1] *)
Definition _rotate_endpoint (current_endpoint : nat) : nat := S current_endpoint.

(** What [requests.post], [raise_for_status] and [json] give at an attempt:
    a [RequestException], another exception, or the JSON of the response. *)
Inductive reply (A : Type) :=
| RequestException
| Raises (e : exn)
| Json (response : A).
Arguments RequestException {A}.
Arguments Raises {A} e.
Arguments Json {A} response.

Section Requests.
Context {A : Type}.

(** The network: the reply to the query at an attempt, by endpoint. *)
Variable post : nat -> string -> reply A.

(** The loop [for attempt in range(max_retries)] from [attempt] on, with
    [remaining] rounds to go, and [return None] after it: the outcome and
    the endpoint counter after the call. *)
Fixpoint attempts (max_retries remaining attempt current_endpoint : nat)
    : result (option A) * nat :=
  match remaining with
  | O => (ret None, current_endpoint)
  | S remaining =>
      match post attempt (_get_endpoint current_endpoint) with
      | Json response => (ret (Some response), current_endpoint)
      | Raises e => (raise e, current_endpoint)
      | RequestException =>
          if (attempt <? max_retries - 1)%nat
          then attempts max_retries remaining (S attempt)
                 (_rotate_endpoint current_endpoint)
          else (ret None, current_endpoint)
      end
  end.

(** [_make_request(query)]; the pauses of the rate limit are not part of
    the outcome. *)
Definition _make_request (current_endpoint : nat) : result (option A) * nat :=
  let max_retries := length ENDPOINTS in
  attempts max_retries max_retries 0 current_endpoint.

End Requests.

End OverpassService.

(** ** scikit-learn objects and joblib files *)

(** Fitted regressors and scalers are values of two types this development
    does not look into; fitting and predicting are the library's. *)
Class Sklearn := {
  regressor : Type;
  standard_scaler : Type;
  (** [StandardScaler()] *)
  new_scaler : standard_scaler;
  (** [scaler.fit_transform(X)]: the fitted scaler and the scaled matrix *)
  scaler_fit_transform :
    standard_scaler -> list (list float)
    -> Py.result (standard_scaler * list (list float));
  (** [scaler.transform(X)] *)
  scaler_transform : standard_scaler -> list (list float) -> Py.result (list (list float));
  (** the regressor of a model type, fitted: [model.fit(X_scaled, y)] *)
  regressor_fit :
    string -> list (list float) -> list float -> Py.result regressor;
  (** [model.predict(X_scaled)] *)
  regressor_predict : regressor -> list (list float) -> Py.result (list float)
}.

Module Joblib.
Import Py.

(** The objects the models hold in their attributes and dump to files. *)
Inductive pyobj `{SK : Sklearn} :=
| PyNone
| PyRegressor (e : regressor)
| PyScaler (s : standard_scaler)
| PyStrList (l : list string).

(** The files by path, and the paths a write fails at. *)
Record FileSystem `{SK : Sklearn} := {
  files : gmap string pyobj;
  denied : gset string
}.

Section WithSklearn.
Context `{SK : Sklearn}.

(** [path.exists()] *)
Definition exists_ (fs : FileSystem) (path : string) : bool :=
  bool_decide (is_Some (files fs !! path)).

(** [joblib.dump(obj, path)] *)
Definition dump (obj : pyobj) (path : string) (fs : FileSystem)
    : result unit * FileSystem :=
  if bool_decide (path ∈ denied fs) then (raise (OSError path), fs)
  else (ret tt, {| files := <[path := obj]> (files fs); denied := denied fs |}).

(** [joblib.load(path)] on a file system whose files are all written by
    [joblib.dump] and readable: the only failure is a missing file. *)
Definition load (path : string) (fs : FileSystem) : result pyobj :=
  match files fs !! path with
  | Some obj => ret obj
  | None => raise (FileNotFoundError path)
  end.

End WithSklearn.

(** [Path("trained_models") / f"{model_name}{suffix}"] *)
Definition artifact (model_name suffix : string) : string :=
  "trained_models/" ++ model_name ++ suffix.

End Joblib.

(** ** models/budget_prediction/ml_budget_model.py *)

Module MLBudgetModel.
Import Py Pandas Joblib.

Section WithSklearn.
Context `{SK : Sklearn}.

(** The attributes of a model object. *)
Record t := {
  model : pyobj;
  scaler : pyobj;
  feature_names : pyobj;
  is_trained : bool
}.

(** [MLBudgetModel()] *)
Definition init : t :=
  {| model := PyNone; scaler := PyScaler new_scaler;
     feature_names := PyStrList []; is_trained := false |}.

(** [train(X, y, model_type)]: the outcome and the model object after the
    call. *)
Definition train (self : t) (X : DataFrame) (y : list float) (model_type : string)
    : result unit * t :=
  let self := {| model := model self; scaler := scaler self;
                 feature_names := PyStrList (columns X);
                 is_trained := is_trained self |} in
  match scaler self with
  | PyScaler s =>
      match (let* m := to_matrix X in scaler_fit_transform s m) with
      | inl e => (inl e, self)
      | inr (s', X_scaled) =>
          let self := {| model := model self; scaler := PyScaler s';
                         feature_names := feature_names self;
                         is_trained := is_trained self |} in
          match regressor_fit model_type X_scaled y with
          | inl e => (inl e, self)
          | inr e =>
              (inr tt, {| model := PyRegressor e; scaler := scaler self;
                          feature_names := feature_names self;
                          is_trained := true |})
          end
      end
  | _ => (raise (AttributeError "fit_transform"), self)
  end.

Definition predict (self : t) (X : DataFrame) : result (list float) :=
  if negb (is_trained self)
  then raise (ValueError "Model not trained. Call train() first or load a trained model.")
  else
    let* X :=
      match feature_names self with
      | PyStrList names => select X names
      | _ => raise (KeyError "feature_names")
      end in
    let* X_scaled :=
      match scaler self with
      | PyScaler s => let* m := to_matrix X in scaler_transform s m
      | _ => raise (AttributeError "transform")
      end in
    match model self with
    | PyRegressor e => regressor_predict e X_scaled
    | _ => raise (AttributeError "predict")
    end.

(** [for feat in self.feature_names: if feat not in df.columns: df[feat] = 0] *)
Definition fill_missing (names : list string) (df : DataFrame) : DataFrame :=
  fold_left
    (fun df feat => if has_column feat df then df else setitem_scalar df feat (Int 0))
    names df.

Definition predict_trip_budget (self : t) (trip_features : list (string * cell))
    : result float :=
  if negb (is_trained self) then raise (ValueError "Model not trained")
  else
    let df := from_record trip_features in
    let* names :=
      match feature_names self with
      | PyStrList names => ret names
      | _ => raise (TypeError "feature_names is not iterable")
      end in
    let df := fill_missing names df in
    let* df := select df names in
    let* predictions := predict self df in
    match predictions with
    | prediction :: _ => ret prediction
    | [] => raise (IndexError "index 0 is out of bounds")
    end.

(** [save(model_name)]: [True] when the three files were written and are
    there, [False] when a write failed; raises on an untrained model. *)
Definition save (self : t) (model_name : string) (fs : FileSystem)
    : result bool * FileSystem :=
  if negb (is_trained self) then (raise (ValueError "No trained model to save"), fs)
  else
    let model_path := artifact model_name ".joblib" in
    let scaler_path := artifact model_name "_scaler.joblib" in
    let features_path := artifact model_name "_features.joblib" in
    match dump (model self) model_path fs with
    | (inl _, fs) => (ret false, fs)
    | (inr _, fs) =>
        match dump (scaler self) scaler_path fs with
        | (inl _, fs) => (ret false, fs)
        | (inr _, fs) =>
            match dump (feature_names self) features_path fs with
            | (inl _, fs) => (ret false, fs)
            | (inr _, fs) =>
                if exists_ fs model_path && exists_ fs scaler_path
                   && exists_ fs features_path
                then (ret true, fs) else (ret false, fs)
            end
        end
    end.

(** [load(model_name)]: the outcome and the model object after the call,
    with [model_path.exists()] and [joblib.load] as the parameters
    [path_exists] and [joblib_load]; an exception of [joblib.load] is raised
    again as it is, and an attribute assigned before it stays assigned. *)
Definition load_from (path_exists : string -> bool)
    (joblib_load : string -> result pyobj) (self : t) (model_name : string)
    : result unit * t :=
  let model_path := artifact model_name ".joblib" in
  let scaler_path := artifact model_name "_scaler.joblib" in
  let features_path := artifact model_name "_features.joblib" in
  if negb (path_exists model_path) then (raise (FileNotFoundError model_path), self)
  else
    match joblib_load model_path with
    | inl e => (inl e, self)
    | inr m =>
        let self := {| model := m; scaler := scaler self;
                       feature_names := feature_names self;
                       is_trained := is_trained self |} in
        match joblib_load scaler_path with
        | inl e => (inl e, self)
        | inr s =>
            let self := {| model := model self; scaler := s;
                           feature_names := feature_names self;
                           is_trained := is_trained self |} in
            match joblib_load features_path with
            | inl e => (inl e, self)
            | inr f =>
                (inr tt, {| model := model self; scaler := scaler self;
                            feature_names := f; is_trained := true |})
            end
        end
    end.

(** [load] on a file system. *)
Definition load (self : t) (model_name : string) (fs : FileSystem)
    : result unit * t :=
  load_from (exists_ fs) (fun path => Joblib.load path fs) self model_name.

(** [MLBudgetModel(model_path)]: the path is tested as a file, and then
    loaded as a model name. *)
Definition __init__ (model_path : option string) (fs : FileSystem) : result t :=
  let self := init in
  match model_path with
  | Some path =>
      if PyStr.truthy path && exists_ fs path then
        match load self path fs with
        | (inl e, _) => raise e
        | (inr _, self) => ret self
        end
      else ret self
  | None => ret self
  end.

End WithSklearn.

End MLBudgetModel.

(** ** models/recommender/ml_ranking_model.py *)

Module MLRankingModel.
Import Py Pandas Joblib.

(** An entry of the list [rank_places] returns. *)
Record RankedPlace := {
  place_id : cell;
  name : cell;
  score : float;
  rating : cell;
  category : cell;
  price_level : cell
}.

Definition category_interest_map : gmap string (list string) :=
  list_to_map [
    ("museum", ["culture"; "history"]);
    ("restaurant", ["food"]);
    ("park", ["nature"; "relaxation"]);
    ("beach", ["beach"; "relaxation"]);
    ("shopping", ["shopping"]);
    ("nightlife", ["nightlife"]);
    ("attraction", ["culture"; "adventure"])
  ].

(** [v == 1] *)
Definition is_one (v : cell) : bool :=
  match v with
  | Int n => (n =? 1)%Z
  | Num x => (x =? 1)%float
  | Bool b => b
  | _ => false
  end.

(** [[k.replace('interest_', '') for k, v in user_features.items()
      if k.startswith('interest_') and v == 1]] *)
Definition interests_of (user_features : list (string * cell)) : list string :=
  map (fun kv => PyStr.replace "interest_" "" kv.1)
      (List.filter (fun kv => PyStr.startswith "interest_" kv.1 && is_one kv.2)
                   user_features).

(** [len(set(user_interests) & set(cat_interests))] *)
Definition matches (user_interests cat_interests : list string) : nat :=
  size ((list_to_set user_interests : gset string) ∩ list_to_set cat_interests).

(** The closure [interest_boost(category)] of [_fallback_ranking]. *)
Definition interest_boost (user_interests : list string) (category : cell)
    : result float :=
  match category with
  | Str category =>
      let cat_interests :=
        default [] (category_interest_map !! PyStr.lower category) in
      ret (PyFloat.of_nat (matches user_interests cat_interests) * 0.2)%float
  | _ => raise (AttributeError "lower")
  end.

(** The result list built from the rows of the ranked frame. *)
Definition materialize (score_column : string) (ranked_df : DataFrame)
    : result (list RankedPlace) :=
  mapM (fun row =>
          let* score := to_float (at_column score_column row) in
          ret {| place_id := row_get ranked_df row "place_id" (Int row.1);
                 name := row_get ranked_df row "name" (Str "Unknown");
                 score := score;
                 rating := row_get ranked_df row "rating" (Int 0);
                 category := row_get ranked_df row "category" (Str "Unknown");
                 price_level := row_get ranked_df row "price_level" (Int 2) |})
       (rows ranked_df).

Section WithRuntime.
Context `{RT : Runtime} `{SK : Sklearn}.

(** The attributes of a model object. *)
Record t := {
  model : pyobj;
  scaler : pyobj;
  feature_names : pyobj;
  is_trained : bool
}.

(** [MLRankingModel()] *)
Definition init : t :=
  {| model := PyNone; scaler := PyScaler new_scaler;
     feature_names := PyStrList []; is_trained := false |}.

Definition predict (self : t) (X : DataFrame) : result (list float) :=
  if negb (is_trained self)
  then raise (ValueError "Model not trained. Call train() first or load a trained model.")
  else
    let* X :=
      match feature_names self with
      | PyStrList names => select X names
      | _ => raise (KeyError "feature_names")
      end in
    let* X_scaled :=
      match scaler self with
      | PyScaler s => let* m := to_matrix X in scaler_transform s m
      | _ => raise (AttributeError "transform")
      end in
    match model self with
    | PyRegressor e => regressor_predict e X_scaled
    | _ => raise (AttributeError "predict")
    end.

(** The assignments of [_fallback_ranking] to its copy [df], from
    [df['score'] = ...] to the interest boost. *)
Definition fallback_score (user_features : list (string * cell)) (df : DataFrame)
    : result DataFrame :=
  let* rating :=
    if has_column "rating" df then numeric df "rating"
    else ret (repeat 4.0%float (nrows df)) in
  let* df := setitem df "score" (map (fun r => Num (r / 5.0)) rating) in
  let* df :=
    if has_column "reviews_count" df then
      let* score := numeric df "score" in
      let* reviews := numeric df "reviews_count" in
      setitem df "score"
        (zip_with (fun s r => Num (s + np_log1p r / 10)) score reviews)
    else ret df in
  let user_budget := dict_get user_features "budget_encoded" (Int 2) in
  let* df :=
    if has_column "price_level" df then
      let* price := numeric df "price_level" in
      let* budget := to_float user_budget in
      let* df := setitem df "budget_penalty"
                   (map (fun p => Num (PrimFloat.abs (p - budget) * 0.1)) price) in
      let* score := numeric df "score" in
      let* penalty := numeric df "budget_penalty" in
      setitem df "score" (zip_with (fun s p => Num (s - p)) score penalty)
    else ret df in
  let user_interests := interests_of user_features in
  if has_column "category" df && negb (bool_decide (user_interests = [])) then
    let* category := getitem df "category" in
    let* boost := mapM (interest_boost user_interests) category in
    let* score := numeric df "score" in
    setitem df "score" (zip_with (fun s b => Num (s + b)) score boost)
  else ret df.

(** [df.sort_values(by, ascending=False).head(top_k)] and the result list. *)
Definition top_results (score_column : string) (df : DataFrame) (top_k : Z)
    : result (list RankedPlace) :=
  let* sorted := sort_values_desc df score_column in
  materialize score_column (head sorted top_k).

Definition _fallback_ranking (places_df : loc) (user_features : list (string * cell))
    (top_k : Z) : M (list RankedPlace) :=
  let! df := copy places_df in
  let! _ := modify df (fallback_score user_features) in
  let! scored := read df in
  lift (top_results "score" scored top_k).

(** [for key, value in user_features.items(): places_df[key] = value] *)
Definition broadcast (user_features : list (string * cell)) (df : DataFrame)
    : DataFrame :=
  fold_left (fun df kv => setitem_scalar df kv.1 kv.2) user_features df.

Definition rank_places (self : t) (places_df : loc)
    (user_features : list (string * cell)) (top_k : Z) : M (list RankedPlace) :=
  if negb (is_trained self) then _fallback_ranking places_df user_features top_k
  else
    let! _ := modify places_df (fun df => ret (broadcast user_features df)) in
    let! outcome :=
      attempt (let! X := read places_df in
               let! scores := lift (predict self X) in
               modify places_df (fun df => setitem df "ml_score" (map Num scores))) in
    match outcome with
    | inl _ => _fallback_ranking places_df user_features top_k
    | inr _ =>
        let! df := read places_df in
        lift (top_results "ml_score" df top_k)
    end.

(** [MLRankingModel(model_path)]: the class has no method [load_model]. *)
Definition __init__ (model_path : option string) (fs : FileSystem) : result t :=
  let self := init in
  match model_path with
  | Some path =>
      if PyStr.truthy path && exists_ fs path
      then raise (AttributeError "'MLRankingModel' object has no attribute 'load_model'")
      else ret self
  | None => ret self
  end.

(** [save(model_name)], as for the budget model. *)
Definition save (self : t) (model_name : string) (fs : FileSystem)
    : result bool * FileSystem :=
  if negb (is_trained self) then (raise (ValueError "No trained model to save"), fs)
  else
    let model_path := artifact model_name ".joblib" in
    let scaler_path := artifact model_name "_scaler.joblib" in
    let features_path := artifact model_name "_features.joblib" in
    match dump (model self) model_path fs with
    | (inl _, fs) => (ret false, fs)
    | (inr _, fs) =>
        match dump (scaler self) scaler_path fs with
        | (inl _, fs) => (ret false, fs)
        | (inr _, fs) =>
            match dump (feature_names self) features_path fs with
            | (inl _, fs) => (ret false, fs)
            | (inr _, fs) =>
                if exists_ fs model_path && exists_ fs scaler_path
                   && exists_ fs features_path
                then (ret true, fs) else (ret false, fs)
            end
        end
    end.

(** [load(model_name)]: the outcome and the model object after the call. *)
Definition load (self : t) (model_name : string) (fs : FileSystem)
    : result unit * t :=
  let model_path := artifact model_name ".joblib" in
  let scaler_path := artifact model_name "_scaler.joblib" in
  let features_path := artifact model_name "_features.joblib" in
  if negb (exists_ fs model_path) then (raise (FileNotFoundError model_path), self)
  else
    match Joblib.load model_path fs with
    | inl e => (inl e, self)
    | inr m =>
        let self := {| model := m; scaler := scaler self;
                       feature_names := feature_names self;
                       is_trained := is_trained self |} in
        match Joblib.load scaler_path fs with
        | inl e => (inl e, self)
        | inr s =>
            let self := {| model := model self; scaler := s;
                           feature_names := feature_names self;
                           is_trained := is_trained self |} in
            match Joblib.load features_path fs with
            | inl e => (inl e, self)
            | inr f =>
                (inr tt, {| model := model self; scaler := scaler self;
                            feature_names := f; is_trained := true |})
            end
        end
    end.

(** The string of a row's category; empty where it is no string. *)
Definition category_of (r : Z * gmap string cell) : string :=
  match at_column "category" r with
  | Str s => s
  | _ => ""
  end.

(** The user's budget as the fallback reads it, 2 by default. *)
Definition budget_of (user_features : list (string * cell)) : float :=
  match to_float (dict_get user_features "budget_encoded" (Int 2)) with
  | inr b => b
  | inl _ => PrimFloat.nan
  end.

(** The number of interests of the user that the row's category maps to. *)
Definition keyword_matches (user_features : list (string * cell))
    (r : Z * gmap string cell) : nat :=
  matches (interests_of user_features)
          (default [] (category_interest_map !! PyStr.lower (category_of r))).

(** The fallback score of a row as the specification states it; the
    interest term is only added for a user with interests. *)
Definition fallback_formula (user_features : list (string * cell))
    (r : Z * gmap string cell) : float :=
  let base :=
    (num "rating" r / 5.0 + np_log1p (num "reviews_count" r) / 10
     - 0.1 * PrimFloat.abs (num "price_level" r - budget_of user_features))%float in
  match interests_of user_features with
  | [] => base
  | _ => (base + 0.2 * PyFloat.of_nat (keyword_matches user_features r))%float
  end.

End WithRuntime.

(** What the fallback needs to read a frame: the columns [rating],
    [reviews_count], [price_level] and [category] are there, the first three
    hold no string and the last holds strings. *)
Definition readable_places (df : DataFrame) : Prop :=
  (forall c, c ∈ ["rating"; "reviews_count"; "price_level"; "category"] ->
             c ∈ columns df)
  /\ Forall (fun r =>
               (forall c s, c ∈ ["rating"; "reviews_count"; "price_level"] ->
                            at_column c r <> Str s)
               /\ exists s, at_column "category" r = Str s)
            (rows df).

(** What the fallback needs to read the budget: it is no string. *)
Definition readable_user (user_features : list (string * cell)) : Prop :=
  forall s, dict_get user_features "budget_encoded" (Int 2) <> Str s.

(** A well-formed places frame: the columns [rating], [reviews_count],
    [price_level] and [category] are there, the first three hold numbers (so
    that pandas holds them as numeric columns) and the last holds ASCII
    strings. *)
Definition well_formed_places (df : DataFrame) : Prop :=
  (forall c, c ∈ ["rating"; "reviews_count"; "price_level"; "category"] ->
             c ∈ columns df)
  /\ Forall (fun r =>
               (forall c, c ∈ ["rating"; "reviews_count"; "price_level"] ->
                          number (at_column c r))
               /\ exists s, at_column "category" r = Str s /\ PyStr.is_ascii s = true)
            (rows df).

(** Well-formed user features, as [create_user_features] builds them: the
    budget, when given, is a number, and a key that starts with [interest_]
    names its interest after the prefix, without a second [interest_]. *)
Definition well_formed_user (user_features : list (string * cell)) : Prop :=
  number (dict_get user_features "budget_encoded" (Int 2))
  /\ Forall (fun kv =>
               PyStr.startswith "interest_" kv.1 = true ->
               exists interest : string,
                 kv.1 = ("interest_" ++ interest)%string
                 /\ PyStr.contains "interest_" interest = false)
            user_features.

End MLRankingModel.

(** ** The fallback score in the words of the specification *)

(** The score [rating/5 + ln(1 + review_count)/10 - 0.1*|price_level -
    user_budget| + 0.2*(count of matching category-interest keywords)],
    written from the specification and not from the code: the keywords of a
    category are looked up in the table, the user has an interest when its
    flag is 1, and the count is the number of keywords of the category that
    the user has. *)
Module FallbackSpec.
Import Pandas.

Definition capitals : list ascii := list_ascii_of_string "ABCDEFGHIJKLMNOPQRSTUVWXYZ".
Definition smalls : list ascii := list_ascii_of_string "abcdefghijklmnopqrstuvwxyz".

(** The small letter of a capital; any other character is kept. *)
Definition small (c : ascii) : ascii :=
  match List.find (fun p : ascii * ascii => Ascii.eqb c p.1) (combine capitals smalls) with
  | Some p => p.2
  | None => c
  end.

(** A category name in small letters. *)
Definition lowercase (s : string) : string :=
  string_of_list_ascii (map small (list_ascii_of_string s)).

(** The interest keywords of each category. *)
Definition category_keywords : list (string * list string) :=
  [("museum", ["culture"; "history"]);
   ("restaurant", ["food"]);
   ("park", ["nature"; "relaxation"]);
   ("beach", ["beach"; "relaxation"]);
   ("shopping", ["shopping"]);
   ("nightlife", ["nightlife"]);
   ("attraction", ["culture"; "adventure"])].

Definition keywords (category : string) : list string :=
  match List.find (fun entry : string * list string =>
                     String.eqb (lowercase category) entry.1) category_keywords with
  | Some entry => entry.2
  | None => []
  end.

(** The flag of an interest is set. *)
Definition flag_set (v : cell) : bool :=
  match v with
  | Int 1 => true
  | Num x => (x =? 1)%float
  | Bool true => true
  | _ => false
  end.

(** The user has the interest: its flag [interest_<name>] is 1. *)
Definition has_interest (user_features : list (string * cell)) (interest : string)
    : bool :=
  existsb (fun kv : string * cell =>
             String.eqb kv.1 ("interest_" ++ interest) && flag_set kv.2)
          user_features.

(** The user has some interest. *)
Definition has_interests (user_features : list (string * cell)) : bool :=
  existsb (fun kv : string * cell =>
             String.prefix "interest_" kv.1 && flag_set kv.2)
          user_features.

(** The count of matching category-interest keywords. *)
Definition matching_keywords (user_features : list (string * cell))
    (category : string) : nat :=
  length (List.filter (has_interest user_features) (keywords category)).

(** The number held under a key of a row; NaN where it is missing. *)
Definition number_at (c : string) (r : Z * gmap string cell) : float :=
  match r.2 !! c with
  | Some (Num x) => x
  | Some (Int n) => PyFloat.of_Z n
  | _ => PrimFloat.nan
  end.

(** The category of a row. *)
Definition category_at (r : Z * gmap string cell) : string :=
  match r.2 !! "category" with
  | Some (Str s) => s
  | _ => ""
  end.

(** The budget of the user, 2 when the features have none. *)
Definition user_budget (user_features : list (string * cell)) : float :=
  match List.find (fun kv : string * cell => String.eqb kv.1 "budget_encoded")
                  user_features with
  | Some (_, Num x) => x
  | Some (_, Int n) => PyFloat.of_Z n
  | Some _ => PrimFloat.nan
  | None => 2%float
  end.

Section WithRuntime.
Context `{RT : Runtime}.

(** The fallback score of a row; the interest term is there for a user with
    some interest. *)
Definition score (user_features : list (string * cell)) (r : Z * gmap string cell)
    : float :=
  let base :=
    (number_at "rating" r / 5.0 + np_log1p (number_at "reviews_count" r) / 10
     - 0.1 * PrimFloat.abs (number_at "price_level" r - user_budget user_features))%float in
  if has_interests user_features
  then (base + 0.2 * PyFloat.of_nat (matching_keywords user_features (category_at r)))%float
  else base.

End WithRuntime.

End FallbackSpec.

(** ** The ensemble of ranking models *)

Module EnsembleRankingModel.
Import Py Pandas Joblib.

Section WithRuntime.
Context `{RT : Runtime} `{SK : Sklearn}.

(** The attributes of an ensemble. *)
Record t := {
  models : list MLRankingModel.t;
  weights : list float
}.

(** [EnsembleRankingModel()] *)
Definition init : t := {| models := []; weights := [] |}.

Definition add_model (self : t) (model : MLRankingModel.t) (weight : float) : t :=
  {| models := models self ++ [model]; weights := weights self ++ [weight] |}.

(** numpy: the sum of an array, and [np.average(a, axis=0, weights=w)] of
    a list of score arrays. *)
Variable np_sum : list float -> float.
Variable np_average : list (list float) -> list float -> result (list float).

(** [weights / weights.sum()] *)
Definition normalized (weights : list float) : list float :=
  let total := np_sum weights in map (fun w => (w / total)%float) weights.

Definition predict (self : t) (X : DataFrame) : result (list float) :=
  match models self with
  | [] => raise (ValueError "No models in ensemble")
  | _ =>
      let weights := normalized (weights self) in
      let* predictions := mapM (fun model => MLRankingModel.predict model X) (models self) in
      np_average predictions weights
  end.

Definition rank_places (self : t) (places_df : loc)
    (user_features : list (string * cell)) (top_k : Z)
    : M (list MLRankingModel.RankedPlace) :=
  let! X := read places_df in
  let! scores_list :=
    lift (mapM (fun model => MLRankingModel.predict model X)
               (List.filter MLRankingModel.is_trained (models self))) in
  match scores_list with
  | [] =>
      match models self with
      | first :: _ => MLRankingModel.rank_places first places_df user_features top_k
      | [] => lift (raise (IndexError "list index out of range"))
      end
  | _ =>
      let weights := normalized (take (length scores_list) (weights self)) in
      let! ensemble_scores := lift (np_average scores_list weights) in
      let! _ := modify places_df
                  (fun df => setitem df "ensemble_score" (map Num ensemble_scores)) in
      let! ranked := read places_df in
      lift (MLRankingModel.top_results "ensemble_score" ranked top_k)
  end.

End WithRuntime.

End EnsembleRankingModel.

(** ** data/feature_engineering.py *)

Module FeatureEngineer.
Import Py Pandas.

(** [pd.cut(x, bins, labels)] on one value, intervals closed on the right:
    the label of the interval [(bins[i-1], bins[i]]] that holds [x], where
    [i] is the number of bin edges below [x]; no label below or at the
    first edge, above the last, or for NaN. *)
Definition cut (bins : list float) (labels : list Z) (x : float) : option Z :=
  let i := length (List.filter (fun b => (b <? x)%float) bins) in
  if (i =? 0)%nat || (i =? length bins)%nat then None
  else labels !! (i - 1)%nat.

(** [.astype(int)] on the result of [pd.cut]. *)
Definition astype_int (labels : list (option Z)) : result (list cell) :=
  mapM (fun l => match l with
                 | Some n => ret (Int n)
                 | None => raise (ValueError "Cannot convert float NaN to integer")
                 end) labels.

(** [(series > x).astype(int)] and the like. *)
Definition flag (b : bool) : cell := Int (if b then 1 else 0).

(** [Series.max()]: the largest value that is not NaN; NaN if there is
    none. *)
Definition series_max (l : list float) : float :=
  fold_left (fun m x =>
               if PrimFloat.is_nan x then m
               else if PrimFloat.is_nan m then x
               else PyFloat.max m x)
            l PrimFloat.nan.

(** The distinct strings of a list in ascending order. *)
Fixpoint insert_unique (s : string) (l : list string) : list string :=
  match l with
  | [] => [s]
  | t :: l' =>
      match String.compare s t with
      | Lt => s :: l
      | Eq => l
      | Gt => t :: insert_unique s l'
      end
  end.

Definition sorted_unique (l : list string) : list string :=
  fold_right insert_unique [] l.

(** The category labels of a column for [pd.get_dummies]: missing values
    have none. *)
Definition category_labels (col : list cell) : result (list (option string)) :=
  mapM (fun c => match c with
                 | Str s => ret (Some s)
                 | Null => ret None
                 | _ => raise (TypeError "category is not a string")
                 end) col.

(** [pd.concat([df, pd.get_dummies(df[c], prefix=prefix)], axis=1)] *)
Definition concat_dummies (df : DataFrame) (prefix : string)
    (labels : list (option string)) : result DataFrame :=
  fold_left
    (fun acc v =>
       let* df := acc in
       setitem df (prefix ++ "_" ++ v)
         (map (fun l => Bool (bool_decide (l = Some v))) labels))
    (sorted_unique (omap id labels)) (ret df).

Section WithRuntime.
Context `{RT : Runtime}.

Definition create_place_features (places_df : DataFrame) : result DataFrame :=
  let df := places_df in
  (* 1. rating features *)
  let df := if has_column "rating" df then df
            else setitem_scalar df "rating" (Num 4.0) in
  let* rating := numeric df "rating" in
  let* df := setitem df "rating_normalized" (map (fun r => Num (r / 5.0)) rating) in
  let* rating := numeric df "rating" in
  let* df := setitem df "has_rating" (map (fun r => flag (0 <? r)%float) rating) in
  let* rating := numeric df "rating" in
  let* quality := astype_int (map (cut [0; 3; 4; 5]%float [0; 1; 2]) rating) in
  let* df := setitem df "rating_quality" quality in
  (* 2. popularity features *)
  let* reviews := numeric df "reviews_count" in
  let* df := setitem df "log_reviews" (map (fun n => Num (np_log1p n)) reviews) in
  let* rating := numeric df "rating" in
  let* reviews := numeric df "reviews_count" in
  let* df := setitem df "popularity_score"
               (zip_with (fun r n => Num (r * np_log1p n)) rating reviews) in
  let* reviews := numeric df "reviews_count" in
  let median := pd_median reviews in
  let* df := setitem df "is_popular" (map (fun n => flag (median <? n)%float) reviews) in
  (* 3. price features *)
  let* price := numeric df "price_level" in
  let* df := setitem df "price_level_normalized" (map (fun p => Num (p / 4.0)) price) in
  let* price := numeric df "price_level" in
  let* df := setitem df "is_budget_friendly" (map (fun p => flag (p <=? 2)%float) price) in
  let* price := numeric df "price_level" in
  let* df := setitem df "is_luxury" (map (fun p => flag (3 <=? p)%float) price) in
  (* 4. category features *)
  let* category := getitem df "category" in
  let* labels := category_labels category in
  let* df := concat_dummies df "cat" labels in
  (* 5. geographic features *)
  let* latitude := numeric df "latitude" in
  let* df := setitem df "lat_rounded" (map (fun x => Num (np_round x 2)) latitude) in
  let* longitude := numeric df "longitude" in
  let* df := setitem df "lon_rounded" (map (fun x => Num (np_round x 2)) longitude) in
  (* 6. composite score *)
  let* rating_normalized := numeric df "rating_normalized" in
  let* log_reviews := numeric df "log_reviews" in
  let log_reviews_max := series_max log_reviews in
  let* price := numeric df "price_level" in
  setitem df "quality_score"
    (map (fun '(rn, lr, p) =>
            Num (rn * 0.4 + lr / log_reviews_max * 0.3 + (5 - p) / 4 * 0.3))
         (zip (zip rating_normalized log_reviews) price)).

End WithRuntime.

(** The quality score of a place in a batch without reviews as the
    specification states it: the review term contributes 0. *)
Definition quality_without_reviews (rating_normalized price_level : float) : float :=
  (0.4 * rating_normalized + 0.3 * (5 - price_level) / 4)%float.

(** The bucket of a rating in (0, 5]: low is 0, medium is 1, high is 2. *)
Definition rating_bucket (x : float) : Z :=
  if (x <=? 3)%float then 0 else if (x <=? 4)%float then 1 else 2.

(** What the feature engineer needs to read a batch: the six columns it
    reads are there, the five numeric ones hold no string, and the category
    of every place is a string. *)
Definition readable_batch (df : DataFrame) : Prop :=
  (forall c, c ∈ ["rating"; "reviews_count"; "price_level"; "category";
                  "latitude"; "longitude"] -> c ∈ columns df)
  /\ Forall (fun r =>
               (forall c s, c ∈ ["rating"; "reviews_count"; "price_level";
                                 "latitude"; "longitude"] -> at_column c r <> Str s)
               /\ exists s, at_column "category" r = Str s)
            (rows df).

(** A well-formed batch of places: the six columns the feature engineer
    reads are there, the five numeric ones hold numbers, the category of
    every place is an ASCII string, and the batch has a place.  pandas
    types a column by its values: on such a batch it holds the five columns
    as numeric columns, which it would not on a batch without rows. *)
Definition well_formed_batch (df : DataFrame) : Prop :=
  (forall c, c ∈ ["rating"; "reviews_count"; "price_level"; "category";
                  "latitude"; "longitude"] -> c ∈ columns df)
  /\ Forall (fun r =>
               (forall c, c ∈ ["rating"; "reviews_count"; "price_level";
                               "latitude"; "longitude"] -> number (at_column c r))
               /\ exists s, at_column "category" r = Str s /\ PyStr.is_ascii s = true)
            (rows df)
  /\ rows df <> [].

(** The columns that [create_place_features] assigns besides the category
    indicators, each with its value for a row of the input; [median] is the
    median of the review counts of the batch and [log_reviews_max] the
    maximum of [log_reviews]. *)
Definition place_features `{RT : Runtime} (median log_reviews_max : float)
    : list (string * (Z * gmap string cell -> cell)) :=
  [("rating_normalized", fun r => Num (num "rating" r / 5.0));
   ("has_rating", fun r => flag (0 <? num "rating" r)%float);
   ("rating_quality", fun r => Int (rating_bucket (num "rating" r)));
   ("log_reviews", fun r => Num (np_log1p (num "reviews_count" r)));
   ("popularity_score",
    fun r => Num (num "rating" r * np_log1p (num "reviews_count" r)));
   ("is_popular", fun r => flag (median <? num "reviews_count" r)%float);
   ("price_level_normalized", fun r => Num (num "price_level" r / 4.0));
   ("is_budget_friendly", fun r => flag (num "price_level" r <=? 2)%float);
   ("is_luxury", fun r => flag (3 <=? num "price_level" r)%float);
   ("lat_rounded", fun r => Num (np_round (num "latitude" r) 2));
   ("lon_rounded", fun r => Num (np_round (num "longitude" r) 2));
   ("quality_score",
    fun r => Num (num "rating" r / 5.0 * 0.4
                  + np_log1p (num "reviews_count" r) / log_reviews_max * 0.3
                  + (5 - num "price_level" r) / 4 * 0.3))].

(** The user preferences that [create_user_features] reads; a key that is
    absent is [None]. *)
Record UserPrefs := {
  budget_level : option string;
  interests : option (list string);
  travel_style : option string;
  group_size : option Z
}.

Definition budget_map : list (string * Z) :=
  [("low", 1); ("medium", 2); ("high", 3); ("luxury", 4)].

Definition all_interests : list string :=
  ["culture"; "nature"; "food"; "adventure"; "shopping"; "history"; "beach";
   "nightlife"; "relaxation"].

Definition style_map : list (string * Z) :=
  [("relaxed", 1); ("moderate", 2); ("packed", 3)].

(** [m.get(k, default)] on a dictionary of integers. *)
Fixpoint int_get (m : list (string * Z)) (k : string) (default : Z) : Z :=
  match m with
  | [] => default
  | (k', v) :: m => if String.eqb k k' then v else int_get m k default
  end.

(** The features in the order the code inserts them. *)
Definition create_user_features (user_prefs : UserPrefs) : list (string * cell) :=
  let budget_encoded :=
    int_get budget_map (default "medium" (budget_level user_prefs)) 2 in
  let user_interests := default [] (interests user_prefs) in
  let group_size := default 1 (group_size user_prefs) in
  [("budget_encoded", Int budget_encoded);
   ("budget_normalized", Num (PyFloat.of_Z budget_encoded / 4.0))]
  ++ map (fun interest : string =>
            (("interest_" ++ interest)%string,
             Int (if bool_decide (interest ∈ user_interests) then 1 else 0)))
         all_interests
  ++ [("travel_pace",
       Int (int_get style_map (default "moderate" (travel_style user_prefs)) 2));
      ("group_size", Int group_size);
      ("is_solo", Int (if group_size =? 1 then 1 else 0));
      ("is_group", Int (if 4 <=? group_size then 1 else 0))].


(** [d[k]] on a dictionary. *)
Fixpoint dict_item (d : list (string * cell)) (k : string) : result cell :=
  match d with
  | [] => raise (KeyError k)
  | (k', v) :: d => if String.eqb k k' then ret v else dict_item d k
  end.

(** [v == n] for an integer [n]. *)
Definition equals (v : cell) (n : Z) : bool :=
  match v with
  | Int m => (m =? n)%Z
  | Num x => (x =? PyFloat.of_Z n)%float
  | Bool b => ((if b then 1 else 0) =? n)%Z
  | _ => false
  end.

(** [series.isin(values).astype(int)] on one value. *)
Definition isin (values : list string) (c : cell) : cell :=
  flag (match c with Str s => bool_decide (s ∈ values) | _ => false end).

(** The closure [calculate_interest_match(category)] of
    [create_interaction_features]. *)
Definition calculate_interest_match (user_interests : list string) (category : cell)
    : result float :=
  match category with
  | Str category =>
      let category_interests :=
        default [] (MLRankingModel.category_interest_map !! PyStr.lower category) in
      let matches := MLRankingModel.matches user_interests category_interests in
      ret (PyFloat.of_nat matches
           / PyFloat.of_nat (Nat.max (length user_interests) 1))%float
  | _ => raise (AttributeError "lower")
  end.

Definition create_interaction_features (places_df : DataFrame)
    (user_features : list (string * cell)) : result DataFrame :=
  let df := places_df in
  let* user_budget := dict_item user_features "budget_encoded" in
  let* price := numeric df "price_level" in
  let* budget := to_float user_budget in
  let* df := setitem df "budget_match"
               (map (fun p => Num (1 - PrimFloat.abs (p - budget) / 4.0)) price) in
  let user_interests := MLRankingModel.interests_of user_features in
  let* category := getitem df "category" in
  let* interest_match := mapM (calculate_interest_match user_interests) category in
  let* df := setitem df "interest_match" (map Num interest_match) in
  let* pace := dict_item user_features "travel_pace" in
  let* df :=
    if equals pace 1 then
      let* category := getitem df "category" in
      setitem df "pace_match" (map (isin ["beach"; "park"; "spa"]) category)
    else if equals pace 3 then
      let* category := getitem df "category" in
      setitem df "pace_match" (map (isin ["attraction"; "museum"; "shopping"]) category)
    else ret (setitem_scalar df "pace_match" (Num 0.5)) in
  let* budget_match := numeric df "budget_match" in
  let* interest_match := numeric df "interest_match" in
  let* quality_score := numeric df "quality_score" in
  setitem df "compatibility_score"
    (map (fun '(b, i, q) => Num (b * 0.3 + i * 0.4 + q * 0.3))
         (zip (zip budget_match interest_match) quality_score)).

(** The value of [pace_match] for a category. *)
Definition pace_match_of (pace category : cell) : cell :=
  if equals pace 1 then isin ["beach"; "park"; "spa"] category
  else if equals pace 3 then isin ["attraction"; "museum"; "shopping"] category
  else Num 0.5.

(** The interest match of a category that is a string. *)
Definition interest_match_of (user_interests : list string) (category : string) : float :=
  (PyFloat.of_nat (MLRankingModel.matches user_interests
                     (default [] (MLRankingModel.category_interest_map !! PyStr.lower category)))
   / PyFloat.of_nat (Nat.max (length user_interests) 1))%float.

(** The share of a user's interests that a category serves, written from
    the property and not from the code: the number of interest keywords of
    the category that are among the interests, over the number of interests
    (over 1 when there is none). *)
Definition interest_share (interests : list string) (category : string) : float :=
  (PyFloat.of_nat (length (List.filter (fun keyword => bool_decide (keyword ∈ interests))
                                       (FallbackSpec.keywords category)))
   / PyFloat.of_nat (Nat.max (length interests) 1))%float.

End FeatureEngineer.

(** ** api/routes *)

Module Routes.
Import Py Pandas Joblib.

(** What the body of a route raises: an exception of the models, the
    [NameError] of a name that is not bound, or fastapi's [HTTPException]. *)
Inductive error :=
| Raised (e : exn)
| NameError (name : string)
| HTTPException (status_code : Z) (detail : string).

(** The outcome of a route: what it raises, or the response it returns. *)
Definition outcome (A : Type) : Type := error + A.

(** What a response holds under a key: a value, or a dictionary of values. *)
Inductive json :=
| Value (c : cell)
| Object (members : list (string * cell)).

(** A response: a dictionary, in the order of its keys. *)
Definition response : Type := list (string * json).

(** [d[key]] on a dictionary that is a list of keys and values. *)
Definition member {A} (key : string) (d : list (string * A)) : option A :=
  snd <$> List.find (fun kv => String.eqb key kv.1) d.

(** [d[k] = v] on a dictionary: the value of a key that is there is
    replaced where it stands, a new key goes last. *)
Fixpoint dict_set (d : list (string * cell)) (k : string) (v : cell)
    : list (string * cell) :=
  match d with
  | [] => [(k, v)]
  | (k', v') :: d => if String.eqb k k' then (k', v) :: d else (k', v') :: dict_set d k v
  end.

Section WithSklearn.
Context `{SK : Sklearn}.

(** [str(e)] *)
Variable py_str : error -> string.

(** [try: body except HTTPException: raise
     except Exception as e: raise HTTPException(500, prefix + str(e))] *)
Definition except_http_exception {A} (prefix : string) (body : outcome A) : outcome A :=
  match body with
  | inl (HTTPException status_code detail) => inl (HTTPException status_code detail)
  | inl e => inl (HTTPException 500 (prefix ++ py_str e))
  | inr response => inr response
  end.

(** [try: body except Exception as e: raise HTTPException(500, prefix + str(e))];
    [HTTPException] is an [Exception]. *)
Definition except_exception {A} (prefix : string) (body : outcome A) : outcome A :=
  match body with
  | inl e => inl (HTTPException 500 (prefix ++ py_str e))
  | inr response => inr response
  end.

(** The statements the budget and the trip routes share: a new model, the
    load of [budget_model], the trip features, the prediction, and its
    absolute value where it is below 0. *)
Definition predicted_budget (num_days num_people accommodation_level : Z)
    (fs : FileSystem) : result float :=
  let* model := MLBudgetModel.__init__ None fs in
  match MLBudgetModel.load model "budget_model" fs with
  | (inl e, _) => raise e
  | (inr _, model) =>
      let trip_features :=
        [("num_days", Int num_days); ("num_people", Int num_people);
         ("accommodation_level", Int accommodation_level);
         ("destination_cost_index", Num 1.0); ("season_multiplier", Num 1.0)] in
      let* predicted_budget := MLBudgetModel.predict_trip_budget model trip_features in
      ret (if (predicted_budget <? 0)%float then PrimFloat.abs predicted_budget
           else predicted_budget)
  end.

(** The [breakdown] of a budget. *)
Definition breakdown (budget : float) : json :=
  Object [("accommodation", Num (budget * 0.35));
          ("food", Num (budget * 0.30));
          ("activities", Num (budget * 0.20));
          ("transport", Num (budget * 0.15))].

End WithSklearn.

(** *** api/routes/budget.py *)

Module Budget.

Record BudgetRequest := {
  destination : string;
  num_days : Z;
  num_people : Z;
  accommodation_level : Z;
  travel_style : string
}.

Section WithSklearn.
Context `{SK : Sklearn}.
Variable py_str : error -> string.

Definition predict_budget (request : BudgetRequest) (fs : FileSystem) : outcome response :=
  except_http_exception py_str "Error predicting budget: "
    (if (num_days request <? 1) || (365 <? num_days request) then
       inl (HTTPException 400 "num_days must be between 1 and 365")
     else if (num_people request <? 1) || (50 <? num_people request) then
       inl (HTTPException 400 "num_people must be between 1 and 50")
     else if (accommodation_level request <? 1) || (5 <? accommodation_level request) then
       inl (HTTPException 400 "accommodation_level must be between 1 and 5")
     else
       match predicted_budget (num_days request) (num_people request)
               (accommodation_level request) fs with
       | inl e => inl (Raised e)
       | inr predicted_budget =>
           let per_person := (predicted_budget / PyFloat.of_Z (num_people request))%float in
           let per_day := (predicted_budget / PyFloat.of_Z (num_days request))%float in
           inr [("destination", Value (Str (destination request)));
                ("num_days", Value (Int (num_days request)));
                ("num_people", Value (Int (num_people request)));
                ("accommodation_level", Value (Int (accommodation_level request)));
                ("travel_style", Value (Str (travel_style request)));
                ("predicted_budget", Value (Num predicted_budget));
                ("currency", Value (Str "USD"));
                ("per_person", Value (Num per_person));
                ("per_day", Value (Num per_day));
                ("breakdown", breakdown predicted_budget)]
       end).

Definition estimate_budget (destination : string)
    (num_days num_people accommodation_level : Z) (fs : FileSystem) : outcome response :=
  except_http_exception py_str "Error estimating budget: "
    (if (num_days <? 1) || (365 <? num_days) then
       inl (HTTPException 400 "num_days must be between 1 and 365")
     else if (num_people <? 1) || (50 <? num_people) then
       inl (HTTPException 400 "num_people must be between 1 and 50")
     else if (accommodation_level <? 1) || (5 <? accommodation_level) then
       inl (HTTPException 400 "accommodation_level must be between 1 and 5")
     else
       match predicted_budget num_days num_people accommodation_level fs with
       | inl e => inl (Raised e)
       | inr predicted_budget =>
           inr [("destination", Value (Str destination));
                ("num_days", Value (Int num_days));
                ("num_people", Value (Int num_people));
                ("accommodation_level", Value (Int accommodation_level));
                ("estimated_budget", Value (Num predicted_budget));
                ("currency", Value (Str "USD"));
                ("breakdown", breakdown predicted_budget);
                ("per_person",
                 Value (Num (predicted_budget / PyFloat.of_Z num_people)));
                ("per_day",
                 Value (Num (predicted_budget / PyFloat.of_Z num_days)))]
       end).

End WithSklearn.

End Budget.

(** *** api/routes/trip.py *)

Module Trip.

Record TripRequest := {
  destination : string;
  start_date : string;
  end_date : string;
  num_people : Z;
  budget_level : string;
  interests : list string;
  accommodation_level : Z
}.

(** The names bound in the module: what it imports and what it defines. *)
Definition module_names : list string :=
  ["APIRouter"; "HTTPException"; "BaseModel"; "List"; "datetime"; "logging"; "sys";
   "Path"; "get_places_for_city"; "filter_places_by_interests";
   "select_places_for_itinerary"; "get_tamil_nadu_places";
   "filter_tn_places_by_category"; "router"; "logger"; "TripRequest"; "plan_trip";
   "generate_detailed_itinerary"; "estimate_trip"].

(** The evaluation of a name that is no local variable and no builtin. *)
Definition global (name : string) : outcome unit :=
  if bool_decide (name ∈ module_names) then inr tt else inl (NameError name).

Section WithSklearn.
Context `{SK : Sklearn}.
Variable py_str : error -> string.

Section PlanTrip.

(** [datetime]: the parser of ISO dates, and [(b - a).days], which raises
    for an aware and a naive date. *)
Variable datetime : Type.
Variable fromisoformat : string -> result datetime.
Variable days_between : datetime -> datetime -> result Z.

(** [s.split(',')[0].strip()] *)
Variable first_part : string -> string.

(** The statements of [plan_trip] after [TAMIL_NADU_PLACES] is evaluated,
    from the request, the number of days, the city and the budget. *)
Variable itinerary : TripRequest -> Z -> string -> float -> outcome response.

Definition plan_trip (request : TripRequest) (fs : FileSystem) : outcome response :=
  except_exception py_str "Error planning trip: "
    (match (let* start_date := fromisoformat (start_date request) in
            let* end_date := fromisoformat (end_date request) in
            days_between start_date end_date) with
     | inl e => inl (Raised e)
     | inr num_days =>
         if num_days <=? 0 then
           inl (HTTPException 400 "End date must be after start date")
         else
           let destination_city := first_part (destination request) in
           match predicted_budget num_days (num_people request)
                   (accommodation_level request) fs with
           | inl e => inl (Raised e)
           | inr total_budget =>
               match global "TAMIL_NADU_PLACES" with
               | inl e => inl e
               | inr _ => itinerary request num_days destination_city total_budget
               end
           end
     end).

End PlanTrip.

Definition estimate_trip (destination : string) (num_days num_people : Z)
    (budget_level : string) (fs : FileSystem) : outcome response :=
  except_exception py_str "Error estimating trip: "
    (if (num_days <? 1) || (365 <? num_days) then
       inl (HTTPException 400 "num_days must be between 1 and 365")
     else if (num_people <? 1) || (50 <? num_people) then
       inl (HTTPException 400 "num_people must be between 1 and 50")
     else
       match predicted_budget num_days num_people 3 fs with
       | inl e => inl (Raised e)
       | inr total_budget =>
           inr [("destination", Value (Str destination));
                ("num_days", Value (Int num_days));
                ("num_people", Value (Int num_people));
                ("budget_level", Value (Str budget_level));
                ("estimated_total", Value (Num total_budget));
                ("per_person", Value (Num (total_budget / PyFloat.of_Z num_people)));
                ("per_day", Value (Num (total_budget / PyFloat.of_Z num_days)));
                ("currency", Value (Str "USD"))]
       end).

End WithSklearn.

End Trip.

(** *** api/routes/places.py *)

Module Places.

Record Recommendations := {
  city : string;
  interests : list string;
  recommendations_count : nat;
  recommendations : list MLRankingModel.RankedPlace
}.

(** A row of the sample places, labelled by its position. *)
Definition sample_place (place_id : Z) (name category : string) (rating : float)
    (reviews_count price_level : Z) : Z * gmap string cell :=
  (place_id - 1,
   list_to_map [("place_id", Int place_id); ("name", Str name);
                ("category", Str category); ("rating", Num rating);
                ("reviews_count", Int reviews_count);
                ("price_level", Int price_level)]).

Definition sample_places : DataFrame :=
  {| columns := ["place_id"; "name"; "category"; "rating"; "reviews_count"; "price_level"];
     rows := [sample_place 1 "Museum" "museum" 4.7 234 2;
              sample_place 2 "Restaurant" "restaurant" 4.5 156 2;
              sample_place 3 "Park" "park" 4.3 89 1;
              sample_place 4 "Beach" "beach" 4.8 345 1;
              sample_place 5 "Shopping Center" "shopping" 4.2 123 3] |}.

(** The user features of the route: a flag per interest, and the budget. *)
Definition user_features_of (interests : list string) : list (string * cell) :=
  dict_set
    (fold_left (fun user_features interest =>
                  dict_set user_features ("interest_" ++ interest) (Int 1))
               interests [])
    "budget_encoded" (Int 2).

Section WithRuntime.
Context `{RT : Runtime} `{SK : Sklearn}.
Variable py_str : error -> string.

(** [recommend_places(city, interests, top_k)]; the frame of the sample
    places is held by the route only. *)
Definition recommend_places (city : string) (interests : option (list string))
    (top_k : Z) (fs : FileSystem) : outcome Recommendations :=
  except_exception py_str ""
    (let interests :=
       match interests with
       | Some (interest :: others) => interest :: others
       | _ => ["culture"; "food"]
       end in
     let top_k := if 20 <? top_k then 20 else top_k in
     let top_k := if top_k <? 1 then 1 else top_k in
     match MLRankingModel.__init__ None fs with
     | inl e => inl (Raised e)
     | inr model =>
         match MLRankingModel.load model "ranking_model" fs with
         | (inl e, _) => inl (Raised e)
         | (inr _, model) =>
             let places_df : loc := 1%positive in
             let user_features := user_features_of interests in
             match (MLRankingModel.rank_places model places_df user_features top_k
                      {[ places_df := sample_places ]}).1 with
             | inl e => inl (Raised e)
             | inr recommendations =>
                 inr {| city := city;
                        interests := interests;
                        recommendations_count := length recommendations;
                        recommendations := recommendations |}
             end
         end
     end).

End WithRuntime.

End Places.

End Routes.

(** ** A reference runtime *)

(** An implementation of [Runtime] to evaluate the code with: decimal
    rounding as CPython computes it (the float nearest to the decimal that
    is nearest to the exact value, ties to even; exact as long as the scaled
    value stays below 2^53), squares and square roots correctly rounded, a
    series for [log1p] (exact at 0), and the month fixed to July. *)
Module Reference.

(** The integer nearest to [num / den], ties to even; [den > 0]. *)
Definition round_half_even (num den : Z) : Z :=
  let q := num / den in
  let r := num mod den in
  if 2 * r <? den then q
  else if den <? 2 * r then q + 1
  else if Z.even q then q else q + 1.

(** The integer nearest to [m * 2^e * p]. *)
Definition scaled_round (m : positive) (e p : Z) : Z :=
  if 0 <=? e then Z.pos m * 2 ^ e * p
  else round_half_even (Z.pos m * p) (2 ^ (- e)).

Definition round_decimal (x : float) (ndigits : Z) : float :=
  match Prim2SF x with
  | S754_finite s m e =>
      let p := 10 ^ ndigits in
      let r := (PyFloat.of_Z (scaled_round m e p) / PyFloat.of_Z p)%float in
      if s then (- r)%float else r
  | _ => x
  end.

(** [numpy.rint] *)
Definition rint (x : float) : float :=
  match Prim2SF x with
  | S754_finite s m e =>
      let r := PyFloat.of_Z (scaled_round m e 1) in
      if s then (- r)%float else r
  | _ => x
  end.

(** [numpy.round(x, decimals)]: scale, round to an integer, scale back. *)
Definition round_scaled (x : float) (decimals : Z) : float :=
  let p := PyFloat.of_Z (10 ^ decimals) in
  (rint (x * p) / p)%float.

Definition pow (x y : float) : float :=
  if (y =? 2)%float then (x * x)%float
  else if (y =? 0.5)%float then PrimFloat.sqrt x
  else if (y =? 1)%float then x
  else PrimFloat.nan.

(** [2 * atanh z] by its series up to [z^(2 n + 1)], Horner form. *)
Fixpoint atanh2 (n : nat) (z2 : float) (k : Z) : float :=
  match n with
  | O => (2 / PyFloat.of_Z k)%float
  | S n => (2 / PyFloat.of_Z k + z2 * atanh2 n z2 (k + 2))%float
  end.

Definition ln2 : float := 0.6931471805599453%float.

(** [log(1 + x)] for [x >= 0]: [1 + x = m * 2^e] with [m] in [0.5, 1), and
    [log m = 2 atanh ((m - 1) / (m + 1))]. *)
Definition log1p (x : float) : float :=
  if (x =? 0)%float then x
  else
    let '(m, e) := Z.frexp (1 + x)%float in
    let z := ((m - 1) / (m + 1))%float in
    (PyFloat.of_Z e * ln2 + z * atanh2 12 (z * z) 1)%float.

(** The median of the values that are not NaN. *)
Definition median (l : list float) : float :=
  let s := rev (PyList.sorted_reverse (fun x => x)
                  (List.filter (fun x => negb (PrimFloat.is_nan x)) l)) in
  let n := length s in
  if (n =? 0)%nat then PrimFloat.nan
  else if Nat.odd n then nth (n / 2) s PrimFloat.nan
  else ((nth (n / 2 - 1) s PrimFloat.nan + nth (n / 2) s PrimFloat.nan) / 2)%float.

#[export] Instance runtime : Runtime := {|
  py_round := round_decimal;
  py_pow := pow;
  now_month := 7;
  np_log1p := log1p;
  np_round := round_scaled;
  pd_median := median
|}.

(** A stand-in for scikit-learn: a scaler that centres each feature on a
    stored mean, and a regressor that adds up the scaled features with stored
    weights.  A scaler raises when the width of a row is not the one it was
    fitted to. *)
Definition centre (means row : list float) : Py.result (list float) :=
  if (length means =? length row)%nat
  then Py.ret (zip_with (fun x m => (x - m)%float) row means)
  else Py.raise (Py.ValueError "X has a different number of features").

Definition weigh (weights row : list float) : float :=
  fold_left (fun acc xw => (acc + xw.1 * xw.2)%float) (zip row weights) 0%float.

Definition column_means (X : list (list float)) : list float :=
  match X with
  | [] => []
  | row :: _ =>
      imap (fun j _ =>
              (fold_left (fun acc r => (acc + nth j r 0)%float) X 0
               / PyFloat.of_nat (length X))%float) row
  end.

#[export] Instance sklearn : Sklearn := {|
  regressor := list float;
  standard_scaler := option (list float);
  new_scaler := None;
  scaler_fit_transform s X :=
    let means := column_means X in
    Py.bind (Py.mapM (centre means) X) (fun Xs => Py.ret (Some means, Xs));
  scaler_transform s X :=
    match s with
    | Some means => Py.mapM (centre means) X
    | None => Py.raise (Py.AttributeError "This StandardScaler instance is not fitted yet")
    end;
  regressor_fit model_type X y :=
    Py.ret (match X with [] => [] | row :: _ => map (fun _ => 1%float) row end);
  regressor_predict weights X := Py.ret (map (weigh weights) X)
|}.

End Reference.

(** ** Sample data *)

Module Samples.
Import OSMRecommender.

Definition place (name category : string) (lat lon : float)
    (tags : list (string * string)) : Place :=
  {| name := name; category := category; lat := lat; lon := lon;
     tags := list_to_map tags;
     rank_score := None; score_breakdown := None; rank := None |}.

Definition marina : Place := place "Marina Beach" "Beach" 13.05 80.28 [].
Definition elliot : Place :=
  place "Elliot's Beach" "Beach" 13.0 80.27 [("wikipedia", "en:Elliot's Beach")].
Definition fort_museum : Place :=
  place "Fort Museum" "Museum" 13.08 80.29 [("tourism", "museum"); ("website", "https://example.org")].
Definition kovalam : Place := place "Kovalam" "Beach" 12.79 80.25 [].

Definition chennai : list Place := [marina; elliot; fort_museum; kovalam].

(** A place whose category is "attraction" and that has no tags. *)
Definition plain_attraction : Place := place "Clock Tower" "attraction" 13.0 80.2 [].

(** A place tagged [tourism=attraction], as the map data marks them. *)
Definition tagged_attraction : Place :=
  place "Clock Tower" "Tourist Attraction" 13.0 80.2 [("tourism", "attraction")].

(** A budget model with two stored features. *)
Definition budget_model : MLBudgetModel.t (SK := Reference.sklearn) :=
  {| MLBudgetModel.model := Joblib.PyRegressor (SK := Reference.sklearn) [100; 50]%float;
     MLBudgetModel.scaler := Joblib.PyScaler (SK := Reference.sklearn) (Some [5; 2]%float);
     MLBudgetModel.feature_names := Joblib.PyStrList ["num_days"; "num_people"];
     MLBudgetModel.is_trained := true |}.

(** A trip that states its length only. *)
Definition short_trip : list (string * Pandas.cell) := [("num_days", Pandas.Int 7)].

(** The places the recommendation route ranks. *)
Definition sample_place (place_id : Z) (name category : string) (rating : float)
    (reviews_count price_level : Z) : Z * gmap string Pandas.cell :=
  (place_id - 1,
   list_to_map [("place_id", Pandas.Int place_id); ("name", Pandas.Str name);
                ("category", Pandas.Str category); ("rating", Pandas.Num rating);
                ("reviews_count", Pandas.Int reviews_count);
                ("price_level", Pandas.Int price_level)]).

Definition sample_places : Pandas.DataFrame :=
  {| Pandas.columns :=
       ["place_id"; "name"; "category"; "rating"; "reviews_count"; "price_level"];
     Pandas.rows :=
       [sample_place 1 "Museum" "museum" 4.7 234 2;
        sample_place 2 "Restaurant" "restaurant" 4.5 156 2;
        sample_place 3 "Park" "park" 4.3 89 1;
        sample_place 4 "Beach" "beach" 4.8 345 1;
        sample_place 5 "Shopping Center" "shopping" 4.2 123 3] |}.

(** The user features the route builds for the interests culture and food. *)
Definition sample_user : list (string * Pandas.cell) :=
  [("interest_culture", Pandas.Int 1); ("interest_food", Pandas.Int 1);
   ("budget_encoded", Pandas.Int 2)].

(** A store in which the caller holds the sample places at location 1. *)
Definition sample_store : Pandas.store := {[ 1%positive := sample_places ]}.

(** A ranking model trained on the rating and the user's budget. *)
Definition ranker : MLRankingModel.t (SK := Reference.sklearn) :=
  {| MLRankingModel.model := Joblib.PyRegressor (SK := Reference.sklearn) [1; 1]%float;
     MLRankingModel.scaler := Joblib.PyScaler (SK := Reference.sklearn) (Some [4; 2]%float);
     MLRankingModel.feature_names := Joblib.PyStrList ["rating"; "budget_encoded"];
     MLRankingModel.is_trained := true |}.

(** A ranking model trained on a feature the sample places do not have. *)
Definition stale_ranker : MLRankingModel.t (SK := Reference.sklearn) :=
  {| MLRankingModel.model := Joblib.PyRegressor (SK := Reference.sklearn) [1]%float;
     MLRankingModel.scaler := Joblib.PyScaler (SK := Reference.sklearn) (Some [0]%float);
     MLRankingModel.feature_names := Joblib.PyStrList ["quality_score"];
     MLRankingModel.is_trained := true |}.

(** A row of a places batch for the feature engineer. *)
Definition batch_row (rating : float) (reviews_count price_level : Z)
    (category : string) : gmap string Pandas.cell :=
  list_to_map [("rating", Pandas.Num rating);
               ("reviews_count", Pandas.Int reviews_count);
               ("price_level", Pandas.Int price_level);
               ("category", Pandas.Str category);
               ("latitude", Pandas.Num 13.08); ("longitude", Pandas.Num 80.27)].

Definition batch_columns : list string :=
  ["rating"; "reviews_count"; "price_level"; "category"; "latitude"; "longitude"].

(** A batch with a place that has no rating yet (rating 0). *)
Definition unrated_batch : Pandas.DataFrame :=
  {| Pandas.columns := batch_columns;
     Pandas.rows := [(0, batch_row 4.5 120 2 "museum"); (1, batch_row 0 0 1 "park")] |}.

(** A batch of rated places none of which has a review. *)
Definition unreviewed_batch : Pandas.DataFrame :=
  {| Pandas.columns := batch_columns;
     Pandas.rows := [(0, batch_row 4.0 0 2 "museum"); (1, batch_row 3.0 0 1 "park")] |}.

(** A batch of rated and reviewed places. *)
Definition rated_batch : Pandas.DataFrame :=
  {| Pandas.columns := batch_columns;
     Pandas.rows := [(0, batch_row 3.0 10 2 "museum"); (1, batch_row 3.01 20 1 "park");
                     (2, batch_row 4.0 5 3 "beach"); (3, batch_row 4.01 7 4 "park")] |}.

Definition empty_disk : Joblib.FileSystem (SK := Reference.sklearn) :=
  {| Joblib.files := ∅; Joblib.denied := ∅ |}.

(** A node of an Overpass response: a beach with a wikipedia entry. *)
Definition beach_node : OverpassService.Element :=
  {| OverpassService.tags :=
       list_to_map [("name", "Marina Beach"); ("natural", "beach");
                    ("wikipedia", "en:Marina Beach"); ("surface", "sand")];
     OverpassService.type := Some "node";
     OverpassService.id := Some 42;
     OverpassService.lat := Some 13.05%float;
     OverpassService.lon := Some 80.28%float;
     OverpassService.center := None |}.

(** The tags of a tourist attraction. *)
Definition attraction_tags : gmap string string :=
  list_to_map [("name", "Clock Tower"); ("tourism", "attraction")].

(** A node of an Overpass response: an attraction with its name only. *)
Definition attraction_node : OverpassService.Element :=
  {| OverpassService.tags := Samples.attraction_tags;
     OverpassService.type := Some "node";
     OverpassService.id := Some 7;
     OverpassService.lat := Some 13.0%float;
     OverpassService.lon := Some 80.2%float;
     OverpassService.center := None |}.

(** A place with the score a ranking gave it. *)
Definition scored (p : OSMRecommender.Place) (score : float) : OSMRecommender.Place :=
  {| OSMRecommender.name := OSMRecommender.name p;
     OSMRecommender.category := OSMRecommender.category p;
     OSMRecommender.lat := OSMRecommender.lat p;
     OSMRecommender.lon := OSMRecommender.lon p;
     OSMRecommender.tags := OSMRecommender.tags p;
     OSMRecommender.rank_score := Some score;
     OSMRecommender.score_breakdown := None;
     OSMRecommender.rank := None |}.

Definition recommended : list OSMRecommender.Place :=
  [scored fort_museum 0.8; scored marina 0.7; scored elliot 0.7; scored kovalam 0.6]%float.

(** [sum] as the interpreter computed it before version 3.12: from left to
    right. *)
Definition sum_left (l : list float) : float := fold_left PrimFloat.add l 0%float.

(** A reader that finds the regressor file and cannot read the scaler
    file. *)
Definition unreadable_scaler (path : string)
    : Py.result (Joblib.pyobj (SK := Reference.sklearn)) :=
  if String.eqb path (Joblib.artifact "budget_model" "_scaler.joblib")
  then Py.raise (Py.OSError path)
  else Py.ret (Joblib.PyRegressor (SK := Reference.sklearn) [200]%float).

(** The sample places with the user's features as further columns, in
    another column order and under other index labels. *)
Definition shuffled_trip : Pandas.DataFrame :=
  {| Pandas.columns := ["note"; "num_people"; "num_days"];
     Pandas.rows :=
       [(7, list_to_map [("note", Pandas.Str "weekend"); ("num_people", Pandas.Int 2);
                         ("num_days", Pandas.Int 7)])] |}.

Definition plain_trip : Pandas.DataFrame :=
  {| Pandas.columns := ["num_days"; "num_people"];
     Pandas.rows :=
       [(0, list_to_map [("num_days", Pandas.Int 7); ("num_people", Pandas.Int 2)])] |}.

(** A request for a week for two. *)
Definition week_request : Routes.Budget.BudgetRequest :=
  {| Routes.Budget.destination := "Chennai";
     Routes.Budget.num_days := 7;
     Routes.Budget.num_people := 2;
     Routes.Budget.accommodation_level := 3;
     Routes.Budget.travel_style := "moderate" |}.

(** The disk after the sample budget model was saved as [budget_model]. *)
Definition model_disk : Joblib.FileSystem (SK := Reference.sklearn) :=
  (MLBudgetModel.save Samples.budget_model "budget_model" Samples.empty_disk).2.

(** [str(e)] that tells the kind of the exception only. *)
Definition kind_of (e : Routes.error) : string :=
  match e with
  | Routes.Raised _ => "Exception"
  | Routes.NameError _ => "NameError"
  | Routes.HTTPException _ _ => "HTTPException"
  end.

(** A traveller with a high budget who likes culture and beaches. *)
Definition traveller : FeatureEngineer.UserPrefs :=
  {| FeatureEngineer.budget_level := Some "high";
     FeatureEngineer.interests := Some ["culture"; "beach"];
     FeatureEngineer.travel_style := Some "relaxed";
     FeatureEngineer.group_size := Some 2 |}.

(** A sum and a weighted average of score lists, from left to right. *)
Definition plain_sum (l : list float) : float := fold_left PrimFloat.add l 0%float.

Definition plain_average (scores : list (list float)) (weights : list float)
    : Py.result (list float) :=
  match scores with
  | [] => Py.raise (Py.ValueError "no scores")
  | first :: _ =>
      Py.ret (imap (fun j _ =>
                      (plain_sum (zip_with (fun a w => (nth j a 0 * w)%float) scores weights)
                       / plain_sum weights)%float) first)
  end.

(** An ensemble of an untrained model, added with weight 5, and the
    trained sample model, added with weight 1. *)
Definition mixed_ensemble : EnsembleRankingModel.t (SK := Reference.sklearn) :=
  EnsembleRankingModel.add_model
    (EnsembleRankingModel.add_model EnsembleRankingModel.init MLRankingModel.init 5)
    ranker 1.

(** An ensemble of the model trained on a feature the places lack. *)
Definition stale_ensemble : EnsembleRankingModel.t (SK := Reference.sklearn) :=
  EnsembleRankingModel.add_model EnsembleRankingModel.init stale_ranker 1.

End Samples.

(** * Properties *)

(** ** The order of float comparison *)

(** Membership in a list of literals, and its negation. *)
Ltac in_list := repeat first [apply list_elem_of_here | apply list_elem_of_further].
Ltac not_in_list :=
  let H := fresh in
  intros H;
  repeat (apply elem_of_cons in H as [H|H]; [discriminate H|]);
  now apply elem_of_nil in H.

Module FloatOrder.
Import PyFloat.

Lemma sf_ltb_lex (x y : spec_float) :
  x <> S754_nan -> y <> S754_nan ->
  SFltb x y = true <-> lex_lt (sf_key x) (sf_key y).
Proof.
  intros Hx Hy. unfold SFltb, lex_lt.
  destruct x as [sx|sx| |sx mx ex], y as [sy|sy| |sy my ey];
    try congruence; cbn;
    repeat match goal with s : bool |- _ => destruct s end; cbn;
    try (split; [discriminate | lia]);
    try (split; [lia | discriminate || reflexivity]);
    try (split; intros; [lia | reflexivity]).
  all: change (PosDef.Pos.compare_cont Eq mx my) with (Pos.compare mx my).
  all: destruct (Z.compare_spec ex ey), (Pos.compare_spec mx my); cbn;
    split; intros; try discriminate; try reflexivity; try lia.
Qed.

Lemma sf_eqb_lex (x y : spec_float) :
  x <> S754_nan -> y <> S754_nan ->
  SFeqb x y = true <-> sf_key x = sf_key y.
Proof.
  intros Hx Hy. unfold SFeqb.
  destruct x as [sx|sx| |sx mx ex], y as [sy|sy| |sy my ey];
    try congruence; cbn;
    repeat match goal with s : bool |- _ => destruct s end; cbn;
    try (split; intros; (discriminate || reflexivity)).
  all: change (PosDef.Pos.compare_cont Eq mx my) with (Pos.compare mx my).
  all: destruct (Z.compare_spec ex ey), (Pos.compare_spec mx my); cbn;
    split; intros Heq; try discriminate; try reflexivity;
    try (injection Heq; intros; lia); try (f_equal; [f_equal|]; lia).
Qed.

Lemma sf_leb_lex (x y : spec_float) :
  x <> S754_nan -> y <> S754_nan ->
  SFleb x y = true <-> ~ lex_lt (sf_key y) (sf_key x).
Proof.
  intros Hx Hy. unfold SFleb, lex_lt.
  destruct x as [sx|sx| |sx mx ex], y as [sy|sy| |sy my ey];
    try congruence; cbn;
    repeat match goal with s : bool |- _ => destruct s end; cbn;
    try (split; intros; [lia | reflexivity]);
    try (split; intros; [discriminate | lia]).
  all: change (PosDef.Pos.compare_cont Eq mx my) with (Pos.compare mx my).
  all: destruct (Z.compare_spec ex ey), (Pos.compare_spec mx my); cbn;
    split; intros; try discriminate; try reflexivity; try lia.
Qed.

Lemma not_nan_spec (x : float) : not_nan x <-> Prim2SF x <> S754_nan.
Proof.
  unfold not_nan, PrimFloat.is_nan. rewrite FloatAxioms.eqb_spec.
  destruct (Prim2SF x) as [s|s| |s m e] eqn:E.
  - split; [discriminate | reflexivity].
  - split; [discriminate | now destruct s].
  - split; [discriminate | congruence].
  - split; [discriminate |]. intros _.
    assert (Heq : SFeqb (S754_finite s m e) (S754_finite s m e) = true)
      by (apply sf_eqb_lex; [discriminate | discriminate | reflexivity]).
    now rewrite Heq.
Qed.

Lemma ltb_lex (x y : float) :
  not_nan x -> not_nan y ->
  (x <? y)%float = true <-> lex_lt (key x) (key y).
Proof.
  intros Hx%not_nan_spec Hy%not_nan_spec. rewrite FloatAxioms.ltb_spec.
  now apply sf_ltb_lex.
Qed.

Lemma leb_lex (x y : float) :
  not_nan x -> not_nan y ->
  (x <=? y)%float = true <-> ~ lex_lt (key y) (key x).
Proof.
  intros Hx%not_nan_spec Hy%not_nan_spec. rewrite FloatAxioms.leb_spec.
  now apply sf_leb_lex.
Qed.

Lemma eqb_lex (x y : float) :
  not_nan x -> not_nan y ->
  (x =? y)%float = true <-> key x = key y.
Proof.
  intros Hx%not_nan_spec Hy%not_nan_spec. rewrite FloatAxioms.eqb_spec.
  now apply sf_eqb_lex.
Qed.

(** A comparison with NaN is false. *)
Lemma eqb_true_not_nan (x y : float) :
  (x =? y)%float = true -> not_nan x /\ not_nan y.
Proof.
  rewrite FloatAxioms.eqb_spec, !not_nan_spec. unfold SFeqb.
  destruct (Prim2SF x), (Prim2SF y); cbn; try discriminate;
    intros _; split; discriminate.
Qed.

Lemma ltb_true_not_nan (x y : float) :
  (x <? y)%float = true -> not_nan x /\ not_nan y.
Proof.
  rewrite FloatAxioms.ltb_spec, !not_nan_spec. unfold SFltb.
  destruct (Prim2SF x), (Prim2SF y); cbn; try discriminate;
    intros _; split; discriminate.
Qed.

Lemma triple_neq (a b c a' b' c' : Z) :
  (a, b, c) <> (a', b', c') -> a <> a' \/ b <> b' \/ c <> c'.
Proof.
  intros Hne.
  destruct (Z.eq_dec a a'), (Z.eq_dec b b'), (Z.eq_dec c c'); subst; auto.
Qed.

(** Solves a goal about comparisons of floats that are not NaN by the
    lexicographic order of their keys. *)
Ltac float_order :=
  repeat match goal with
  | H : (?x <? ?y)%float = true |- _ => apply ltb_lex in H; [| assumption | assumption]
  | H : (?x <? ?y)%float = false |- _ =>
      apply not_true_iff_false in H; rewrite ltb_lex in H by assumption
  | H : (?x <=? ?y)%float = true |- _ => apply leb_lex in H; [| assumption | assumption]
  | H : (?x =? ?y)%float = true |- _ => apply eqb_lex in H; [| assumption | assumption]
  | H : (?x =? ?y)%float = false |- _ =>
      apply not_true_iff_false in H; rewrite eqb_lex in H by assumption
  | |- (?x <? ?y)%float = true => apply ltb_lex; [assumption | assumption |]
  | |- (?x <? ?y)%float = false =>
      apply not_true_iff_false; rewrite ltb_lex by assumption
  | |- (?x <=? ?y)%float = true => apply leb_lex; [assumption | assumption |]
  | |- (?x =? ?y)%float = true => apply eqb_lex; [assumption | assumption |]
  | |- (?x =? ?y)%float = false =>
      apply not_true_iff_false; rewrite eqb_lex by assumption
  end;
  unfold lex_lt in *;
  repeat match goal with
  | |- context [key ?x] =>
      let a := fresh "k" in let b := fresh "k" in let c := fresh "k" in
      destruct (key x) as [[a b] c]
  | H : context [key ?x] |- _ =>
      let a := fresh "k" in let b := fresh "k" in let c := fresh "k" in
      destruct (key x) as [[a b] c]
  end;
  repeat match goal with
  | H : (_, _) = (_, _) |- _ => injection H as ? ?
  | H : (_, _, _) <> (_, _, _) |- _ => apply triple_neq in H
  end;
  try lia;
  try (f_equal; [f_equal |]; lia);
  try (let Hc := fresh in intros Hc; try (injection Hc as ? ? ?); lia).

Lemma ltb_neg_trans (x y z : float) :
  not_nan x -> not_nan y -> not_nan z ->
  (x <? y)%float = false -> (y <? z)%float = false -> (x <? z)%float = false.
Proof. intros Hx Hy Hz H1 H2. float_order. Qed.

Lemma ltb_asym (x y : float) :
  (x <? y)%float = true -> (y <? x)%float = false.
Proof.
  intros H. destruct (ltb_true_not_nan _ _ H) as [Hx Hy]. float_order.
Qed.

Lemma ltb_false_leb (x y : float) :
  not_nan x -> not_nan y -> (x <? y)%float = false -> (y <=? x)%float = true.
Proof. intros Hx Hy H1. float_order. Qed.

Lemma eqb_ltb_compat (x y k : float) :
  not_nan y -> (x =? k)%float = true -> (x <? y)%float = true -> (y =? k)%float = false.
Proof.
  intros Hy H1 H2. destruct (eqb_true_not_nan _ _ H1) as [Hx Hk]. float_order.
Qed.

Lemma lex_lt_dec (a b : Z * Z * Z) : {lex_lt a b} + {~ lex_lt a b}.
Proof.
  destruct a as [[a1 a2] a3], b as [[b1 b2] b3]. unfold lex_lt.
  destruct (Z_lt_dec a1 b1); [left; tauto|].
  destruct (Z.eq_dec a1 b1); [|right; tauto].
  destruct (Z_lt_dec a2 b2); [left; tauto|].
  destruct (Z.eq_dec a2 b2); [|right; tauto].
  destruct (Z_lt_dec a3 b3); [left; tauto | right; tauto].
Qed.

Lemma leb_true_not_nan (x y : float) :
  (x <=? y)%float = true -> not_nan x /\ not_nan y.
Proof.
  rewrite FloatAxioms.leb_spec, !not_nan_spec. unfold SFleb.
  destruct (Prim2SF x), (Prim2SF y); cbn; try discriminate;
    intros _; split; discriminate.
Qed.

Lemma leb_false_ltb (x y : float) :
  not_nan x -> not_nan y -> (x <=? y)%float = false -> (y <? x)%float = true.
Proof.
  intros Hx Hy H. apply ltb_lex; [assumption | assumption |].
  apply not_true_iff_false in H. rewrite leb_lex in H by assumption.
  destruct (lex_lt_dec (key y) (key x)); tauto.
Qed.

Lemma leb_leb_ltb_false (x y z : float) :
  (x <=? y)%float = true -> (y <=? z)%float = true -> (z <? x)%float = false.
Proof.
  intros H1 H2. destruct (leb_true_not_nan _ _ H1) as [Hx Hy].
  destruct (leb_true_not_nan _ _ H2) as [_ Hz]. float_order.
Qed.

Lemma leb_ltb_trans (x y z : float) :
  (z <=? y)%float = true -> (y <? x)%float = true -> (z <? x)%float = true.
Proof.
  intros H1 H2. destruct (leb_true_not_nan _ _ H1) as [Hz Hy].
  destruct (ltb_true_not_nan _ _ H2) as [_ Hx]. float_order.
Qed.

(** Multiplication is commutative. *)
Lemma sf_mul_comm (prec emax : Z) (x y : spec_float) :
  SFmul prec emax x y = SFmul prec emax y x.
Proof.
  destruct x as [sx|sx| |sx mx ex], y as [sy|sy| |sy my ey]; cbn;
    try reflexivity; try (now rewrite xorb_comm).
  now rewrite xorb_comm, Pos.mul_comm, Z.add_comm.
Qed.

Lemma float_mul_comm (x y : float) : (x * y)%float = (y * x)%float.
Proof. apply Prim2SF_inj. rewrite !mul_spec. apply sf_mul_comm. Qed.

(** NaN is absorbing. *)
Lemma is_nan_spec (x : float) : PrimFloat.is_nan x = true <-> Prim2SF x = S754_nan.
Proof.
  destruct (PrimFloat.is_nan x) eqn:E.
  - split; [intros _ | reflexivity].
    destruct (Prim2SF x) eqn:P; try reflexivity; exfalso;
      (assert (Hf : not_nan x) by (apply not_nan_spec; rewrite P; discriminate));
      unfold not_nan in Hf; congruence.
  - split; [discriminate|]. intros P.
    apply not_nan_spec in E. contradiction.
Qed.

Lemma is_nan_add_r (x y : float) :
  PrimFloat.is_nan y = true -> PrimFloat.is_nan (x + y)%float = true.
Proof.
  rewrite !is_nan_spec, add_spec. intros ->. now destruct (Prim2SF x).
Qed.

Lemma is_nan_add_l (x y : float) :
  PrimFloat.is_nan x = true -> PrimFloat.is_nan (x + y)%float = true.
Proof.
  rewrite !is_nan_spec, add_spec. intros ->. reflexivity.
Qed.

Lemma is_nan_mul_l (x y : float) :
  PrimFloat.is_nan x = true -> PrimFloat.is_nan (x * y)%float = true.
Proof.
  rewrite !is_nan_spec, mul_spec. intros ->. reflexivity.
Qed.

End FloatOrder.

(** ** The stable descending sort *)

Section SortedReverse.
Import PyFloat PyList FloatOrder.
Context {A : Type} (key : A -> float).

Lemma insert_desc_perm (x : A) (l : list A) : insert_desc key x l ≡ₚ x :: l.
Proof.
  induction l as [|y l IH]; cbn; [reflexivity|].
  destruct (key x <? key y)%float; [|reflexivity].
  rewrite IH. apply Permutation_swap.
Qed.

Lemma sorted_reverse_perm (l : list A) : sorted_reverse key l ≡ₚ l.
Proof.
  induction l as [|x l IH]; cbn; [reflexivity|].
  rewrite insert_desc_perm. now rewrite IH.
Qed.

Lemma sorted_reverse_length (l : list A) : length (sorted_reverse key l) = length l.
Proof. apply Permutation_length, sorted_reverse_perm. Qed.

(** Elements that compare equal to [k] keep their order: inserting [x]
    moves it only past elements that are strictly greater. *)
Lemma insert_desc_filter (k : float) (x : A) (l : list A) :
  filter (fun a => (key a =? k)%float = true) (insert_desc key x l)
  = filter (fun a => (key a =? k)%float = true) (x :: l).
Proof.
  induction l as [|y l IH]; cbn; [reflexivity|].
  destruct (key x <? key y)%float eqn:Hlt; [|reflexivity].
  rewrite filter_cons, IH, !filter_cons.
  destruct (decide ((key x =? k)%float = true)) as [Hx|Hx];
    destruct (decide ((key y =? k)%float = true)) as [Hy|Hy]; try reflexivity.
  exfalso. destruct (ltb_true_not_nan _ _ Hlt) as [_ Hny].
  pose proof (eqb_ltb_compat _ _ _ Hny Hx Hlt). congruence.
Qed.

Lemma sorted_reverse_stable (k : float) (l : list A) :
  filter (fun a => (key a =? k)%float = true) (sorted_reverse key l)
  = filter (fun a => (key a =? k)%float = true) l.
Proof.
  induction l as [|x l IH]; cbn; [reflexivity|].
  rewrite insert_desc_filter, !filter_cons. now rewrite IH.
Qed.

Lemma insert_desc_sorted (x : A) (l : list A) :
  not_nan (key x) -> Forall (fun a => not_nan (key a)) l ->
  StronglySorted (fun a b => (key a <? key b)%float = false) l ->
  StronglySorted (fun a b => (key a <? key b)%float = false) (insert_desc key x l).
Proof.
  intros Hx Hl Hs. induction l as [|y l IH]; cbn.
  - constructor; constructor.
  - apply Forall_cons in Hl as [Hy Hl].
    apply StronglySorted_inv in Hs as [Hs Hyl].
    destruct (key x <? key y)%float eqn:Hlt.
    + constructor; [now apply IH|].
      rewrite (insert_desc_perm x l). constructor; [now apply ltb_asym | exact Hyl].
    + constructor; [now constructor|].
      constructor; [exact Hlt|].
      rewrite Forall_forall in Hyl, Hl |- *. intros z Hz.
      apply (ltb_neg_trans _ (key y)); auto.
Qed.

Lemma sorted_reverse_sorted (l : list A) :
  Forall (fun a => not_nan (key a)) l ->
  StronglySorted (fun a b => (key a <? key b)%float = false) (sorted_reverse key l).
Proof.
  induction l as [|x l IH]; cbn; intros Hl; [constructor|].
  apply Forall_cons in Hl as [Hx Hl].
  apply insert_desc_sorted; auto.
  now rewrite sorted_reverse_perm.
Qed.

End SortedReverse.

Lemma StronglySorted_lookup {A} (R : A -> A -> Prop) (l : list A) (i j : nat) (a b : A) :
  StronglySorted R l -> (i < j)%nat -> l !! i = Some a -> l !! j = Some b -> R a b.
Proof.
  intros Hs. revert i j. induction Hs as [|x l Hs IH Hx]; intros i j Hij Hi Hj.
  - discriminate.
  - destruct j as [|j]; [lia|]. cbn in Hj. destruct i as [|i]; cbn in Hi.
    + injection Hi as <-. rewrite Forall_forall in Hx. apply Hx.
      eapply list_elem_of_lookup_2; eauto.
    + apply (IH i j); [lia | assumption | assumption].
Qed.

(** ** The place scorer *)

Section PlaceScorer.
Import PyFloat PyList OSMRecommender FloatOrder.
Context `{RT : Runtime}.

Lemma category_count_cons (c : string) (p : Place) (l : list Place) :
  category_count c (p :: l)
  = ((if decide (category p = c) then 1 else 0) + category_count c l)%nat.
Proof.
  unfold category_count. rewrite filter_cons.
  now destruct (decide (category p = c)).
Qed.

(** The pass over the [i]-th place reads the counter as it was at the
    start plus the number of earlier places of the same category. *)
Lemma score_loop_lookup interests clat clon counts places i p :
  places !! i = Some p ->
  score_loop interests clat clon counts places !! i
  = Some (let s := sub_scores interests clat clon
                     (default 0%nat (counts !! category p)
                      + category_count (category p) (take i places)) p in
          (write_scores s p, s)).
Proof.
  revert counts i. induction places as [|p0 places IH]; intros counts i Hi.
  - discriminate.
  - destruct i as [|i]; cbn in Hi; cbn [score_loop].
    + injection Hi as ->. unfold category_count. cbn.
      now rewrite Nat.add_0_r.
    + change ((?x :: ?l) !! S i) with (l !! i).
      rewrite (IH _ _ Hi). cbn zeta.
      change (take (S i) (p0 :: places)) with (p0 :: take i places).
      rewrite category_count_cons.
      destruct (decide (category p0 = category p)) as [e|ne].
      * rewrite e, lookup_insert_eq. cbn [default].
        assert (E : forall a b : nat, (id (S a) + b = a + (1 + b))%nat)
          by (intros; unfold id; lia).
        now rewrite E.
      * now rewrite lookup_insert_ne.
Qed.

Lemma score_loop_length interests clat clon counts places :
  length (score_loop interests clat clon counts places) = length places.
Proof.
  revert counts. induction places as [|p places IH]; intros counts; cbn;
    [reflexivity | now rewrite IH].
Qed.

Lemma enumerate_rank_lookup (n i : nat) (l : list Place) :
  enumerate_rank n l !! i = set_rank (n + i) <$> l !! i.
Proof.
  revert n i. induction l as [|p l IH]; intros n i; [reflexivity|].
  destruct i as [|i]; cbn.
  - now rewrite Nat.add_0_r.
  - rewrite IH. now rewrite Nat.add_succ_comm.
Qed.

Lemma enumerate_rank_clear (n : nat) (l : list Place) :
  map clear_rank (enumerate_rank n l) = map clear_rank l.
Proof.
  revert n. induction l as [|p l IH]; intros n; cbn; [reflexivity|].
  now rewrite IH.
Qed.

Lemma enumerate_rank_filter (k : float) (n : nat) (l : list Place) :
  map clear_rank (filter (fun q => (rank_key q =? k)%float = true) (enumerate_rank n l))
  = map clear_rank (filter (fun q => (rank_key q =? k)%float = true) l).
Proof.
  revert n. induction l as [|p l IH]; intros n; cbn [enumerate_rank]; [reflexivity|].
  rewrite !filter_cons. change (rank_key (set_rank n p)) with (rank_key p).
  destruct (decide ((rank_key p =? k)%float = true));
    cbn [map]; now rewrite IH.
Qed.

Lemma enumerate_rank_keys (n : nat) (l : list Place) :
  map rank_key (enumerate_rank n l) = map rank_key l.
Proof.
  revert n. induction l as [|p l IH]; intros n; cbn; [reflexivity|].
  now rewrite IH.
Qed.

(** C1. [_rank_places] scores every input place with the weighted sum of its
    five sub-scores rounded to 4 decimals (the diversity sub-score being the
    one of the place's position within its category), returns the scored
    places sorted into descending order of [rank_score] whenever the scores
    are numbers, numbers them 1..N in output order, and keeps places of equal
    [rank_score] in their input order. *)
Theorem rank_places_ranked (places : list Place) (interests : option (list string))
    (center_lat center_lon : float) :
  let out := _rank_places places interests center_lat center_lon in
  let scored := score_places interests center_lat center_lon places in
  (forall i p, places !! i = Some p ->
     exists q, scored !! i = Some q /\ unranked q = unranked p /\
       rank_score q = Some (composite_score
         (_calculate_popularity p)
         (_calculate_interest_match p interests)
         (_calculate_season_fit p)
         (_calculate_distance_score (lat p) (lon p) center_lat center_lon)
         (diversity_of_kth (S (category_count (category p) (take i places))))))
  /\ length scored = length places
  /\ length out = length places
  /\ map clear_rank out ≡ₚ map clear_rank scored
  /\ (forall i q, out !! i = Some q -> rank q = Some (S i))
  /\ (Forall (fun q => not_nan (rank_key q)) scored ->
      forall i j a b, (i < j)%nat -> out !! i = Some a -> out !! j = Some b ->
        (rank_key b <=? rank_key a)%float = true)
  /\ (forall k : float,
        map clear_rank (filter (fun q => (rank_key q =? k)%float = true) out)
        = map clear_rank (filter (fun q => (rank_key q =? k)%float = true) scored)).
Proof.
  intros out scored. subst out scored. unfold _rank_places, score_places.
  set (loop := score_loop interests center_lat center_lon ∅ places).
  repeat split.
  - intros i p Hi. unfold loop.
    rewrite list_lookup_fmap, (score_loop_lookup _ _ _ _ _ _ _ Hi).
    eexists; split; [reflexivity|]. split; [reflexivity|].
    cbn. rewrite lookup_empty. cbn [default]. rewrite Nat.add_0_l.
    unfold composite_score, final_score, diversity_of_kth. cbn.
    now rewrite Nat.sub_0_r.
  - rewrite length_fmap. apply score_loop_length.
  - rewrite <- (length_map clear_rank), enumerate_rank_clear, length_map.
    rewrite sorted_reverse_length, length_fmap. apply score_loop_length.
  - rewrite enumerate_rank_clear. apply Permutation_map, sorted_reverse_perm.
  - intros i q Hq. rewrite enumerate_rank_lookup in Hq.
    destruct (sorted_reverse rank_key loop.*1 !! i); [|discriminate].
    now injection Hq as <-.
  - intros Hnum i j a b Hij Ha Hb.
    rewrite enumerate_rank_lookup in Ha, Hb.
    destruct (sorted_reverse rank_key loop.*1 !! i) as [a'|] eqn:Ea; [|discriminate].
    destruct (sorted_reverse rank_key loop.*1 !! j) as [b'|] eqn:Eb; [|discriminate].
    injection Ha as <-. injection Hb as <-.
    change (rank_key (set_rank _ a')) with (rank_key a').
    change (rank_key (set_rank _ b')) with (rank_key b').
    assert (Hnum' : Forall (fun q => not_nan (rank_key q))
                      (sorted_reverse rank_key loop.*1))
      by now rewrite sorted_reverse_perm.
    rewrite Forall_forall in Hnum'.
    apply ltb_false_leb.
    + apply Hnum'. exact (list_elem_of_lookup_2 _ _ _ Ea).
    + apply Hnum'. exact (list_elem_of_lookup_2 _ _ _ Eb).
    + exact (StronglySorted_lookup _ _ _ _ _ _
               (sorted_reverse_sorted rank_key _ Hnum) Hij Ea Eb).
  - intros k. rewrite enumerate_rank_filter. now rewrite sorted_reverse_stable.
Qed.

End PlaceScorer.

Section PlaceScorerCases.
Import PyFloat PyList OSMRecommender.

(** The sorted order on the sample places: the scores are numbers, so the
    first place of the output scores at least as high as the last. *)
Lemma rank_places_ranked_chennai :
  Forall (fun q => not_nan (rank_key q))
    (score_places (RT := Reference.runtime) (Some ["nature"]) 13.08 80.27 Samples.chennai)
  /\ exists a b,
       _rank_places (RT := Reference.runtime) Samples.chennai (Some ["nature"]) 13.08 80.27 !! 0%nat = Some a
       /\ _rank_places (RT := Reference.runtime) Samples.chennai (Some ["nature"]) 13.08 80.27 !! 3%nat = Some b
       /\ name a = "Elliot's Beach" /\ name b = "Fort Museum"
       /\ rank a = Some 1%nat /\ rank b = Some 4%nat
       /\ (rank_key b <=? rank_key a)%float = true.
Proof.
  assert (Hnum : Forall (fun q => not_nan (rank_key q))
            (score_places (RT := Reference.runtime) (Some ["nature"]) 13.08 80.27 Samples.chennai))
    by (repeat constructor).
  split; [exact Hnum|].
  destruct (rank_places_ranked (RT := Reference.runtime) Samples.chennai (Some ["nature"]) 13.08 80.27)
    as (_ & _ & _ & _ & Hrank & Hsorted & _).
  eexists _, _.
  split; [vm_compute; reflexivity|]. split; [vm_compute; reflexivity|].
  split; [reflexivity|]. split; [reflexivity|].
  split; [reflexivity|]. split; [reflexivity|].
  apply (Hsorted Hnum 0%nat 3%nat); [lia | vm_compute; reflexivity | vm_compute; reflexivity].
Defined.

(** C4 as stated fails: without interests the interest-match sub-score is
    0.5, which is not 0. *)
Lemma interest_match_without_interests_not_zero :
  ~ (forall (place : Place) (interests : option (list string)),
       interests = None \/ interests = Some [] ->
       _calculate_interest_match place interests = 0%float).
Proof.
  intros Hzero.
  specialize (Hzero Samples.marina None (or_introl eq_refl)).
  apply (f_equal (fun x => (x =? 0)%float)) in Hzero.
  vm_compute in Hzero. discriminate.
Qed.

(** C4, amended. When [interests] is [None] or empty,
    [_calculate_interest_match] returns the neutral score 0.5 for every
    place. *)
Theorem interest_match_without_interests (place : Place) :
  _calculate_interest_match place None = 0.5%float
  /\ _calculate_interest_match place (Some []) = 0.5%float.
Proof. split; reflexivity. Qed.

(** The bonus reads the tags, not the category: a place that is given the
    category "attraction" by hand, without the tag, has popularity 0.5. *)
Lemma popularity_attraction_category_half :
  category Samples.plain_attraction = "attraction"
  /\ tags Samples.plain_attraction !! "wikipedia" = None
  /\ tags Samples.plain_attraction !! "website" = None
  /\ tags Samples.plain_attraction !! "description" = None
  /\ _calculate_popularity Samples.plain_attraction = 0.5%float
  /\ _calculate_popularity Samples.plain_attraction <> 0.6%float.
Proof.
  repeat split; try reflexivity.
  intros Heq. apply (f_equal (fun x => (x =? 0.6)%float)) in Heq.
  vm_compute in Heq. discriminate.
Qed.

(** For a place without a Wikipedia, website or description tag,
    [_calculate_popularity] returns exactly 0.6 when the place's tags hold
    [tourism=attraction], and the base 0.5 otherwise. *)
Lemma popularity_of_bare_place (place : Place) :
  tag_set (tags place) "wikipedia" = false ->
  tag_set (tags place) "website" = false ->
  tag_set (tags place) "description" = false ->
  (tags place !! "tourism" = Some "attraction" ->
     _calculate_popularity place = 0.6%float)
  /\ (tags place !! "tourism" <> Some "attraction" ->
     _calculate_popularity place = 0.5%float).
Proof.
  intros Hw Hs Hd. unfold _calculate_popularity. rewrite Hw, Hs, Hd.
  split; intros Ht.
  - rewrite bool_decide_eq_true_2 by exact Ht. reflexivity.
  - rewrite bool_decide_eq_false_2 by exact Ht. reflexivity.
Qed.

Lemma popularity_of_bare_place_tagged :
  tag_set (tags Samples.tagged_attraction) "wikipedia" = false
  /\ tag_set (tags Samples.tagged_attraction) "website" = false
  /\ tag_set (tags Samples.tagged_attraction) "description" = false
  /\ tags Samples.tagged_attraction !! "tourism" = Some "attraction"
  /\ _calculate_popularity Samples.tagged_attraction = 0.6%float.
Proof.
  do 4 (split; [reflexivity|]).
  apply (proj1 (popularity_of_bare_place Samples.tagged_attraction
                  eq_refl eq_refl eq_refl)).
  reflexivity.
Defined.

(** C9. In the scoring loop of [_rank_places], the diversity sub-score of
    the [k]-th place of its category in input order, [k] from 1, is
    [1 / (1 + 0.1 * (k - 1))]: 1.0 for the first place of a category, about
    0.909 for the second and about 0.833 for the third. *)
Theorem diversity_of_kth_place `{RT : Runtime} (places : list Place)
    (interests : option (list string)) (center_lat center_lon : float) (i : nat) :
  (fun qs => diversity qs.2)
    <$> score_loop interests center_lat center_lon ∅ places !! i
  = (fun p =>
       let k := S (category_count (category p) (take i places)) in
       (1.0 / (1.0 + 0.1 * PyFloat.of_nat (k - 1)))%float)
    <$> places !! i
  /\ (1.0 / (1.0 + 0.1 * PyFloat.of_nat (1 - 1)))%float = 1.0%float
  /\ (1.0 / (1.0 + 0.1 * PyFloat.of_nat (2 - 1)))%float = 0.90909090909090906%float
  /\ (1.0 / (1.0 + 0.1 * PyFloat.of_nat (3 - 1)))%float = 0.83333333333333337%float
  /\ ((0.909 <? 0.90909090909090906) && (0.90909090909090906 <? 0.9091))%float = true
  /\ ((0.833 <? 0.83333333333333337) && (0.83333333333333337 <? 0.8334))%float = true.
Proof.
  split; [|repeat split; reflexivity].
  destruct (places !! i) as [p|] eqn:Hi.
  - rewrite (score_loop_lookup _ _ _ _ _ _ _ Hi). cbn.
    rewrite lookup_empty. cbn [default].
    rewrite Nat.add_0_l, Nat.sub_0_r. do 3 f_equal.
    apply FloatOrder.float_mul_comm.
  - rewrite (proj2 (lookup_ge_None _ _)); [reflexivity|].
    rewrite score_loop_length. now apply lookup_ge_None.
Qed.

End PlaceScorerCases.

(** ** Frames and dictionaries *)

Section Frames.
Import Py Pandas.

Lemma mapM_ext {A B} (f g : A -> result B) (l : list A) :
  (forall x, x ∈ l -> f x = g x) -> mapM f l = mapM g l.
Proof.
  induction l as [|x l IH]; intros Hfg; [reflexivity|]. cbn.
  rewrite (Hfg x) by apply list_elem_of_here.
  rewrite IH; [reflexivity|].
  intros y Hy. apply Hfg. now apply list_elem_of_further.
Qed.

Lemma mapM_map {A B} (f : A -> result B) (g : A -> B) (l : list A) :
  (forall x, x ∈ l -> f x = inr (g x)) -> mapM f l = inr (map g l).
Proof.
  induction l as [|x l IH]; intros Hfg; [reflexivity|]. cbn.
  rewrite (Hfg x) by apply list_elem_of_here.
  rewrite IH; [reflexivity|].
  intros y Hy. apply Hfg. now apply list_elem_of_further.
Qed.

Lemma mapM_length {A B} (f : A -> result B) (l : list A) (l' : list B) :
  mapM f l = inr l' -> length l' = length l.
Proof.
  revert l'. induction l as [|x l IH]; intros l' Hl; cbn in Hl.
  - now injection Hl as <-.
  - destruct (f x); [discriminate|]. destruct (mapM f l); [discriminate|].
    injection Hl as <-. cbn. f_equal. now apply IH.
Qed.

Lemma mapM_compose {A B C} (f : B -> result C) (g : A -> B) (l : list A) :
  mapM f (map g l) = mapM (fun x => f (g x)) l.
Proof.
  induction l as [|x l IH]; [reflexivity|]. cbn. now rewrite IH.
Qed.

Lemma dict_get_list_to_map (d : list (string * cell)) (k : string) (dflt : cell) :
  dict_get d k dflt = default dflt ((list_to_map d : gmap string cell) !! k).
Proof.
  induction d as [|[k' v] d IH]; cbn.
  - now rewrite lookup_empty.
  - destruct (String.eqb_spec k k') as [->|Hne].
    + now rewrite lookup_insert_eq.
    + rewrite lookup_insert_ne by congruence. exact IH.
Qed.

Lemma has_column_true (c : string) (df : DataFrame) :
  has_column c df = true <-> c ∈ columns df.
Proof. unfold has_column. apply bool_decide_eq_true. Qed.

Lemma has_column_false (c : string) (df : DataFrame) :
  has_column c df = false <-> c ∉ columns df.
Proof. unfold has_column. apply bool_decide_eq_false. Qed.

Lemma at_column_insert_eq (c : string) (v : cell) (i : Z) (m : gmap string cell) :
  at_column c (i, <[c := v]> m) = v.
Proof. unfold at_column. cbn. now rewrite lookup_insert_eq. Qed.

Lemma at_column_insert_ne (c c' : string) (v : cell) (i : Z) (m : gmap string cell) :
  c <> c' -> at_column c' (i, <[c := v]> m) = at_column c' (i, m).
Proof. intros Hne. unfold at_column. cbn. now rewrite lookup_insert_ne. Qed.

Lemma at_column_filter (names : list string) (c : string) (i : Z) (m : gmap string cell) :
  c ∈ names ->
  at_column c (i, filter (fun kv : string * cell => kv.1 ∈ names) m) = at_column c (i, m).
Proof.
  intros Hc. unfold at_column. cbn.
  destruct (m !! c) as [v|] eqn:Hm.
  - now rewrite (map_lookup_filter_Some_2 _ _ _ _ Hm Hc).
  - now rewrite (map_lookup_filter_None_2 _ _ _ (or_introl Hm)).
Qed.

Lemma elem_of_with_column (c c' : string) (cols : list string) :
  c' ∈ with_column c cols <-> c' = c \/ c' ∈ cols.
Proof.
  unfold with_column. case_bool_decide as Hc.
  - split; [now right | intros [->|]; assumption].
  - rewrite elem_of_app, list_elem_of_singleton. tauto.
Qed.

(** Selecting labels that are all there keeps the rows, cut down to the
    labels. *)
Lemma select_present (df : DataFrame) (names : list string) :
  (forall c, c ∈ names -> c ∈ columns df) ->
  select df names
  = inr {| columns := names;
           rows := map (fun r => (r.1, filter (fun kv : string * cell => kv.1 ∈ names) r.2))
                       (rows df) |}.
Proof.
  intros Hall. unfold select.
  destruct (List.filter _ names) as [|k rest] eqn:Hf; [reflexivity|].
  assert (Hk : In k (List.filter (fun c => negb (has_column c df)) names))
    by (rewrite Hf; now left).
  apply filter_In in Hk as [Hk Hmiss]. apply list_elem_of_In, Hall in Hk.
  apply has_column_true in Hk. now rewrite Hk in Hmiss.
Qed.

(** Selecting a label that is not there raises [KeyError]. *)
Lemma select_missing (df : DataFrame) (names : list string) (c : string) :
  c ∈ names -> c ∉ columns df ->
  exists k, k ∈ names /\ (k ∉ columns df) /\ select df names = inl (KeyError k).
Proof.
  intros Hc Hmiss. unfold select.
  destruct (List.filter _ names) as [|k rest] eqn:Hf.
  - exfalso.
    assert (Hin : In c (List.filter (fun c => negb (has_column c df)) names)).
    { apply filter_In. split; [now apply list_elem_of_In|].
      apply has_column_false in Hmiss. now rewrite Hmiss. }
    now rewrite Hf in Hin.
  - exists k.
    assert (Hk : In k (List.filter (fun c => negb (has_column c df)) names))
      by (rewrite Hf; now left).
    apply filter_In in Hk as [Hk Hkm]. apply list_elem_of_In in Hk.
    apply negb_true_iff, has_column_false in Hkm. auto.
Qed.

End Frames.

(** ** The budget model *)

Section BudgetModel.
Import Py Pandas Joblib MLBudgetModel.
Context `{SK : Sklearn}.

(** Filling the missing features of a one-row frame: every feature is a
    column afterwards, the columns that were there keep their value, and the
    others hold the integer 0. *)
Lemma fill_missing_one_row (names : list string) (df : DataFrame)
    (i : Z) (m : gmap string cell) :
  rows df = [(i, m)] ->
  exists m',
    rows (fill_missing names df) = [(i, m')]
    /\ (forall c, c ∈ columns (fill_missing names df) <-> c ∈ columns df \/ c ∈ names)
    /\ (forall c, c ∈ columns df -> at_column c (i, m') = at_column c (i, m))
    /\ (forall c, c ∈ names -> c ∉ columns df -> at_column c (i, m') = Int 0).
Proof.
  revert df m. induction names as [|feat names IH]; intros df m Hrows.
  - exists m. cbn. repeat split; try tauto.
    + intros [?|Hnil]; [assumption | now apply elem_of_nil in Hnil].
    + intros c Hnil. now apply elem_of_nil in Hnil.
  - cbn [fill_missing fold_left]. fold (fill_missing names).
    destruct (has_column feat df) eqn:Hfeat.
    + destruct (IH df m Hrows) as (m' & Hr & Hcols & Hkeep & Hzero).
      exists m'. repeat split; try assumption.
      * intros Hc. apply Hcols in Hc. rewrite elem_of_cons. tauto.
      * intros [Hc|Hc]; apply Hcols; [now left|].
        apply elem_of_cons in Hc as [->|Hc]; [left; now apply has_column_true | now right].
      * intros c Hc Hmiss. apply elem_of_cons in Hc as [->|Hc].
        -- apply has_column_true in Hfeat. contradiction.
        -- now apply Hzero.
    + apply has_column_false in Hfeat.
      destruct (IH (setitem_scalar df feat (Int 0)) (<[feat := Int 0]> m))
        as (m' & Hr & Hcols & Hkeep & Hzero).
      { cbn. now rewrite Hrows. }
      exists m'. split; [exact Hr|]. cbn [setitem_scalar columns] in *.
      repeat split.
      * intros Hc. apply Hcols in Hc as [Hc|Hc].
        -- apply elem_of_with_column in Hc as [->|Hc]; [right; left | now left].
        -- right. now right.
      * intros [Hc|Hc]; apply Hcols.
        -- left. apply elem_of_with_column. now right.
        -- apply elem_of_cons in Hc as [->|Hc]; [left | now right].
           apply elem_of_with_column. now left.
      * intros c Hc. rewrite Hkeep by (apply elem_of_with_column; now right).
        apply at_column_insert_ne. intros ->. contradiction.
      * intros c Hc Hmiss. destruct (decide (c = feat)) as [->|Hne].
        -- rewrite Hkeep by (apply elem_of_with_column; now left).
           apply at_column_insert_eq.
        -- apply elem_of_cons in Hc as [->|Hc]; [contradiction|].
           apply Hzero; [exact Hc|].
           intros Hin. apply elem_of_with_column in Hin as [->|Hin]; contradiction.
Qed.

(** C3, amended. [predict] raises [KeyError] when a stored feature name is
    not among the columns of its input.  It is [predict_trip_budget] that
    fills in: it predicts from the one row that holds, for each stored
    feature in order, the trip's value for it, or 0 when the trip has none. *)
Theorem trip_budget_zero_fills (self : t) (names : list string)
    (s : standard_scaler) (e : regressor) :
  is_trained self = true ->
  feature_names self = PyStrList names ->
  MLBudgetModel.scaler self = PyScaler s ->
  model self = PyRegressor e ->
  (forall X missing, missing ∈ names -> missing ∉ columns X ->
     exists k, k ∈ names /\ (k ∉ columns X) /\ predict self X = inl (KeyError k))
  /\ (forall trip_features,
        predict_trip_budget self trip_features
        = let* row := mapM (fun feat => as_float64 (dict_get trip_features feat (Int 0)))
                           names in
          let* X_scaled := scaler_transform s [row] in
          let* predictions := regressor_predict e X_scaled in
          match predictions with
          | prediction :: _ => ret prediction
          | [] => raise (IndexError "index 0 is out of bounds")
          end).
Proof.
  intros Htrained Hnames Hscaler Hmodel. split.
  - intros X missing Hin Hmiss. unfold predict. rewrite Htrained, Hnames. cbn.
    destruct (select_missing X names missing Hin Hmiss) as (k & Hk & Hkm & Hsel).
    exists k. rewrite Hsel. auto.
  - intros trip_features. unfold predict_trip_budget, predict.
    rewrite Htrained, Hnames, Hscaler, Hmodel. cbn [negb bind ret].
    destruct (fill_missing_one_row names (from_record trip_features) 0
                (list_to_map trip_features) eq_refl)
      as (m' & Hrows & Hcols & Hkeep & Hzero).
    rewrite select_present by (intros c Hc; apply Hcols; now right).
    cbn [bind]. rewrite select_present by (cbn; auto).
    cbn [bind columns rows]. rewrite Hrows. cbn [map fst snd].
    unfold to_matrix. cbn [columns rows mapM].
    match goal with
    | |- context [mapM ?f names] =>
        lazymatch f with
        | context [at_column] =>
            rewrite (mapM_ext f
                       (fun feat => as_float64 (dict_get trip_features feat (Int 0)))
                       names)
        end
    end.
    2:{ intros c Hc. cbn beta.
      rewrite !at_column_filter by exact Hc. f_equal.
      rewrite dict_get_list_to_map.
      destruct (decide (c ∈ columns (from_record trip_features))) as [Hin|Hout].
      - rewrite Hkeep by exact Hin. unfold at_column. cbn.
        cbn in Hin. unfold keys in Hin.
        destruct ((list_to_map trip_features : gmap string cell) !! c) eqn:Hl;
          [reflexivity|].
        apply not_elem_of_list_to_map in Hl. contradiction.
      - rewrite Hzero by assumption.
        cbn in Hout. unfold keys in Hout.
        apply (not_elem_of_list_to_map (M := gmap string)) in Hout.
        now rewrite Hout. }
    destruct (mapM _ names) as [err|row]; [reflexivity|]. cbn [bind].
    destruct (scaler_transform s [row]) as [err|X_scaled]; [reflexivity|]. cbn [bind].
    destruct (regressor_predict e X_scaled); reflexivity.
Qed.

End BudgetModel.

Section BudgetModelCases.
Import Py Pandas Joblib MLBudgetModel.

(** C3 as stated fails: [predict] on a frame without the stored feature
    [num_people] raises [KeyError]; nothing is filled in. *)
Lemma predict_missing_column_raises :
  is_trained Samples.budget_model = true
  /\ feature_names Samples.budget_model = PyStrList ["num_days"; "num_people"]
  /\ columns (from_record Samples.short_trip) = ["num_days"]
  /\ predict Samples.budget_model (from_record Samples.short_trip)
     = inl (KeyError "num_people").
Proof. repeat split; vm_compute; reflexivity. Qed.

(** On the sample model, which lacks [num_people] in the trip: [predict]
    raises, [predict_trip_budget] predicts from the row [[7; 0]]. *)
Lemma trip_budget_zero_fills_short_trip :
  (exists k, predict Samples.budget_model (from_record Samples.short_trip)
             = inl (KeyError k))
  /\ predict_trip_budget Samples.budget_model Samples.short_trip = inr 100%float.
Proof.
  destruct (trip_budget_zero_fills Samples.budget_model ["num_days"; "num_people"]
              (Some [5; 2]%float) [100; 50]%float eq_refl eq_refl eq_refl eq_refl)
    as [Hpredict Hbudget].
  split.
  - destruct (Hpredict (from_record Samples.short_trip) "num_people") as (k & _ & _ & Hk).
    + apply list_elem_of_In. right. now left.
    + apply has_column_false. vm_compute. reflexivity.
    + exists k. exact Hk.
  - rewrite Hbudget. vm_compute. reflexivity.
Defined.

End BudgetModelCases.

(** ** Saving and loading a model *)

Section Persistence.
Import Py Pandas Joblib MLBudgetModel.
Context `{SK : Sklearn}.

Lemma string_length_app (a b : string) :
  String.length (a ++ b) = (String.length a + String.length b)%nat.
Proof. induction a as [|c a IH]; simpl; [reflexivity | now rewrite IH]. Qed.

(** The three files of a model have different paths. *)
Lemma artifact_suffix_ne (model_name s1 s2 : string) :
  String.length s1 <> String.length s2 ->
  artifact model_name s1 <> artifact model_name s2.
Proof.
  intros Hlen Heq. apply Hlen. unfold artifact in Heq.
  apply (f_equal String.length) in Heq.
  rewrite !string_length_app in Heq. lia.
Qed.

Lemma dump_inv (obj : pyobj) (path : string) (fs fs' : FileSystem) (u : unit) :
  dump obj path fs = (inr u, fs') ->
  files fs' = <[path := obj]> (files fs) /\ denied fs' = denied fs.
Proof.
  unfold dump. case_bool_decide; intros Hd; [discriminate|].
  injection Hd as _ <-. split; reflexivity.
Qed.

(** A successful [save] leaves the three attributes in the three files. *)
Lemma save_true_files (self : t) (model_name : string) (fs fs' : FileSystem) :
  save self model_name fs = (inr true, fs') ->
  files fs' !! artifact model_name ".joblib" = Some (model self)
  /\ files fs' !! artifact model_name "_scaler.joblib" = Some (MLBudgetModel.scaler self)
  /\ files fs' !! artifact model_name "_features.joblib" = Some (feature_names self).
Proof.
  unfold save. destruct (negb (is_trained self)); [discriminate|].
  destruct (dump (model self) _ fs) as [[e1|[]] fs1] eqn:D1; [discriminate|].
  destruct (dump (MLBudgetModel.scaler self) _ fs1) as [[e2|[]] fs2] eqn:D2;
    [discriminate|].
  destruct (dump (feature_names self) _ fs2) as [[e3|[]] fs3] eqn:D3; [discriminate|].
  apply dump_inv in D1 as [F1 _], D2 as [F2 _], D3 as [F3 _].
  destruct (_ && _); intros Hs; [|discriminate]. injection Hs as <-.
  assert (H12 : artifact model_name ".joblib" <> artifact model_name "_scaler.joblib")
    by (apply artifact_suffix_ne; cbn; lia).
  assert (H13 : artifact model_name ".joblib" <> artifact model_name "_features.joblib")
    by (apply artifact_suffix_ne; cbn; lia).
  assert (H23 : artifact model_name "_scaler.joblib"
                <> artifact model_name "_features.joblib")
    by (apply artifact_suffix_ne; cbn; lia).
  rewrite F3, F2, F1. repeat split.
  - rewrite lookup_insert_ne by congruence.
    rewrite lookup_insert_ne by congruence. apply lookup_insert_eq.
  - rewrite lookup_insert_ne by congruence. apply lookup_insert_eq.
  - apply lookup_insert_eq.
Qed.

(** C8. After a successful [save] of a trained budget model under a name,
    [load] of that name on another model object gives it the regressor, the
    scaler and the feature names of the saved model and marks it trained:
    the loaded object is the saved one, and [predict] on it returns what
    [predict] on the saved model returns, for every input. *)
Theorem save_load_round_trip (self other : t) (model_name : string)
    (fs fs' : FileSystem) :
  is_trained self = true ->
  save self model_name fs = (inr true, fs') ->
  load other model_name fs' = (inr tt, self)
  /\ forall X, predict (load other model_name fs').2 X = predict self X.
Proof.
  intros Htrained Hsave.
  destruct (save_true_files _ _ _ _ Hsave) as (Hm & Hs & Hf).
  assert (Hload : load other model_name fs' = (inr tt, self)).
  { unfold load, load_from, exists_, Joblib.load. rewrite Hm, Hs, Hf.
    rewrite bool_decide_eq_true_2 by eauto. cbn.
    destruct self as [m s f tr]. cbn in *. now subst tr. }
  split; [exact Hload|]. intros X. now rewrite Hload.
Qed.

End Persistence.

(** The round trip of the sample budget model through an empty disk. *)
Lemma save_load_round_trip_sample :
  MLBudgetModel.is_trained Samples.budget_model = true
  /\ (MLBudgetModel.save Samples.budget_model "budget_model" Samples.empty_disk).1
     = inr true
  /\ MLBudgetModel.load MLBudgetModel.init "budget_model"
       (MLBudgetModel.save Samples.budget_model "budget_model" Samples.empty_disk).2
     = (inr tt, Samples.budget_model).
Proof.
  split; [reflexivity|]. split; [vm_compute; reflexivity|].
  apply (save_load_round_trip Samples.budget_model MLBudgetModel.init "budget_model"
           Samples.empty_disk); [reflexivity|].
  apply injective_projections; [vm_compute; reflexivity | reflexivity].
Defined.

(** ** Assignments to the columns of a frame *)

Section ColumnAssignment.
Import Py Pandas.

Lemma updates_refl (df : DataFrame) : updates [] df df.
Proof.
  repeat split; auto. apply Forall_Forall2_diag, Forall_forall. auto.
Qed.

Lemma updates_weaken (ch ch' : list string) (df df' : DataFrame) :
  (forall c, c ∈ ch -> c ∈ ch') -> updates ch df df' -> updates ch' df df'.
Proof.
  intros Hsub (Hc1 & Hc2 & Hrows). repeat split; auto.
  - intros c Hc. destruct (Hc2 c Hc); auto.
  - eapply Forall2_impl; [exact Hrows|].
    intros r r' [Hl Hkeep]. split; [exact Hl|]. intros c Hc. apply Hkeep. auto.
Qed.

Lemma updates_trans (ch1 ch2 : list string) (df1 df2 df3 : DataFrame) :
  updates ch1 df1 df2 -> updates ch2 df2 df3 -> updates (ch1 ++ ch2) df1 df3.
Proof.
  intros (Ha1 & Ha2 & Ha) (Hb1 & Hb2 & Hb). repeat split; auto.
  - intros c Hc. rewrite elem_of_app.
    destruct (Hb2 c Hc) as [Hc'|]; [|tauto]. destruct (Ha2 c Hc'); tauto.
  - eapply Forall2_trans; [| exact Ha | exact Hb].
    intros r r' r'' [Hl1 Hk1] [Hl2 Hk2]. split; [congruence|].
    intros c Hc. rewrite elem_of_app in Hc.
    rewrite Hk2, Hk1; tauto.
Qed.

Lemma updates_nrows (ch : list string) (df df' : DataFrame) :
  updates ch df df' -> nrows df' = nrows df.
Proof. intros (_ & _ & Hrows). symmetry. exact (Forall2_length _ _ _ Hrows). Qed.

(** An assignment of as many values as there are rows succeeds; it changes
    the assigned column only, which then holds the values. *)
Lemma setitem_ok (df : DataFrame) (c : string) (values : list cell) :
  length values = nrows df ->
  exists df', setitem df c values = inr df'
    /\ updates [c] df df'
    /\ c ∈ columns df'
    /\ map (at_column c) (rows df') = values.
Proof.
  intros Hlen. unfold setitem. rewrite Hlen, Nat.eqb_refl.
  eexists. split; [reflexivity|]. cbn [columns rows].
  split; [|split].
  - repeat split.
    + intros c' Hc'. apply elem_of_with_column. now right.
    + intros c' Hc'. apply elem_of_with_column in Hc' as [->|]; [right | now left].
      apply list_elem_of_here.
    + unfold nrows in Hlen. revert values Hlen.
      induction (rows df) as [|[i m] l IH]; intros [|v vs] Hlen;
        try discriminate; cbn; constructor.
      * split; [reflexivity|]. intros c' Hc'.
        apply at_column_insert_ne. intros ->. apply Hc', list_elem_of_here.
      * apply IH. now injection Hlen.
  - apply elem_of_with_column. now left.
  - unfold nrows in Hlen. revert values Hlen.
    induction (rows df) as [|[i m] l IH]; intros [|v vs] Hlen;
      try discriminate; cbn; [reflexivity|].
    rewrite at_column_insert_eq. f_equal. apply IH. now injection Hlen.
Qed.

Lemma setitem_scalar_updates (df : DataFrame) (c : string) (v : cell) :
  updates [c] df (setitem_scalar df c v)
  /\ c ∈ columns (setitem_scalar df c v)
  /\ Forall (fun r => at_column c r = v) (rows (setitem_scalar df c v)).
Proof.
  unfold updates. cbn [setitem_scalar columns rows]. split; [|split].
  - repeat split.
    + intros c' Hc'. apply elem_of_with_column. now right.
    + intros c' Hc'. apply elem_of_with_column in Hc' as [->|]; [right | now left].
      apply list_elem_of_here.
    + induction (rows df) as [|[i m] l IH]; cbn; constructor; [|exact IH].
      split; [reflexivity|]. intros c' Hc'.
      apply at_column_insert_ne. intros ->. apply Hc', list_elem_of_here.
  - apply elem_of_with_column. now left.
  - apply Forall_forall. intros r Hr. apply list_elem_of_fmap in Hr as ([i m] & -> & _).
    apply at_column_insert_eq.
Qed.

(** A column that an update leaves alone reads the same before and after. *)
Lemma getitem_updates (ch : list string) (df df' : DataFrame) (c : string) :
  updates ch df df' -> c ∉ ch -> c ∈ columns df ->
  getitem df' c = getitem df c.
Proof.
  intros (Hc1 & _ & Hrows) Hc Hin. unfold getitem.
  rewrite (proj2 (has_column_true c df) Hin).
  rewrite (proj2 (has_column_true c df') (Hc1 c Hin)). f_equal.
  induction Hrows as [|r r' l l' [_ Hkeep] _ IH]; cbn; [reflexivity|].
  now rewrite Hkeep, IH.
Qed.

Lemma numeric_updates (ch : list string) (df df' : DataFrame) (c : string) :
  updates ch df df' -> c ∉ ch -> c ∈ columns df ->
  numeric df' c = numeric df c.
Proof. intros Hu Hc Hin. unfold numeric. now rewrite (getitem_updates _ _ _ _ Hu Hc Hin). Qed.

(** A column whose values are known. *)
Lemma getitem_values (df : DataFrame) (c : string) (values : list cell) :
  c ∈ columns df -> map (at_column c) (rows df) = values ->
  getitem df c = inr values.
Proof.
  intros Hin <-. unfold getitem. now rewrite (proj2 (has_column_true c df) Hin).
Qed.

Lemma numeric_of_floats (df : DataFrame) (c : string) (xs : list float) :
  c ∈ columns df -> map (at_column c) (rows df) = map Num xs ->
  numeric df c = inr xs.
Proof.
  intros Hin Hv. unfold numeric. rewrite (getitem_values _ _ _ Hin Hv). cbn [bind].
  rewrite mapM_compose. rewrite (mapM_map _ id); [now rewrite map_id | reflexivity].
Qed.

(** A column without strings reads as the floats of its rows. *)
Lemma numeric_rows (df : DataFrame) (c : string) :
  c ∈ columns df ->
  Forall (fun r => forall s, at_column c r <> Str s) (rows df) ->
  numeric df c = inr (map (num c) (rows df)).
Proof.
  intros Hin Hnum. unfold numeric. rewrite (getitem_values _ _ _ Hin eq_refl).
  cbn [bind]. rewrite mapM_compose. apply mapM_map.
  intros r Hr. rewrite Forall_forall in Hnum. specialize (Hnum r Hr).
  unfold num. destruct (at_column c r); try reflexivity.
  now contradiction (Hnum s).
Qed.

(** Assignment in terms of the columns a frame holds. *)
Lemma setitem_holds (df : DataFrame) (c : string) (values : list cell) :
  length values = nrows df ->
  exists df', setitem df c values = inr df'
    /\ nrows df' = nrows df
    /\ holds df' c values
    /\ (forall c' values', c' <> c -> holds df c' values' -> holds df' c' values').
Proof.
  intros Hlen. destruct (setitem_ok df c values Hlen) as (df' & Hset & U & Hc & Hv).
  exists df'. split; [exact Hset|]. split; [exact (updates_nrows _ _ _ U)|].
  split; [split; assumption|].
  intros c' values' Hne [Hin Hval]. split; [exact (proj1 U _ Hin)|].
  rewrite <- Hval. destruct U as (_ & _ & Hrows). clear Hval Hv Hset Hlen.
  induction Hrows as [|r r' l l' [_ Hkeep] _ IH]; cbn [map]; [reflexivity|].
  f_equal; [|exact IH]. apply Hkeep. intros Hc'.
  apply elem_of_cons in Hc' as [Hc'|Hc']; [contradiction | now apply elem_of_nil in Hc'].
Qed.

Lemma getitem_holds (df : DataFrame) (c : string) (values : list cell) :
  holds df c values -> getitem df c = inr values.
Proof. intros [Hin Hv]. now apply getitem_values. Qed.

Lemma numeric_holds (df : DataFrame) (c : string) (values : list cell) :
  holds df c values -> numeric df c = mapM to_float values.
Proof. intros H. unfold numeric. now rewrite (getitem_holds _ _ _ H). Qed.

Lemma has_column_holds (df : DataFrame) (c : string) (values : list cell) :
  holds df c values -> has_column c df = true.
Proof. intros [Hin _]. now apply has_column_true. Qed.

Lemma mapM_to_float_Num {A} (f : A -> float) (l : list A) :
  mapM to_float (map (fun x => Num (f x)) l) = inr (map f l).
Proof. rewrite mapM_compose. now apply mapM_map. Qed.

Lemma mapM_to_float_num (c : string) (l : list (Z * gmap string cell)) :
  Forall (fun r => forall s, at_column c r <> Str s) l ->
  mapM to_float (map (at_column c) l) = inr (map (num c) l).
Proof.
  intros Hnum. rewrite mapM_compose. apply mapM_map.
  intros r Hr. rewrite Forall_forall in Hnum. specialize (Hnum r Hr).
  unfold num. destruct (at_column c r); try reflexivity.
  now contradiction (Hnum s).
Qed.

Lemma zip_map2 {A B C} (g : A -> B) (h : A -> C) (l : list A) :
  zip (map g l) (map h l) = map (fun x => (g x, h x)) l.
Proof. induction l as [|x l IH]; cbn; [reflexivity | now rewrite IH]. Qed.

Lemma zip_with_map2 {A B C D} (f : B -> C -> D) (g : A -> B) (h : A -> C) (l : list A) :
  zip_with f (map g l) (map h l) = map (fun x => f (g x) (h x)) l.
Proof. induction l as [|x l IH]; cbn; [reflexivity | now rewrite IH]. Qed.

End ColumnAssignment.

(** ** The fallback score of the code and of the specification *)

Section FallbackScoreSpec.
Import Py Pandas MLRankingModel.
Context `{RT : Runtime} `{SK : Sklearn}.

Lemma well_formed_places_readable (df : DataFrame) :
  well_formed_places df -> readable_places df.
Proof.
  intros [Hcols Hrows]. split; [exact Hcols|].
  eapply Forall_impl; [exact Hrows|]. intros r [Hn (s & Hs & _)]. split; [|eauto].
  intros c s' Hc Heq. specialize (Hn c Hc). now rewrite Heq in Hn.
Qed.

Lemma well_formed_user_readable (user_features : list (string * cell)) :
  well_formed_user user_features -> readable_user user_features.
Proof. intros [Hb _] s Heq. now rewrite Heq in Hb. Qed.

Lemma well_formed_batch_readable (df : DataFrame) :
  FeatureEngineer.well_formed_batch df -> FeatureEngineer.readable_batch df.
Proof.
  intros (Hcols & Hrows & _). split; [exact Hcols|].
  eapply Forall_impl; [exact Hrows|]. intros r [Hn (s & Hs & _)]. split; [|eauto].
  intros c s' Hc Heq. specialize (Hn c Hc). now rewrite Heq in Hn.
Qed.

Lemma small_lower_ascii (c : ascii) : FallbackSpec.small c = PyStr.lower_ascii c.
Proof. destruct c as [[] [] [] [] [] [] [] []]; reflexivity. Qed.

Lemma lowercase_lower (s : string) : FallbackSpec.lowercase s = PyStr.lower s.
Proof.
  unfold FallbackSpec.lowercase. induction s as [|c s IH]; [reflexivity|].
  cbn [list_ascii_of_string map string_of_list_ascii PyStr.lower].
  now rewrite small_lower_ascii, IH.
Qed.

Lemma list_to_map_find {A} (l : list (string * A)) (k : string) :
  (list_to_map l : gmap string A) !! k
  = snd <$> List.find (fun entry : string * A => String.eqb k entry.1) l.
Proof.
  induction l as [|[k' v] l IH]; [apply lookup_empty|].
  rewrite list_to_map_cons. cbn [List.find fst snd].
  destruct (String.eqb_spec k k') as [->|Hne].
  - now rewrite lookup_insert_eq.
  - rewrite lookup_insert_ne by congruence. exact IH.
Qed.

Lemma keywords_map (category : string) :
  default [] (category_interest_map !! PyStr.lower category)
  = FallbackSpec.keywords category.
Proof.
  unfold FallbackSpec.keywords. rewrite lowercase_lower.
  change category_interest_map
    with (list_to_map FallbackSpec.category_keywords : gmap string (list string)).
  rewrite list_to_map_find. now destruct (List.find _ _).
Qed.

Lemma keywords_NoDup (category : string) : NoDup (FallbackSpec.keywords category).
Proof.
  unfold FallbackSpec.keywords.
  destruct (List.find _ _) as [entry|] eqn:E; [|apply NoDup_nil_2].
  apply find_some in E as [Hin _]. unfold FallbackSpec.category_keywords in Hin.
  repeat (destruct Hin as [<-|Hin];
          [cbn [snd];
           repeat (apply NoDup_cons; split; [not_in_list|]); apply NoDup_nil_2|]).
  destruct Hin.
Qed.

Lemma is_one_flag_set (v : cell) : is_one v = FallbackSpec.flag_set v.
Proof. destruct v as [x|[|[p|p|]|p]|[]|s|]; reflexivity. Qed.

Lemma startswith_prefix_eq (p s : string) : PyStr.startswith p s = String.prefix p s.
Proof.
  revert s. induction p as [|a p IH]; intros s; [now destruct s|].
  destruct s as [|b s]; [reflexivity|]. cbn.
  destruct (Ascii.eqb_spec a b) as [->|Hne].
  - destruct (ascii_dec b b); [apply IH | contradiction].
  - destruct (ascii_dec a b); [contradiction | reflexivity].
Qed.

(** The user has interests exactly when the code finds some. *)
Lemma has_interests_spec (user_features : list (string * cell)) :
  FallbackSpec.has_interests user_features
  = negb (bool_decide (interests_of user_features = [])).
Proof.
  unfold FallbackSpec.has_interests, interests_of.
  induction user_features as [|kv l IH]; [reflexivity|].
  cbn [existsb List.filter].
  rewrite <- startswith_prefix_eq, <- is_one_flag_set.
  destruct (PyStr.startswith "interest_" kv.1 && is_one kv.2); [reflexivity|].
  exact IH.
Qed.

Lemma replace_absent (s : string) :
  PyStr.contains "interest_" s = false ->
  PyStr.replace_from "interest_" "" 0 s = s.
Proof.
  induction s as [|c s IH]; [reflexivity|]. intros H.
  cbn [PyStr.contains] in H. cbn [PyStr.replace_from].
  destruct (PyStr.startswith "interest_" (String c s)); [discriminate|].
  now rewrite IH.
Qed.

Lemma replace_interest_key (interest : string) :
  PyStr.contains "interest_" interest = false ->
  PyStr.replace "interest_" "" ("interest_" ++ interest) = interest.
Proof.
  intros H. unfold PyStr.replace. simpl. now apply replace_absent.
Qed.

Lemma app_prefix_inj (p a b : string) : (p ++ a = p ++ b)%string -> a = b.
Proof. induction p as [|c p IH]; simpl; [auto|]. intros [= H]. auto. Qed.

(** The interests the code reads are those whose flag is 1. *)
Lemma interests_of_spec (user_features : list (string * cell)) (interest : string) :
  well_formed_user user_features ->
  interest ∈ interests_of user_features
  <-> FallbackSpec.has_interest user_features interest = true.
Proof.
  intros [_ Hkeys]. unfold interests_of, FallbackSpec.has_interest.
  induction Hkeys as [|kv l Hkv _ IH].
  - cbn. split; [intros H; now apply elem_of_nil in H | discriminate].
  - cbn [List.filter existsb]. rewrite <- is_one_flag_set.
    destruct (PyStr.startswith "interest_" kv.1) eqn:Ep; cbn [andb].
    + destruct (Hkv eq_refl) as (i & Hi & Hc).
      rewrite Hi. destruct (is_one kv.2); cbn [andb].
      * cbn [map fst]. rewrite Hi, (replace_interest_key i Hc).
        rewrite elem_of_cons, orb_true_iff, IH.
        destruct (String.eqb_spec ("interest_" ++ i) ("interest_" ++ interest))
          as [Heq|Hne].
        -- apply app_prefix_inj in Heq. subst. tauto.
        -- split; [intros [->|H]; [contradiction | now right] | intros [H|H]; [discriminate | now right]].
      * rewrite andb_false_r. cbn [orb]. exact IH.
    + destruct (String.eqb_spec kv.1 ("interest_" ++ interest)) as [Heq|Hne];
        cbn [andb orb]; [|exact IH].
      exfalso. rewrite Heq in Ep. simpl in Ep. discriminate Ep.
Qed.

Lemma size_inter_filter (A : gset string) (l : list string) :
  NoDup l ->
  size (A ∩ list_to_set l) = length (List.filter (fun k => bool_decide (k ∈ A)) l).
Proof.
  induction 1 as [|k l Hk Hnd IH]; cbn [List.filter length].
  - rewrite list_to_set_nil. replace (A ∩ ∅) with (∅ : gset string) by set_solver.
    apply size_empty.
  - rewrite list_to_set_cons. case_bool_decide as HA; cbn [length].
    + replace (A ∩ ({[k]} ∪ list_to_set l))
        with ({[k]} ∪ (A ∩ list_to_set l) : gset string) by set_solver.
      rewrite size_union by set_solver. now rewrite size_singleton, IH.
    + replace (A ∩ ({[k]} ∪ list_to_set l)) with (A ∩ list_to_set l : gset string)
        by set_solver.
      exact IH.
Qed.

(** The count of the code is the count of matching keywords. *)
Lemma matches_spec (user_features : list (string * cell)) (category : string) :
  well_formed_user user_features ->
  matches (interests_of user_features)
          (default [] (category_interest_map !! PyStr.lower category))
  = FallbackSpec.matching_keywords user_features category.
Proof.
  intros Hu. rewrite keywords_map. unfold matches, FallbackSpec.matching_keywords.
  rewrite (size_inter_filter _ _ (keywords_NoDup category)). f_equal.
  apply filter_ext. intros k.
  destruct (FallbackSpec.has_interest user_features k) eqn:E.
  - apply bool_decide_eq_true. rewrite elem_of_list_to_set.
    now apply (interests_of_spec _ _ Hu).
  - apply bool_decide_eq_false. rewrite elem_of_list_to_set.
    intros H. apply (interests_of_spec _ _ Hu) in H. congruence.
Qed.

Lemma num_number_at (c : string) (r : Z * gmap string cell) :
  number (at_column c r) -> num c r = FallbackSpec.number_at c r.
Proof.
  unfold num, FallbackSpec.number_at, at_column.
  destruct (r.2 !! c) as [[x|n|b|s|]|]; cbn; intros H; try contradiction; reflexivity.
Qed.

Lemma category_of_category_at (r : Z * gmap string cell) :
  category_of r = FallbackSpec.category_at r.
Proof.
  unfold category_of, FallbackSpec.category_at, at_column.
  now destruct (r.2 !! "category") as [[x|n|b|s|]|].
Qed.

Lemma dict_get_find (d : list (string * cell)) (k : string) (dflt : cell) :
  dict_get d k dflt
  = match List.find (fun kv : string * cell => String.eqb kv.1 k) d with
    | Some kv => kv.2
    | None => dflt
    end.
Proof.
  induction d as [|[k' v] d IH]; [reflexivity|]. cbn [dict_get List.find fst].
  rewrite (String.eqb_sym k' k). destruct (String.eqb k k'); [reflexivity | exact IH].
Qed.

Lemma budget_of_user_budget (user_features : list (string * cell)) :
  number (dict_get user_features "budget_encoded" (Int 2)) ->
  budget_of user_features = FallbackSpec.user_budget user_features.
Proof.
  unfold budget_of, FallbackSpec.user_budget. rewrite dict_get_find.
  destruct (List.find _ user_features) as [[k [x|n|b|s|]]|]; cbn;
    intros H; try contradiction; reflexivity.
Qed.

(** On well-formed input the score the code computes is the score of the
    specification. *)
Lemma fallback_formula_spec (user_features : list (string * cell))
    (r : Z * gmap string cell) :
  well_formed_user user_features ->
  (forall c, c ∈ ["rating"; "reviews_count"; "price_level"] -> number (at_column c r)) ->
  fallback_formula user_features r = FallbackSpec.score user_features r.
Proof.
  intros Hu Hn. unfold fallback_formula, FallbackSpec.score, keyword_matches.
  rewrite has_interests_spec, (matches_spec _ _ Hu), category_of_category_at.
  rewrite !num_number_at by (apply Hn; in_list).
  rewrite (budget_of_user_budget _ (proj1 Hu)).
  destruct (interests_of user_features); reflexivity.
Qed.

End FallbackScoreSpec.

(** ** The fallback ranking *)

Section FallbackRanking.
Import Py Pandas Joblib MLRankingModel FloatOrder.
Context `{RT : Runtime} `{SK : Sklearn}.

Lemma not_str_to_float (v : cell) :
  (forall s, v <> Str s) -> exists x, to_float v = inr x.
Proof.
  intros Hv. destruct v; cbn; eauto. now contradiction (Hv s).
Qed.

(** The assignments of the fallback to its copy succeed on a well-formed
    frame; they change the columns [score] and [budget_penalty] only, and
    leave in [score] the fallback score of each row. *)
Lemma fallback_score_ok (user_features : list (string * cell)) (df : DataFrame) :
  readable_places df -> readable_user user_features ->
  exists df', fallback_score user_features df = inr df'
    /\ updates ["score"; "budget_penalty"] df df'
    /\ "score" ∈ columns df'
    /\ map (at_column "score") (rows df')
       = map (fun r => Num (fallback_formula user_features r)) (rows df).
Proof.
  intros [Hcols Hrows] Hbudget.
  assert (Hrating : "rating" ∈ columns df) by (apply Hcols; in_list).
  assert (Hreviews : "reviews_count" ∈ columns df) by (apply Hcols; in_list).
  assert (Hprice : "price_level" ∈ columns df) by (apply Hcols; in_list).
  assert (Hcategory : "category" ∈ columns df) by (apply Hcols; in_list).
  assert (Hnum : forall c, c ∈ ["rating"; "reviews_count"; "price_level"] ->
            numeric df c = inr (map (num c) (rows df))).
  { intros c Hc. apply numeric_rows; [apply Hcols; repeat (apply elem_of_cons in Hc as [->|Hc]; [in_list|]); now apply elem_of_nil in Hc|].
    eapply Forall_impl; [exact Hrows|]. intros r [Hr _] s. now apply Hr. }
  unfold fallback_score.
  rewrite (proj2 (has_column_true _ _) Hrating), Hnum by in_list. cbn [bind].
  (* df['score'] = rating / 5.0 *)
  destruct (setitem_ok df "score"
              (map (fun r => Num (r / 5.0)) (map (num "rating") (rows df))))
    as (df1 & -> & U1 & S1 & V1); [now rewrite !length_map|]. cbn [bind].
  rewrite map_map in V1.
  (* df['score'] += log1p(reviews_count) / 10 *)
  rewrite (proj2 (has_column_true _ _) (proj1 U1 _ Hreviews)).
  rewrite (numeric_of_floats df1 "score"
             (map (fun r => (num "rating" r / 5.0)%float) (rows df)))
    by (try exact S1; now rewrite V1, map_map).
  cbn [bind].
  rewrite (numeric_updates _ _ _ _ U1) by (try exact Hreviews; not_in_list).
  rewrite Hnum by in_list. cbn [bind]. rewrite zip_with_map2.
  destruct (setitem_ok df1 "score"
              (map (fun r => Num (num "rating" r / 5.0
                                  + np_log1p (num "reviews_count" r) / 10)) (rows df)))
    as (df2 & -> & U2 & S2 & V2);
    [now rewrite length_map, (updates_nrows _ _ _ U1)|]. cbn [bind].
  pose proof (updates_trans _ _ _ _ _ U1 U2) as U12.
  (* budget penalty *)
  rewrite (proj2 (has_column_true _ _) (proj1 U12 _ Hprice)).
  rewrite (numeric_updates _ _ _ _ U12) by (try exact Hprice; not_in_list).
  rewrite Hnum by in_list. cbn [bind].
  destruct (not_str_to_float _ Hbudget) as [b Hb]. rewrite Hb. cbn [bind].
  assert (Eb : budget_of user_features = b) by (unfold budget_of; now rewrite Hb).
  rewrite map_map.
  destruct (setitem_ok df2 "budget_penalty"
              (map (fun r => Num (PrimFloat.abs (num "price_level" r - b) * 0.1))
                   (rows df)))
    as (df3 & -> & U3 & S3 & V3);
    [now rewrite length_map, (updates_nrows _ _ _ U12)|]. cbn [bind].
  rewrite (numeric_updates _ _ _ _ U3) by (try exact S2; not_in_list).
  rewrite (numeric_of_floats df2 "score"
             (map (fun r => (num "rating" r / 5.0
                             + np_log1p (num "reviews_count" r) / 10)%float) (rows df)))
    by (try exact S2; now rewrite V2, map_map).
  cbn [bind].
  rewrite (numeric_of_floats df3 "budget_penalty"
             (map (fun r => (PrimFloat.abs (num "price_level" r - b) * 0.1)%float)
                  (rows df)))
    by (try exact S3; now rewrite V3, map_map).
  cbn [bind]. rewrite zip_with_map2.
  destruct (setitem_ok df3 "score"
              (map (fun r => Num (num "rating" r / 5.0
                                  + np_log1p (num "reviews_count" r) / 10
                                  - PrimFloat.abs (num "price_level" r - b) * 0.1))
                   (rows df)))
    as (df4 & -> & U4 & S4 & V4).
  { rewrite length_map, (updates_nrows _ _ _ U3). now rewrite (updates_nrows _ _ _ U12). }
  cbn [bind].
  pose proof (updates_trans _ _ _ _ _ (updates_trans _ _ _ _ _ U12 U3) U4) as U14.
  assert (U : updates ["score"; "budget_penalty"] df df4)
    by (eapply updates_weaken; [|exact U14]; intros c Hc; repeat (apply elem_of_cons in Hc as [->|Hc]; [in_list|]); now apply elem_of_nil in Hc).
  (* interest boost *)
  rewrite (proj2 (has_column_true _ _) (proj1 U _ Hcategory)).
  unfold fallback_formula. rewrite Eb.
  destruct (interests_of user_features) as [|i0 ui] eqn:Hui.
  - cbn [negb bool_decide andb]. rewrite bool_decide_eq_true_2 by reflexivity.
    cbn [negb andb]. exists df4.
    split; [reflexivity|]. split; [exact U|]. split; [exact S4|].
    rewrite V4. apply map_ext. intros r. do 2 f_equal. apply float_mul_comm.
  - rewrite bool_decide_eq_false_2 by discriminate. cbn [negb andb].
    rewrite (getitem_updates _ _ _ _ U) by (try exact Hcategory; not_in_list).
    rewrite (getitem_values df "category" _ Hcategory eq_refl). cbn [bind].
    rewrite mapM_compose.
    rewrite (mapM_map _ (fun r => (PyFloat.of_nat
                 (matches (i0 :: ui)
                    (default [] (category_interest_map !! PyStr.lower (category_of r))))
                 * 0.2)%float)).
    2:{ intros r Hr. rewrite Forall_forall in Hrows.
        destruct (Hrows r Hr) as [_ [s Hs]]. unfold category_of. now rewrite Hs. }
    cbn [bind].
    rewrite (numeric_of_floats df4 "score"
               (map (fun r => (num "rating" r / 5.0
                               + np_log1p (num "reviews_count" r) / 10
                               - PrimFloat.abs (num "price_level" r - b) * 0.1)%float)
                    (rows df)))
      by (try exact S4; now rewrite V4, map_map).
    cbn [bind]. rewrite zip_with_map2.
    match goal with
    | |- context [setitem df4 "score" ?vs] =>
        destruct (setitem_ok df4 "score" vs) as (df5 & -> & U5 & S5 & V5)
    end.
    { rewrite length_map. apply eq_sym, (updates_nrows _ _ _ U). }
    exists df5. split; [reflexivity|]. split; [|split; [exact S5|]].
    + eapply updates_weaken; [|exact (updates_trans _ _ _ _ _ U U5)].
      intros c Hc; repeat (apply elem_of_cons in Hc as [->|Hc]; [in_list|]);
        now apply elem_of_nil in Hc.
    + rewrite V5. apply map_ext. intros r. unfold keyword_matches. rewrite Hui.
      do 2 f_equal; [f_equal; apply float_mul_comm | apply float_mul_comm].
Qed.

(** Sorting permutes the rows. *)
Lemma sort_values_desc_ok (df : DataFrame) (c : string) (keys : list float) :
  numeric df c = inr keys ->
  exists sorted, sort_values_desc df c = inr sorted
    /\ columns sorted = columns df
    /\ rows sorted ≡ₚ rows df.
Proof.
  intros Hkeys. unfold sort_values_desc. rewrite Hkeys. cbn [bind].
  eexists. split; [reflexivity|]. split; [reflexivity|]. cbn [rows].
  assert (Hlen : length keys = length (rows df)).
  { unfold numeric, getitem in Hkeys. destruct (has_column c df); [|discriminate].
    cbn [bind] in Hkeys. apply mapM_length in Hkeys. now rewrite length_map in Hkeys. }
  rewrite fmap_app, (sorted_reverse_perm fst).
  rewrite <- fmap_app, filter_app_complement.
  apply reflexive_eq, snd_zip. lia.
Qed.

Lemma head_rows (df : DataFrame) (n : Z) :
  0 <= n ->
  columns (head df n) = columns df
  /\ rows (head df n) = take (Z.to_nat n) (rows df).
Proof.
  intros Hn. unfold head. cbn. now rewrite (proj2 (Z.leb_le 0 n) Hn).
Qed.

(** The result list has an entry per row, built from the row. *)
Lemma materialize_ok (c : string) (df : DataFrame) :
  Forall (fun r => exists x, at_column c r = Num x) (rows df) ->
  materialize c df
  = inr (map (fun row =>
                {| place_id := row_get df row "place_id" (Int row.1);
                   name := row_get df row "name" (Str "Unknown");
                   score := num c row;
                   rating := row_get df row "rating" (Int 0);
                   category := row_get df row "category" (Str "Unknown");
                   price_level := row_get df row "price_level" (Int 2) |})
             (rows df)).
Proof.
  intros Hscore. unfold materialize. apply mapM_map.
  intros r Hr. rewrite Forall_forall in Hscore. destruct (Hscore r Hr) as [x Hx].
  unfold num. now rewrite Hx.
Qed.

(** The rows of an updated frame, one by one. *)
Lemma updates_rows (ch : list string) (df df' : DataFrame) (c : string)
    (f : Z * gmap string cell -> cell) (r' : Z * gmap string cell) :
  updates ch df df' ->
  map (at_column c) (rows df') = map f (rows df) ->
  r' ∈ rows df' ->
  exists r, r ∈ rows df /\ r'.1 = r.1
    /\ (forall c', c' ∉ ch -> at_column c' r' = at_column c' r)
    /\ at_column c r' = f r.
Proof.
  intros (_ & _ & Hrows). induction Hrows as [|r0 r0' l l' [Hl Hk] _ IH];
    intros Hmap Hr'.
  - now apply elem_of_nil in Hr'.
  - cbn in Hmap. injection Hmap as H0 Hmap.
    apply elem_of_cons in Hr' as [->|Hr'].
    + exists r0. split; [apply list_elem_of_here | auto].
    + destruct (IH Hmap Hr') as (r & Hr & Hrest).
      exists r. split; [now apply list_elem_of_further | exact Hrest].
Qed.

Lemma row_get_updates (ch : list string) (df df' : DataFrame)
    (r r' : Z * gmap string cell) (c : string) (d : cell) :
  updates ch df df' -> c ∉ ch ->
  (forall c', c' ∉ ch -> at_column c' r' = at_column c' r) ->
  row_get df' r' c d = row_get df r c d.
Proof.
  intros (Hc1 & Hc2 & _) Hc Hkeep. unfold row_get.
  rewrite (Hkeep c Hc).
  destruct (has_column c df) eqn:E.
  - apply has_column_true in E. now rewrite (proj2 (has_column_true _ _) (Hc1 c E)).
  - destruct (has_column c df') eqn:E'; [|reflexivity].
    apply has_column_true, Hc2 in E'. apply has_column_false in E. tauto.
Qed.

(** The fallback works on a copy: a new frame in the store, which gets the
    scores. *)
Lemma fallback_ranking_run (places_df : loc) (df : DataFrame)
    (user_features : list (string * cell)) (top_k : Z) (h : store) :
  h !! places_df = Some df ->
  _fallback_ranking places_df user_features top_k h
  = match fallback_score user_features df with
    | inr df' =>
        (top_results "score" df' top_k,
         <[fresh (dom h) := df']> (<[fresh (dom h) := df]> h))
    | inl e => (inl e, <[fresh (dom h) := df]> h)
    end.
Proof.
  intros Hh. unfold _fallback_ranking, mbind, copy, modify, read, lift.
  rewrite Hh. cbn beta iota zeta. rewrite lookup_insert_eq.
  destruct (fallback_score user_features df) as [e|df']; [reflexivity|].
  now rewrite lookup_insert_eq.
Qed.

(** The frame the caller passed is not the copy. *)
Lemma fallback_ranking_frame (places_df : loc) (df : DataFrame)
    (user_features : list (string * cell)) (top_k : Z) (h : store) :
  h !! places_df = Some df ->
  (_fallback_ranking places_df user_features top_k h).2 !! places_df = Some df.
Proof.
  intros Hh. rewrite (fallback_ranking_run _ _ _ _ _ Hh).
  assert (Hne : fresh (dom h) <> places_df).
  { intros Heq. apply (is_fresh (dom h)). rewrite Heq. apply elem_of_dom. eauto. }
  destruct (fallback_score user_features df); cbn;
    rewrite ?lookup_insert_ne by exact Hne; exact Hh.
Qed.

(** The untrained model on a frame it can read: the entries and their
    scores as the code computes them. *)
Lemma rank_places_untrained_readable (self : t) (places_df : loc)
    (df : DataFrame) (user_features : list (string * cell)) (top_k : Z) (h : store) :
  is_trained self = false ->
  h !! places_df = Some df ->
  readable_places df ->
  readable_user user_features ->
  0 <= top_k ->
  exists results,
    (rank_places self places_df user_features top_k h).1 = inr results
    /\ Z.of_nat (length results) = Z.min top_k (Z.of_nat (nrows df))
    /\ Forall (fun res =>
                 exists r, r ∈ rows df
                   /\ score res = fallback_formula user_features r
                   /\ place_id res = row_get df r "place_id" (Int r.1)
                   /\ name res = row_get df r "name" (Str "Unknown")
                   /\ rating res = at_column "rating" r
                   /\ category res = at_column "category" r
                   /\ price_level res = at_column "price_level" r)
              results.
Proof.
  intros Htrained Hh Hwf Hu Hk.
  destruct (fallback_score_ok user_features df Hwf Hu) as (df' & Hscore & U & S & V).
  unfold rank_places. rewrite Htrained. cbn [negb].
  rewrite (fallback_ranking_run _ _ _ _ _ Hh), Hscore. cbn [fst].
  unfold top_results.
  destruct (sort_values_desc_ok df' "score"
              (map (fallback_formula user_features) (rows df)))
    as (sorted & -> & Hcs & Hperm).
  { apply numeric_of_floats; [exact S | now rewrite V, map_map]. }
  cbn [bind].
  destruct (head_rows sorted top_k Hk) as [Hhc Hhr].
  assert (Hin : forall r', r' ∈ rows (head sorted top_k) -> r' ∈ rows df').
  { intros r' Hr'. rewrite Hhr in Hr'. rewrite <- Hperm.
    eapply subseteq_take; exact Hr'. }
  rewrite materialize_ok.
  2:{ apply Forall_forall. intros r' Hr'.
      destruct (updates_rows _ _ _ _ _ r' U V (Hin r' Hr')) as (r & _ & _ & _ & Hs).
      eauto. }
  eexists. split; [reflexivity|]. split.
  - pose proof (updates_nrows _ _ _ U) as Hn. unfold nrows in *.
    rewrite length_map, Hhr, length_take, Hperm, Hn. lia.
  - apply Forall_forall. intros res Hres.
    apply list_elem_of_fmap in Hres as (r' & -> & Hr'). cbn.
    destruct (updates_rows _ _ _ _ _ r' U V (Hin r' Hr')) as (r & Hr & Hl & Hkeep & Hs).
    assert (Hget : forall c d, c ∉ ["score"; "budget_penalty"] ->
              row_get (head sorted top_k) r' c d = row_get df r c d).
    { intros c d Hc. unfold row_get, has_column. rewrite Hhc, Hcs.
      exact (row_get_updates _ _ _ _ _ c d U Hc Hkeep). }
    assert (Hcol : forall c d, c ∈ ["rating"; "category"; "price_level"] ->
              row_get df r c d = at_column c r).
    { intros c d Hc. unfold row_get.
      rewrite (proj2 (has_column_true c df)); [reflexivity|].
      apply (proj1 Hwf).
      repeat (apply elem_of_cons in Hc as [->|Hc]; [in_list|]).
      now apply elem_of_nil in Hc. }
    exists r. split; [exact Hr|]. split; [unfold num; now rewrite Hs|].
    rewrite Hl. rewrite !Hget by not_in_list. rewrite (Hcol "rating"), (Hcol "category"), (Hcol "price_level") by in_list.
    repeat split.
Qed.

(** C2. On a model that has not been trained, [rank_places] does not raise
    for a well-formed places frame, well-formed user features and a
    non-negative [top_k]: it returns [min(top_k, number of places)] entries,
    each built from a row of the frame and scored
    [rating/5 + log1p(reviews_count)/10 - 0.1*|price_level - user_budget|
     + 0.2*(number of matching category-interest keywords)], the score of the
    specification. *)
Theorem rank_places_untrained_falls_back (self : t) (places_df : loc)
    (df : DataFrame) (user_features : list (string * cell)) (top_k : Z) (h : store) :
  is_trained self = false ->
  h !! places_df = Some df ->
  well_formed_places df ->
  well_formed_user user_features ->
  0 <= top_k ->
  exists results,
    (rank_places self places_df user_features top_k h).1 = inr results
    /\ Z.of_nat (length results) = Z.min top_k (Z.of_nat (nrows df))
    /\ Forall (fun res =>
                 exists r, r ∈ rows df
                   /\ score res = FallbackSpec.score user_features r
                   /\ place_id res = row_get df r "place_id" (Int r.1)
                   /\ name res = row_get df r "name" (Str "Unknown")
                   /\ rating res = at_column "rating" r
                   /\ category res = at_column "category" r
                   /\ price_level res = at_column "price_level" r)
              results.
Proof.
  intros Htrained Hh Hwf Hu Hk.
  destruct (rank_places_untrained_readable self places_df df user_features top_k h
              Htrained Hh (well_formed_places_readable _ Hwf)
              (well_formed_user_readable _ Hu) Hk)
    as (results & Hrun & Hlen & Hres).
  exists results. split; [exact Hrun|]. split; [exact Hlen|].
  eapply Forall_impl; [exact Hres|]. cbn beta.
  intros res (r & Hr & Hs & Hrest). exists r. split; [exact Hr|]. split; [|exact Hrest].
  rewrite Hs. apply fallback_formula_spec; [exact Hu|].
  destruct Hwf as [_ Hrows]. rewrite Forall_forall in Hrows. exact (proj1 (Hrows r Hr)).
Qed.

(** Every user feature becomes a column; no other column changes. *)
Lemma broadcast_updates (user_features : list (string * cell)) (df : DataFrame) :
  updates (keys user_features) df (broadcast user_features df)
  /\ (forall key, key ∈ keys user_features ->
                  key ∈ columns (broadcast user_features df)).
Proof.
  revert df. induction user_features as [|[k v] uf IH]; intros df.
  - split; [apply updates_refl|]. intros key Hkey. now apply elem_of_nil in Hkey.
  - cbn [broadcast fold_left keys fmap list_fmap fst]. fold (broadcast uf).
    destruct (IH (setitem_scalar df k v)) as [U Hcols].
    destruct (setitem_scalar_updates df k v) as (U0 & Hk & _).
    split.
    + exact (updates_trans [k] _ _ _ _ U0 U).
    + intros key Hkey. apply elem_of_cons in Hkey as [->|Hkey].
      * exact (proj1 U _ Hk).
      * now apply Hcols.
Qed.

(** The trained path assigns to the frame of the caller. *)
Lemma rank_places_trained_run (self : t) (places_df : loc) (df : DataFrame)
    (user_features : list (string * cell)) (top_k : Z) (h : store) :
  is_trained self = true ->
  h !! places_df = Some df ->
  rank_places self places_df user_features top_k h
  = let broadcasted := broadcast user_features df in
    let h1 := <[places_df := broadcasted]> h in
    match (let* scores := predict self broadcasted in
           setitem broadcasted "ml_score" (map Num scores)) with
    | inr df' => (top_results "ml_score" df' top_k, <[places_df := df']> h1)
    | inl _ => _fallback_ranking places_df user_features top_k h1
    end.
Proof.
  intros Htrained Hh. unfold rank_places. rewrite Htrained. cbn [negb].
  unfold mbind, modify, attempt, read, lift. rewrite Hh. cbn beta iota zeta.
  cbn [ret]. rewrite lookup_insert_eq.
  destruct (predict self (broadcast user_features df)) as [e|scores];
    [reflexivity|]. cbn [bind]. rewrite lookup_insert_eq.
  destruct (setitem (broadcast user_features df) "ml_score" (map Num scores))
    as [e|df']; [reflexivity|].
  now rewrite lookup_insert_eq.
Qed.


End FallbackRanking.

Section FallbackRankingCases.
Import Py Pandas Joblib MLRankingModel.

Lemma sample_places_well_formed : well_formed_places Samples.sample_places.
Proof.
  split.
  - intros c Hc.
    repeat (apply elem_of_cons in Hc as [->|Hc]; [in_list|]).
    now apply elem_of_nil in Hc.
  - repeat (apply Forall_cons; split;
            [split;
             [intros c Hc;
              repeat (apply elem_of_cons in Hc as [->|Hc]; [vm_compute; intuition discriminate|]);
              now apply elem_of_nil in Hc
             | eexists; split; reflexivity]|]).
    constructor.
Qed.

Lemma sample_user_well_formed : well_formed_user Samples.sample_user.
Proof.
  split; [cbn; lia|].
  repeat (apply Forall_cons; split;
          [first [ intros _; eexists; split; reflexivity
                 | intros H; discriminate H ]|]).
  constructor.
Qed.

(** The untrained model on the places of the recommendation route, for a
    user interested in culture and food: three results for [top_k = 3], the
    museum and the restaurant with their interest term of 0.2 before the
    beach, which has none. *)
Lemma rank_places_untrained_sample :
  well_formed_places Samples.sample_places
  /\ well_formed_user Samples.sample_user
  /\ exists results,
       (rank_places (RT := Reference.runtime) (SK := Reference.sklearn)
          init 1%positive Samples.sample_user 3 Samples.sample_store).1 = inr results
       /\ length results = 3%nat
       /\ map (fun res => (name res, score res)) results
          = [(Str "Museum", 1.685958551414416%float);
             (Str "Restaurant", 1.6056245805348308%float);
             (Str "Beach", 1.4446438775057722%float)].
Proof.
  split; [exact sample_places_well_formed|].
  split; [exact sample_user_well_formed|].
  destruct (rank_places_untrained_falls_back (RT := Reference.runtime)
              (SK := Reference.sklearn) init 1%positive Samples.sample_places
              Samples.sample_user 3 Samples.sample_store eq_refl eq_refl
              sample_places_well_formed sample_user_well_formed ltac:(lia))
    as (results & Hres & Hlen & _).
  exists results. split; [exact Hres|].
  split; [apply Nat2Z.inj; rewrite Hlen; reflexivity|].
  assert (H : (let* results :=
                 (rank_places (RT := Reference.runtime) (SK := Reference.sklearn)
                    init 1%positive Samples.sample_user 3 Samples.sample_store).1 in
               ret (map (fun res => (name res, score res)) results))
              = inr [(Str "Museum", 1.685958551414416%float);
                     (Str "Restaurant", 1.6056245805348308%float);
                     (Str "Beach", 1.4446438775057722%float)])
    by (vm_compute; reflexivity).
  rewrite Hres in H. now injection H.
Defined.



End FallbackRankingCases.

(** ** Place features *)

Section PlaceFeatures.
Import Py Pandas FeatureEngineer FloatOrder.

(** One assignment [df[c] = values] of a sequence: the frame after it, its
    number of rows, and the columns it holds. *)
Ltac assign d' N K :=
  match goal with
  | |- context [setitem ?d ?c ?vs] =>
      let H := fresh "Hnew" in
      destruct (setitem_holds d c vs) as (d' & -> & N & H & K);
      [ rewrite ?length_map; unfold nrows in *; congruence | cbn [bind] ]
  end.

Ltac carry K :=
  repeat match goal with
  | H : holds _ ?c ?vs |- _ => apply (K c vs) in H; [|discriminate]
  end.

(** The rating buckets: [(0, 3]] is 0, [(3, 4]] is 1, [(4, 5]] is 2, and a
    rating at or below 0 or above 5 has no bucket. *)
Lemma cut_rating (x : float) :
  ((0 <? x)%float = true -> (x <=? 3)%float = true ->
     cut [0; 3; 4; 5]%float [0; 1; 2] x = Some 0)
  /\ ((3 <? x)%float = true -> (x <=? 4)%float = true ->
     cut [0; 3; 4; 5]%float [0; 1; 2] x = Some 1)
  /\ ((4 <? x)%float = true -> (x <=? 5)%float = true ->
     cut [0; 3; 4; 5]%float [0; 1; 2] x = Some 2)
  /\ ((x <=? 0)%float = true -> cut [0; 3; 4; 5]%float [0; 1; 2] x = None)
  /\ ((5 <? x)%float = true -> cut [0; 3; 4; 5]%float [0; 1; 2] x = None).
Proof.
  unfold cut. cbn [List.filter].
  repeat split.
  - intros H0 H3.
    rewrite H0, (leb_leb_ltb_false x 3 3 H3 eq_refl),
      (leb_leb_ltb_false x 3 4 H3 eq_refl), (leb_leb_ltb_false x 3 5 H3 eq_refl).
    reflexivity.
  - intros H3 H4.
    rewrite (leb_ltb_trans x 3 0 eq_refl H3), H3,
      (leb_leb_ltb_false x 4 4 H4 eq_refl), (leb_leb_ltb_false x 4 5 H4 eq_refl).
    reflexivity.
  - intros H4 H5.
    rewrite (leb_ltb_trans x 4 0 eq_refl H4), (leb_ltb_trans x 4 3 eq_refl H4), H4,
      (leb_leb_ltb_false x 5 5 H5 eq_refl).
    reflexivity.
  - intros H0.
    rewrite (leb_leb_ltb_false x 0 0 H0 eq_refl), (leb_leb_ltb_false x 0 3 H0 eq_refl),
      (leb_leb_ltb_false x 0 4 H0 eq_refl), (leb_leb_ltb_false x 0 5 H0 eq_refl).
    reflexivity.
  - intros H5.
    rewrite (leb_ltb_trans x 5 0 eq_refl H5), (leb_ltb_trans x 5 3 eq_refl H5),
      (leb_ltb_trans x 5 4 eq_refl H5), H5.
    reflexivity.
Qed.

Lemma cut_rating_some (x : float) :
  (0 <? x)%float = true -> (x <=? 5)%float = true ->
  exists n, cut [0; 3; 4; 5]%float [0; 1; 2] x = Some n.
Proof.
  intros Hpos Hmax. destruct (cut_rating x) as (H1 & H2 & H3 & _).
  destruct (leb_true_not_nan _ _ Hmax) as [Hx _].
  destruct (x <=? 3)%float eqn:E3; [eauto|].
  destruct (x <=? 4)%float eqn:E4.
  - exists 1. apply H2; [|reflexivity]. now apply leb_false_ltb.
  - exists 2. apply H3; [|exact Hmax]. now apply leb_false_ltb.
Qed.

(** The boundaries: 3.0 is low, 3.01 and 4.0 are medium, 4.01 is high, and
    0 has no bucket. *)
Lemma cut_rating_boundaries :
  cut [0; 3; 4; 5]%float [0; 1; 2] 3.0 = Some 0
  /\ cut [0; 3; 4; 5]%float [0; 1; 2] 3.01 = Some 1
  /\ cut [0; 3; 4; 5]%float [0; 1; 2] 4.0 = Some 1
  /\ cut [0; 3; 4; 5]%float [0; 1; 2] 4.01 = Some 2
  /\ cut [0; 3; 4; 5]%float [0; 1; 2] 0 = None.
Proof. repeat split; reflexivity. Qed.

(** A value without a bucket cannot be converted to an integer. *)
Lemma astype_int_nan (labels : list (option Z)) :
  None ∈ labels ->
  astype_int labels = inl (ValueError "Cannot convert float NaN to integer").
Proof.
  induction labels as [|l labels IH]; intros Hin.
  - now apply elem_of_nil in Hin.
  - unfold astype_int in *. cbn [mapM]. destruct l as [n|]; [|reflexivity].
    apply elem_of_cons in Hin as [Hin|Hin]; [discriminate|].
    cbn [ret]. now rewrite (IH Hin).
Qed.

(** The maximum of a batch of zeros is 0. *)
Lemma series_max_zeros {A} (l : list A) :
  l <> [] -> series_max (map (fun _ => 0%float) l) = 0%float.
Proof.
  destruct l as [|a l]; [congruence|]. intros _. unfold series_max. cbn.
  induction l as [|b l IH]; cbn; [reflexivity | exact IH].
Qed.

Section WithRuntime.
Context `{RT : Runtime}.

(** C6: the claim is right and the code is not.  On every batch with a
    rating column of numbers one of which is at or below 0 (a place that has
    no rating yet), [create_place_features] raises [ValueError]: the rating
    has no bucket, and the conversion of the buckets to integers fails. *)
Theorem create_place_features_unrated_raises (places_df : DataFrame) :
  "rating" ∈ columns places_df ->
  Forall (fun r => forall s, at_column "rating" r <> Str s) (rows places_df) ->
  Exists (fun r => (num "rating" r <=? 0)%float = true) (rows places_df) ->
  create_place_features places_df
  = inl (ValueError "Cannot convert float NaN to integer").
Proof.
  intros Hcol Hnum Hzero. unfold create_place_features.
  rewrite (proj2 (has_column_true _ _) Hcol).
  rewrite (numeric_rows _ _ Hcol Hnum). cbn [bind].
  match goal with
  | |- context [setitem places_df "rating_normalized" ?vs] =>
      destruct (setitem_ok places_df "rating_normalized" vs)
        as (df1 & -> & U1 & _ & _); [now rewrite !length_map|]
  end.
  cbn [bind].
  rewrite (numeric_updates _ _ _ _ U1) by (try exact Hcol; not_in_list).
  rewrite (numeric_rows _ _ Hcol Hnum). cbn [bind].
  match goal with
  | |- context [setitem df1 "has_rating" ?vs] =>
      destruct (setitem_ok df1 "has_rating" vs) as (df2 & -> & U2 & _ & _);
        [now rewrite !length_map, (updates_nrows _ _ _ U1)|]
  end.
  cbn [bind].
  rewrite (numeric_updates _ _ _ _ (updates_trans _ _ _ _ _ U1 U2))
    by (try exact Hcol; not_in_list).
  rewrite (numeric_rows _ _ Hcol Hnum). cbn [bind].
  rewrite astype_int_nan; [reflexivity|].
  apply Exists_exists in Hzero as (r & Hr & Hle).
  apply list_elem_of_fmap. exists (num "rating" r). split.
  - destruct (cut_rating (num "rating" r)) as (_ & _ & _ & Hnone & _).
    now rewrite (Hnone Hle).
  - apply list_elem_of_fmap. eauto.
Qed.

Lemma startswith_app (p q s : string) :
  PyStr.startswith (p ++ q) (p ++ (q ++ s)) = true.
Proof.
  induction p as [|a p IH]; simpl.
  - induction q as [|b q IH]; simpl; [reflexivity|]. now rewrite Ascii.eqb_refl.
  - now rewrite Ascii.eqb_refl.
Qed.

(** The indicator columns are new columns under the prefix; a column
    without the prefix holds what it held. *)
Lemma concat_dummies_holds (df : DataFrame) (prefix : string)
    (labels : list (option string)) :
  length labels = nrows df ->
  exists df', concat_dummies df prefix labels = inr df'
    /\ nrows df' = nrows df
    /\ (forall c values, PyStr.startswith (prefix ++ "_") c = false ->
                         holds df c values -> holds df' c values).
Proof.
  intros Hlen. unfold concat_dummies.
  generalize (sorted_unique (omap id labels)). intros names.
  revert df Hlen. induction names as [|v names IH]; intros df Hlen.
  - exists df. cbn. auto.
  - cbn [fold_left bind ret].
    destruct (setitem_holds df (prefix ++ "_" ++ v)
                (map (fun l => Bool (bool_decide (l = Some v))) labels))
      as (df1 & -> & N1 & _ & K1); [now rewrite length_map|].
    destruct (IH df1) as (df' & Hfold & N & K); [congruence|].
    exists df'. split; [exact Hfold|]. split; [congruence|].
    intros c values Hc Hh. apply K; [exact Hc|]. apply K1; [|exact Hh].
    intros ->. now rewrite startswith_app in Hc.
Qed.

(** C7: the claim is right and the code is not.  On every well-formed batch
    of rated places none of which has a review, [create_place_features]
    divides the logarithms of the review counts, all 0, by their maximum,
    0: the quality score of every row is NaN, not
    [0.4*rating_normalized + 0.3*(5 - price_level)/4]. *)
Theorem create_place_features_unreviewed_nan (places_df : DataFrame) :
  np_log1p 0 = 0%float ->
  (forall c, c ∈ ["rating"; "reviews_count"; "price_level"; "category";
                  "latitude"; "longitude"] -> c ∈ columns places_df) ->
  Forall (fun r =>
            (forall c s, c ∈ ["rating"; "reviews_count"; "price_level";
                              "latitude"; "longitude"] -> at_column c r <> Str s)
            /\ (exists s, at_column "category" r = Str s)
            /\ (0 <? num "rating" r)%float = true
            /\ (num "rating" r <=? 5)%float = true
            /\ num "reviews_count" r = 0%float)
         (rows places_df) ->
  exists df', create_place_features places_df = inr df'
    /\ nrows df' = nrows places_df
    /\ Forall (fun r => exists q, at_column "quality_score" r = Num q
                                  /\ PrimFloat.is_nan q = true)
              (rows df').
Proof.
  intros Hlog Hcols Hrows.
  assert (Hnum : forall c, c ∈ ["rating"; "reviews_count"; "price_level";
                                "latitude"; "longitude"] ->
            mapM to_float (map (at_column c) (rows places_df))
            = inr (map (num c) (rows places_df))).
  { intros c Hc. apply mapM_to_float_num.
    eapply Forall_impl; [exact Hrows|]. intros r (Hr & _) s. now apply Hr. }
  assert (Hrating : holds places_df "rating" (map (at_column "rating") (rows places_df)))
    by (split; [apply Hcols; in_list | reflexivity]).
  assert (Hreviews : holds places_df "reviews_count"
                       (map (at_column "reviews_count") (rows places_df)))
    by (split; [apply Hcols; in_list | reflexivity]).
  assert (Hprice : holds places_df "price_level"
                     (map (at_column "price_level") (rows places_df)))
    by (split; [apply Hcols; in_list | reflexivity]).
  assert (Hcategory : holds places_df "category"
                        (map (at_column "category") (rows places_df)))
    by (split; [apply Hcols; in_list | reflexivity]).
  assert (Hlat : holds places_df "latitude" (map (at_column "latitude") (rows places_df)))
    by (split; [apply Hcols; in_list | reflexivity]).
  assert (Hlon : holds places_df "longitude"
                   (map (at_column "longitude") (rows places_df)))
    by (split; [apply Hcols; in_list | reflexivity]).
  unfold create_place_features.
  rewrite (has_column_holds _ _ _ Hrating).
  (* rating_normalized *)
  rewrite (numeric_holds _ _ _ Hrating), Hnum by in_list. cbn [bind]. rewrite map_map.
  assign df1 N1 K1. carry K1.
  (* has_rating *)
  rewrite (numeric_holds _ _ _ Hrating), Hnum by in_list. cbn [bind]. rewrite map_map.
  assign df2 N2 K2. carry K2.
  (* rating_quality *)
  rewrite (numeric_holds _ _ _ Hrating), Hnum by in_list. cbn [bind]. rewrite map_map.
  unfold astype_int. rewrite mapM_compose.
  rewrite (mapM_map _ (fun r => Int (default 0 (cut [0; 3; 4; 5]%float [0; 1; 2]
                                                  (num "rating" r))))).
  2:{ intros r Hr. rewrite Forall_forall in Hrows.
      destruct (Hrows r Hr) as (_ & _ & Hpos & Hmax & _).
      destruct (cut_rating_some _ Hpos Hmax) as [n ->]. reflexivity. }
  cbn [bind].
  assign df3 N3 K3. carry K3.
  (* log_reviews *)
  rewrite (numeric_holds _ _ _ Hreviews), Hnum by in_list. cbn [bind]. rewrite map_map.
  assign df4 N4 K4. carry K4.
  (* popularity_score *)
  rewrite (numeric_holds _ _ _ Hrating), Hnum by in_list. cbn [bind].
  rewrite (numeric_holds _ _ _ Hreviews), Hnum by in_list. cbn [bind].
  rewrite zip_with_map2.
  assign df5 N5 K5. carry K5.
  (* is_popular *)
  rewrite (numeric_holds _ _ _ Hreviews), Hnum by in_list. cbn [bind]. rewrite map_map.
  assign df6 N6 K6. carry K6.
  (* price features *)
  rewrite (numeric_holds _ _ _ Hprice), Hnum by in_list. cbn [bind]. rewrite map_map.
  assign df7 N7 K7. carry K7.
  rewrite (numeric_holds _ _ _ Hprice), Hnum by in_list. cbn [bind]. rewrite map_map.
  assign df8 N8 K8. carry K8.
  rewrite (numeric_holds _ _ _ Hprice), Hnum by in_list. cbn [bind]. rewrite map_map.
  assign df9 N9 K9. carry K9.
  (* category features *)
  rewrite (getitem_holds _ _ _ Hcategory). cbn [bind].
  unfold category_labels. rewrite mapM_compose.
  rewrite (mapM_map _ (fun r => match at_column "category" r with
                                | Str s => Some s
                                | _ => None
                                end)).
  2:{ intros r Hr. rewrite Forall_forall in Hrows.
      destruct (Hrows r Hr) as (_ & [s ->] & _). reflexivity. }
  cbn [bind].
  match goal with
  | |- context [concat_dummies df9 "cat" ?labels] =>
      destruct (concat_dummies_holds df9 "cat" labels) as (df10 & -> & N10 & K10);
        [rewrite length_map; unfold nrows in *; congruence | cbn [bind]]
  end.
  repeat match goal with
  | H : holds df9 ?c ?vs |- _ => apply (K10 c vs) in H; [|reflexivity]
  end.
  (* geographic features *)
  rewrite (numeric_holds _ _ _ Hlat), Hnum by in_list. cbn [bind]. rewrite map_map.
  assign df11 N11 K11. carry K11.
  rewrite (numeric_holds _ _ _ Hlon), Hnum by in_list. cbn [bind]. rewrite map_map.
  assign df12 N12 K12. carry K12.
  (* composite score *)
  match goal with
  | H : holds df12 "rating_normalized" _ |- _ => rewrite (numeric_holds _ _ _ H)
  end.
  rewrite mapM_to_float_Num. cbn [bind].
  match goal with
  | H : holds df12 "log_reviews" _ |- _ => rewrite (numeric_holds _ _ _ H)
  end.
  rewrite mapM_to_float_Num. cbn [bind].
  rewrite (numeric_holds _ _ _ Hprice), Hnum by in_list. cbn [bind].
  rewrite !zip_map2, map_map.
  assert (Hzeros : map (fun r => np_log1p (num "reviews_count" r)) (rows places_df)
                   = map (fun _ => 0%float) (rows places_df)).
  { apply map_ext_in. intros r Hr. rewrite Forall_forall in Hrows.
    destruct (Hrows r (proj2 (list_elem_of_In _ _) Hr)) as (_ & _ & _ & _ & ->).
    exact Hlog. }
  rewrite Hzeros.
  assign df13 N13 K13.
  exists df13. split; [reflexivity|]. split; [unfold nrows in *; congruence|].
  match goal with
  | H : holds df13 "quality_score" _ |- _ => destruct H as [_ Hq]
  end.
  apply Forall_forall. intros r' Hr'.
  assert (Hin : at_column "quality_score" r' ∈ map (at_column "quality_score") (rows df13))
    by (apply list_elem_of_fmap; eauto).
  rewrite Hq in Hin. apply list_elem_of_fmap in Hin as (r & -> & Hr).
  eexists. split; [reflexivity|]. cbn beta iota.
  rewrite Forall_forall in Hrows.
  destruct (Hrows r Hr) as (_ & _ & _ & _ & Hzero). rewrite Hzero, Hlog.
  rewrite series_max_zeros by (intros Hnil; rewrite Hnil in Hr; now apply elem_of_nil in Hr).
  apply is_nan_add_l, is_nan_add_r. reflexivity.
Qed.

End WithRuntime.

End PlaceFeatures.

Section PlaceFeaturesCases.
Import Py Pandas FeatureEngineer.

(** A batch with a place rated 0: the feature engineer raises. *)
Lemma create_place_features_unrated_sample :
  "rating" ∈ columns Samples.unrated_batch
  /\ Exists (fun r => (num "rating" r <=? 0)%float = true) (rows Samples.unrated_batch)
  /\ create_place_features (RT := Reference.runtime) Samples.unrated_batch
     = inl (ValueError "Cannot convert float NaN to integer").
Proof.
  assert (Hcol : "rating" ∈ columns Samples.unrated_batch) by in_list.
  assert (Hzero : Exists (fun r => (num "rating" r <=? 0)%float = true)
                    (rows Samples.unrated_batch))
    by (apply Exists_cons_tl, Exists_cons_hd; reflexivity).
  split; [exact Hcol|]. split; [exact Hzero|].
  apply (create_place_features_unrated_raises (RT := Reference.runtime)
           Samples.unrated_batch Hcol); [|exact Hzero].
  repeat constructor; intros s; discriminate.
Defined.

Lemma unreviewed_batch_well_formed :
  Forall (fun r =>
            (forall c s, c ∈ ["rating"; "reviews_count"; "price_level";
                              "latitude"; "longitude"] -> at_column c r <> Str s)
            /\ (exists s, at_column "category" r = Str s)
            /\ (0 <? num "rating" r)%float = true
            /\ (num "rating" r <=? 5)%float = true
            /\ num "reviews_count" r = 0%float)
         (rows Samples.unreviewed_batch).
Proof.
  repeat constructor;
    try (intros c s Hc;
         repeat (apply elem_of_cons in Hc as [->|Hc]; [discriminate|]);
         now apply elem_of_nil in Hc);
    eexists; reflexivity.
Qed.

(** A batch without reviews: every quality score is NaN, where the claimed
    value for the first place, rated 4.0 at price level 2, is a number. *)
Lemma create_place_features_unreviewed_sample :
  np_log1p (Runtime := Reference.runtime) 0 = 0%float
  /\ PrimFloat.is_nan (quality_without_reviews (4.0 / 5.0) 2) = false
  /\ exists df',
       create_place_features (RT := Reference.runtime) Samples.unreviewed_batch = inr df'
       /\ Forall (fun r => exists q, at_column "quality_score" r = Num q
                                     /\ PrimFloat.is_nan q = true)
                 (rows df').
Proof.
  split; [reflexivity|]. split; [reflexivity|].
  destruct (create_place_features_unreviewed_nan (RT := Reference.runtime)
              Samples.unreviewed_batch eq_refl) as (df' & Hdf & _ & Hnan).
  - intros c Hc.
    repeat (apply elem_of_cons in Hc as [->|Hc]; [in_list|]).
    now apply elem_of_nil in Hc.
  - exact unreviewed_batch_well_formed.
  - exists df'. split; [exact Hdf | exact Hnan].
Defined.

End PlaceFeaturesCases.

(** ** Evaluation on the samples *)

Section Evaluation.
Import Py Pandas.

Example lower_title : PyStr.lower "Tourist Attraction" = "tourist attraction".
Proof. reflexivity. Qed.

Example contains_beach : PyStr.contains "beach" "marina beach" = true.
Proof. reflexivity. Qed.

Example replace_interest : PyStr.replace "interest_" "" "interest_food" = "food".
Proof. reflexivity. Qed.

Example interests_of_sample :
  MLRankingModel.interests_of Samples.sample_user = ["culture"; "food"].
Proof. reflexivity. Qed.

(** The ratings 3.0, 3.01, 4.0 and 4.01 fall in the buckets low, medium,
    medium and high. *)
Example rated_batch_buckets :
  (let* df := FeatureEngineer.create_place_features (RT := Reference.runtime)
                Samples.rated_batch in
   ret (map (at_column "rating_quality") (rows df)))
  = inr [Int 0; Int 1; Int 1; Int 2].
Proof. vm_compute. reflexivity. Qed.

(** The untrained model ranks the museum, the restaurant and the beach
    first for a user interested in culture and food. *)
Example fallback_top_three :
  (let* results :=
     (MLRankingModel.rank_places (RT := Reference.runtime) (SK := Reference.sklearn)
        MLRankingModel.init 1%positive Samples.sample_user 3 Samples.sample_store).1 in
   ret (map MLRankingModel.name results))
  = inr [Str "Museum"; Str "Restaurant"; Str "Beach"].
Proof. vm_compute. reflexivity. Qed.

(** A beach in July, for a user interested in nature, next to the centre:
    0.35*0.5 + 0.25*1.0 + 0.20*1.0 + 0.10*1.0 + 0.10*1.0. *)
Example marina_alone :
  map OSMRecommender.rank_score
    (OSMRecommender._rank_places (RT := Reference.runtime) [Samples.marina]
       (Some ["nature"]) 13.08 80.27)
  = [Some 0.825%float].
Proof. vm_compute. reflexivity. Qed.

End Evaluation.

(** ** The sign of float results *)

Module FloatSign.
Import PyFloat FloatOrder.

Lemma shr_1_nonneg (mrs : shr_record) : 0 <= shr_m mrs -> 0 <= shr_m (shr_1 mrs).
Proof.
  destruct mrs as [m r s]. cbn. intros Hm.
  destruct m as [|p|p]; cbn; try lia; destruct p; cbn; lia.
Qed.

Lemma iter_pos_nonneg (p : positive) (mrs : shr_record) :
  0 <= shr_m mrs -> 0 <= shr_m (SpecFloat.iter_pos shr_1 p mrs).
Proof.
  revert mrs. induction p as [p IH|p IH|]; intros mrs Hm; cbn.
  - apply IH, IH, shr_1_nonneg, Hm.
  - apply IH, IH, Hm.
  - apply shr_1_nonneg, Hm.
Qed.

Lemma shr_fexp_nonneg (prec emax m e : Z) (l : location) :
  0 <= m -> 0 <= shr_m (shr_fexp prec emax m e l).1.
Proof.
  intros Hm. unfold shr_fexp, shr.
  assert (H0 : 0 <= shr_m (shr_record_of_loc m l))
    by (destruct l as [|[]]; exact Hm).
  destruct (fexp prec emax (Zdigits2 m + e) - e) as [|p|p]; cbn [fst]; try exact H0.
  now apply iter_pos_nonneg.
Qed.

Lemma round_nearest_even_nonneg (m : Z) (l : location) :
  0 <= m -> 0 <= round_nearest_even m l.
Proof.
  intros Hm. destruct l as [|[]]; cbn; try lia. destruct (Z.even m); lia.
Qed.

(** Rounding a non-negative mantissa gives a number of the sign asked for. *)
Lemma binary_round_aux_sign (prec emax : Z) (s : bool) (m e : Z) (l : location) :
  0 <= m ->
  match binary_round_aux prec emax s m e l with
  | S754_zero s' | S754_infinity s' | S754_finite s' _ _ => s' = s
  | S754_nan => False
  end.
Proof.
  intros Hm. unfold binary_round_aux.
  pose proof (shr_fexp_nonneg prec emax m e l Hm) as H1.
  destruct (shr_fexp prec emax m e l) as [mrs' e'] eqn:E1. cbn [fst] in H1.
  pose proof (shr_fexp_nonneg prec emax
                (round_nearest_even (shr_m mrs') (loc_of_shr_record mrs')) e' loc_Exact
                (round_nearest_even_nonneg _ _ H1)) as H2.
  destruct (shr_fexp prec emax (round_nearest_even _ _) e' loc_Exact) as [mrs'' e''].
  cbn [fst] in H2.
  destruct (shr_m mrs'') as [|p|p]; [reflexivity| |lia].
  now destruct (e'' <=? emax - prec).
Qed.

Lemma binary_round_sign (prec emax : Z) (s : bool) (m : positive) (e : Z) :
  match binary_round prec emax s m e with
  | S754_zero s' | S754_infinity s' | S754_finite s' _ _ => s' = s
  | S754_nan => False
  end.
Proof.
  unfold binary_round. destruct (shl_align _ _ _) as [mz ez].
  now apply binary_round_aux_sign.
Qed.

Lemma binary_normalize_nonneg (prec emax z e : Z) :
  0 <= z -> sf_nonneg (binary_normalize prec emax z e false).
Proof.
  intros Hz. destruct z as [|p|p]; [exact I | | lia]. cbn.
  pose proof (binary_round_sign prec emax false p e) as H.
  destruct (binary_round prec emax false p e) as [s|s| |s m' e']; try contradiction;
    subst s; exact I.
Qed.

Lemma sf_add_nonneg (prec emax : Z) (x y : spec_float) :
  sf_nonneg x -> sf_nonneg y -> sf_nonneg (SFadd prec emax x y).
Proof.
  destruct x as [[]|[]| |[] mx ex], y as [[]|[]| |[] my ey]; cbn; try tauto.
  intros _ _. apply binary_normalize_nonneg.
  unfold cond_Zopp. lia.
Qed.

Lemma sf_mul_nonneg (prec emax : Z) (m : positive) (e : Z) (y : spec_float) :
  sf_nonneg y -> sf_nonneg (SFmul prec emax (S754_finite false m e) y).
Proof.
  destruct y as [[]|[]| |[] my ey]; cbn; try tauto. intros _.
  pose proof (binary_round_aux_sign prec emax false (Z.pos (m * my)) (e + ey) loc_Exact
                ltac:(lia)) as H.
  destruct (binary_round_aux _ _ _ _ _ _) as [s|s| |s m' e']; try contradiction;
    subst s; exact I.
Qed.

Lemma div_eucl_nonneg (a : Z) (b : positive) :
  0 <= a -> 0 <= (Z.div_eucl a (Z.pos b)).1.
Proof.
  intros Ha. change ((Z.div_eucl a (Z.pos b)).1) with (a / Z.pos b).
  apply Z.div_pos; lia.
Qed.

Lemma sf_div_nonneg (prec emax : Z) (m : positive) (e : Z) (y : spec_float) :
  sf_nonneg y -> sf_nonneg (SFdiv prec emax (S754_finite false m e) y).
Proof.
  destruct y as [[]|[]| |[] my ey]; cbn; try tauto. intros _.
  unfold SFdiv_core_binary.
  set (m' := match _ - _ - _ with Z0 => _ | Zpos _ => _ | Zneg _ => _ end).
  assert (Hm' : 0 <= m').
  { subst m'. destruct (_ - _ - _) eqn:E; try lia. apply Z.shiftl_nonneg. lia. }
  pose proof (div_eucl_nonneg m' my Hm') as Hq.
  destruct (Z.div_eucl m' (Z.pos my)) as [q r]. cbn [fst] in Hq.
  pose proof (binary_round_aux_sign prec emax false q
                (Z.min (fexp prec emax (Zdigits2 (Z.pos m) + e - (Zdigits2 (Z.pos my) + ey))) (e - ey))
                (new_location (Z.pos my) r) Hq) as H.
  destruct (binary_round_aux _ _ _ _ _ _) as [s|s| |s m'' e'']; try contradiction;
    subst s; exact I.
Qed.

Lemma nonneg_not_nan (x : float) : nonneg x -> not_nan x.
Proof.
  intros Hx. apply not_nan_spec. unfold nonneg in Hx. intros E. now rewrite E in Hx.
Qed.

Lemma nonneg_add (x y : float) : nonneg x -> nonneg y -> nonneg (x + y).
Proof. unfold nonneg. rewrite FloatAxioms.add_spec. apply sf_add_nonneg. Qed.

Lemma nonneg_mul_l (c y : float) : positive_finite c -> nonneg y -> nonneg (c * y).
Proof.
  unfold positive_finite, nonneg. rewrite FloatAxioms.mul_spec.
  destruct (Prim2SF c) as [s|s| |[] m e]; try contradiction.
  intros _. apply sf_mul_nonneg.
Qed.

Lemma nonneg_mul_r (c y : float) : positive_finite c -> nonneg y -> nonneg (y * c).
Proof. rewrite float_mul_comm. apply nonneg_mul_l. Qed.

Lemma nonneg_div (c y : float) : positive_finite c -> nonneg y -> nonneg (c / y).
Proof.
  unfold positive_finite, nonneg. rewrite FloatAxioms.div_spec.
  destruct (Prim2SF c) as [s|s| |[] m e]; try contradiction.
  intros _. apply sf_div_nonneg.
Qed.

Lemma positive_finite_nonneg (c : float) : positive_finite c -> nonneg c.
Proof.
  unfold positive_finite, nonneg. now destruct (Prim2SF c) as [s|s| |[] m e].
Qed.

Lemma sf_ldexp_nonneg (x : spec_float) (e : Z) :
  sf_nonneg x -> sf_nonneg (SFldexp prec emax x e).
Proof.
  destruct x as [[]|[]| |[] m ex]; cbn; try tauto. intros _.
  pose proof (binary_round_sign prec emax false m (ex + e)) as H.
  destruct (binary_round prec emax false m (ex + e)) as [s|s| |s m' e'];
    try contradiction; subst s; exact I.
Qed.

(** The float of a non-negative integer is not negative. *)
Lemma nonneg_of_Z (z : Z) : 0 <= z -> nonneg (of_Z z).
Proof.
  intros Hz. unfold of_Z, nonneg.
  pose proof (binary_normalize_nonneg prec emax z 0 Hz) as H.
  destruct (binary_normalize prec emax z 0 false) as [[]|[]| |[] m e];
    try contradiction; try exact I.
  cbn [SF2Prim]. rewrite Z_ldexp_spec. apply sf_ldexp_nonneg.
  rewrite of_uint63_spec. apply binary_normalize_nonneg.
  apply Uint63.to_Z_bounded.
Qed.

Lemma nonneg_of_nat (n : nat) : nonneg (of_nat n).
Proof. apply nonneg_of_Z. lia. Qed.

Lemma nonneg_leb (x : float) : nonneg x -> (0 <=? x)%float = true.
Proof.
  unfold nonneg. rewrite FloatAxioms.leb_spec.
  change (Prim2SF 0) with (S754_zero false).
  now destruct (Prim2SF x) as [[]|[]| |[] m e].
Qed.

Lemma nonneg_min (x c : float) : nonneg x -> nonneg c -> nonneg (PyFloat.min x c).
Proof. intros Hx Hc. unfold PyFloat.min. now destruct (c <? x)%float. Qed.

Lemma min_leb (x c : float) : not_nan x -> not_nan c -> (PyFloat.min x c <=? c)%float = true.
Proof.
  intros Hx Hc. unfold PyFloat.min. destruct (c <? x)%float eqn:E.
  - float_order.
  - now apply ltb_false_leb.
Qed.

End FloatSign.

(** ** The range of the sub-scores *)

Section SubScores.
Import PyFloat PyList OSMRecommender FloatOrder FloatSign.
Context `{RT : Runtime}.

Lemma popularity_range (place : Place) :
  (0.5 <=? _calculate_popularity place)%float = true
  /\ (_calculate_popularity place <? 1)%float = true.
Proof.
  unfold _calculate_popularity.
  destruct (tag_set (tags place) "wikipedia"), (tag_set (tags place) "website"),
    (tag_set (tags place) "description"),
    (bool_decide (tags place !! "tourism" = Some "attraction"));
    vm_compute; split; reflexivity.
Qed.

Lemma interest_step_nonneg (n : nat) (place_category : string) (score : float)
    (interest : string) :
  nonneg score -> nonneg (interest_step n place_category score interest).
Proof.
  intros Hs. unfold interest_step.
  assert (H1 : nonneg (score + 1.0 / of_nat n)).
  { apply nonneg_add; [exact Hs|]. apply nonneg_div; [exact I | apply nonneg_of_nat]. }
  assert (Hstep : nonneg match CATEGORY_KEYWORDS !! PyStr.lower interest with
                         | Some relevant_categories =>
                             if keyword_hit relevant_categories place_category
                             then (score + 1.0 / of_nat n)%float else score
                         | None => score
                         end).
  { destruct (CATEGORY_KEYWORDS !! PyStr.lower interest) as [l|]; [|exact Hs].
    now destruct (keyword_hit l place_category). }
  destruct (_ || _); [|exact Hstep].
  apply nonneg_add; [exact Hstep|].
  apply nonneg_div; [exact I | apply nonneg_of_nat].
Qed.

Lemma interest_fold_nonneg (n : nat) (place_category : string)
    (interests : list string) (score : float) :
  nonneg score ->
  nonneg (fold_left (interest_step n place_category) interests score).
Proof.
  revert score. induction interests as [|x l IH]; intros score Hs; cbn [fold_left];
    [exact Hs|].
  apply IH, interest_step_nonneg, Hs.
Qed.

Lemma interest_match_range (place : Place) (interests : option (list string)) :
  nonneg (_calculate_interest_match place interests)
  /\ (_calculate_interest_match place interests <=? 1)%float = true.
Proof.
  unfold _calculate_interest_match.
  destruct interests as [[|i l]|]; try (split; [exact I | reflexivity]).
  pose proof (interest_fold_nonneg (length (i :: l)) (PyStr.lower (category place))
                (i :: l) 0.0%float I) as Hs.
  split.
  - apply nonneg_min; [exact Hs | exact I].
  - apply min_leb; [now apply nonneg_not_nan | reflexivity].
Qed.

Lemma season_fit_values (place : Place) :
  _calculate_season_fit place ∈ [1.0; 0.7; 0.4; 0.8]%float.
Proof.
  unfold _calculate_season_fit.
  repeat match goal with |- context [if ?b then _ else _] => destruct b end; in_list.
Qed.

Lemma distance_score_values (a b c d : float) :
  _calculate_distance_score a b c d ∈ [1.0; 0.8; 0.6; 0.4]%float.
Proof.
  unfold _calculate_distance_score. cbn zeta.
  repeat match goal with |- context [if ?b then _ else _] => destruct b end; in_list.
Qed.

Lemma diversity_nonneg (count : nat) :
  nonneg (1.0 / (1.0 + of_nat count * 0.1)).
Proof.
  apply nonneg_div; [exact I|].
  apply nonneg_add; [exact I|].
  apply nonneg_mul_r; [exact I | apply nonneg_of_nat].
Qed.

Lemma final_score_nonneg (s : ScoreBreakdown) :
  nonneg (popularity s) -> nonneg (interest_match s) -> nonneg (season_fit s) ->
  nonneg (distance s) -> nonneg (diversity s) -> nonneg (final_score s).
Proof.
  intros Hp Hi Hs Hd Hv. unfold final_score.
  repeat apply nonneg_add; apply nonneg_mul_l; try exact I; assumption.
Qed.

Lemma leb_nonneg (c x : float) :
  positive_finite c -> (c <=? x)%float = true -> nonneg x.
Proof.
  unfold positive_finite, nonneg. rewrite FloatAxioms.leb_spec.
  unfold SFleb.
  destruct (Prim2SF c) as [[]|[]| |[] mc ec]; try contradiction; intros _;
  destruct (Prim2SF x) as [[]|[]| |[] m e]; cbn; try discriminate; auto.
Qed.

(** X1. The five sub-scores that [_rank_places] computes for a place are
    numbers, whatever the place, the interests, the centre and the runtime:
    the popularity lies in [0.5, 1) (the sum of all four bonuses is
    0.9999999999999999, so the cap at 1.0 never applies), the interest match
    in [0, 1], the season fit is 1.0, 0.7, 0.4 or 0.8, the distance score
    1.0, 0.8, 0.6 or 0.4, the diversity score is at least 0, and so is their
    weighted sum. *)
Theorem sub_scores_in_range (interests : option (list string))
    (center_lat center_lon : float) (count : nat) (place : Place) :
  let s := sub_scores interests center_lat center_lon count place in
  ((0.5 <=? popularity s)%float = true /\ (popularity s <? 1)%float = true)
  /\ ((0 <=? interest_match s)%float = true /\ (interest_match s <=? 1)%float = true)
  /\ season_fit s ∈ [1.0; 0.7; 0.4; 0.8]%float
  /\ distance s ∈ [1.0; 0.8; 0.6; 0.4]%float
  /\ (0 <=? diversity s)%float = true
  /\ (0 <=? final_score s)%float = true.
Proof.
  intros s.
  pose proof (popularity_range place) as [Hp1 Hp2].
  pose proof (interest_match_range place interests) as [Hi Hi1].
  pose proof (season_fit_values place) as Hs.
  pose proof (distance_score_values (lat place) (lon place) center_lat center_lon) as Hd.
  pose proof (diversity_nonneg count) as Hv.
  split; [split; assumption|].
  split; [split; [now apply nonneg_leb | exact Hi1]|].
  split; [exact Hs|]. split; [exact Hd|].
  split; [now apply nonneg_leb|].
  apply nonneg_leb, final_score_nonneg; cbn [s sub_scores popularity interest_match
    season_fit distance diversity]; try assumption.
  - exact (leb_nonneg 0.5 _ I Hp1).
  - repeat (apply elem_of_cons in Hs as [->|Hs]; [exact I|]). now apply elem_of_nil in Hs.
  - repeat (apply elem_of_cons in Hd as [->|Hd]; [exact I|]). now apply elem_of_nil in Hd.
Qed.

End SubScores.

(** ** The order of the ranked places *)

Section Descending.
Import PyFloat PyList OSMRecommender FloatOrder FloatSign.
Context `{RT : Runtime}.

Lemma final_score_sub_scores_nonneg (interests : option (list string))
    (clat clon : float) (count : nat) (place : Place) :
  nonneg (final_score (sub_scores interests clat clon count place)).
Proof.
  pose proof (popularity_range place) as [Hp1 _].
  pose proof (interest_match_range place interests) as [Hi _].
  pose proof (season_fit_values place) as Hs.
  pose proof (distance_score_values (lat place) (lon place) clat clon) as Hd.
  apply final_score_nonneg; cbn [sub_scores popularity interest_match
    season_fit distance diversity].
  - exact (leb_nonneg 0.5 _ I Hp1).
  - exact Hi.
  - repeat (apply elem_of_cons in Hs as [->|Hs]; [exact I|]). now apply elem_of_nil in Hs.
  - repeat (apply elem_of_cons in Hd as [->|Hd]; [exact I|]). now apply elem_of_nil in Hd.
  - apply diversity_nonneg.
Qed.

Lemma score_loop_numbers (interests : option (list string)) (clat clon : float)
    (counts : gmap string nat) (places : list Place) :
  (forall x, not_nan x -> not_nan (py_round x 4)) ->
  Forall (fun q => not_nan (rank_key q))
         (score_loop interests clat clon counts places).*1.
Proof.
  intros Hround. revert counts.
  induction places as [|p places IH]; intros counts; cbn [score_loop fmap list_fmap];
    [constructor|].
  constructor; [|apply IH].
  cbn. apply Hround, nonneg_not_nan, final_score_sub_scores_nonneg.
Qed.

(** X2. With a [round] that maps numbers to numbers, every [rank_score] that
    [_rank_places] writes is a number, and the returned list is in descending
    order of [rank_score], for every list of places. *)
Theorem rank_places_descending (places : list Place)
    (interests : option (list string)) (center_lat center_lon : float) :
  (forall x, not_nan x -> not_nan (py_round x 4)) ->
  let out := _rank_places places interests center_lat center_lon in
  Forall (fun q => not_nan (rank_key q)) out
  /\ forall i j a b, (i < j)%nat -> out !! i = Some a -> out !! j = Some b ->
       (rank_key b <=? rank_key a)%float = true.
Proof.
  intros Hround out. subst out. unfold _rank_places, score_places.
  pose proof (score_loop_numbers interests center_lat center_lon ∅ places Hround)
    as Hnum.
  set (scored := (score_loop interests center_lat center_lon ∅ places).*1) in *.
  assert (Hsorted : Forall (fun q => not_nan (rank_key q)) (sorted_reverse rank_key scored))
    by now rewrite sorted_reverse_perm.
  split.
  - apply Forall_forall. intros q Hq.
    apply list_elem_of_lookup in Hq as [i Hq]. rewrite enumerate_rank_lookup in Hq.
    destruct (sorted_reverse rank_key scored !! i) as [q'|] eqn:E; [|discriminate].
    injection Hq as <-. change (rank_key (set_rank _ q')) with (rank_key q').
    rewrite Forall_forall in Hsorted. apply Hsorted.
    exact (list_elem_of_lookup_2 _ _ _ E).
  - intros i j a b Hij Ha Hb.
    rewrite enumerate_rank_lookup in Ha, Hb.
    destruct (sorted_reverse rank_key scored !! i) as [a'|] eqn:Ea; [|discriminate].
    destruct (sorted_reverse rank_key scored !! j) as [b'|] eqn:Eb; [|discriminate].
    injection Ha as <-. injection Hb as <-.
    change (rank_key (set_rank _ a')) with (rank_key a').
    change (rank_key (set_rank _ b')) with (rank_key b').
    rewrite Forall_forall in Hsorted.
    apply ltb_false_leb.
    + apply Hsorted. exact (list_elem_of_lookup_2 _ _ _ Ea).
    + apply Hsorted. exact (list_elem_of_lookup_2 _ _ _ Eb).
    + exact (StronglySorted_lookup _ _ _ _ _ _
               (sorted_reverse_sorted rank_key _ Hnum) Hij Ea Eb).
Qed.

End Descending.

Section ReferenceRound.
Import PyFloat FloatOrder FloatSign.

Lemma sf_div_nonneg_r (prec emax : Z) (x : spec_float) (m : positive) (e : Z) :
  sf_nonneg x -> sf_nonneg (SFdiv prec emax x (S754_finite false m e)).
Proof.
  destruct x as [[]|[]| |[] mx ex]; cbn; try tauto. intros _.
  apply (sf_div_nonneg prec emax mx ex (S754_finite false m e) I).
Qed.

Lemma nonneg_div_r (x c : float) : nonneg x -> positive_finite c -> nonneg (x / c).
Proof.
  unfold positive_finite, nonneg. rewrite FloatAxioms.div_spec. intros Hx.
  destruct (Prim2SF c) as [s|s| |[] m e]; try contradiction.
  intros _. now apply sf_div_nonneg_r.
Qed.

Lemma not_nan_opp (x : float) : not_nan x -> not_nan (- x).
Proof.
  rewrite !not_nan_spec, FloatAxioms.opp_spec. now destruct (Prim2SF x).
Qed.

Lemma round_half_even_nonneg (num den : Z) :
  0 <= num -> 0 < den -> 0 <= Reference.round_half_even num den.
Proof.
  intros Hn Hd. unfold Reference.round_half_even.
  pose proof (Z.div_pos num den Hn Hd).
  repeat match goal with |- context [if ?b then _ else _] => destruct b end; lia.
Qed.

Lemma scaled_round_nonneg (m : positive) (e p : Z) :
  0 <= p -> 0 <= Reference.scaled_round m e p.
Proof.
  intros Hp. unfold Reference.scaled_round. destruct (0 <=? e) eqn:E.
  - apply Z.leb_le in E. pose proof (Z.pow_nonneg 2 e). nia.
  - apply Z.leb_gt in E. apply round_half_even_nonneg; [nia|].
    apply Z.pow_pos_nonneg; lia.
Qed.

(** Rounding a number to four decimals gives a number. *)
Lemma round_decimal_number (x : float) :
  not_nan x -> not_nan (Reference.round_decimal x 4).
Proof.
  intros Hx. unfold Reference.round_decimal.
  destruct (Prim2SF x) as [s|s| |s m e]; try exact Hx.
  assert (Hr : nonneg (of_Z (Reference.scaled_round m e (10 ^ 4)) / of_Z (10 ^ 4))).
  { apply nonneg_div_r; [|exact I].
    apply nonneg_of_Z, scaled_round_nonneg. lia. }
  destruct s; [apply not_nan_opp|]; now apply nonneg_not_nan.
Qed.

End ReferenceRound.

(** The reference [round] maps numbers to numbers; the first two places of
    the sample ranking are in order. *)
Lemma rank_places_descending_chennai :
  match OSMRecommender._rank_places (RT := Reference.runtime) Samples.chennai
          (Some ["nature"]) 13.08 80.27 with
  | a :: b :: _ =>
      (OSMRecommender.rank_key b <=? OSMRecommender.rank_key a)%float = true
  | _ => False
  end.
Proof.
  destruct (rank_places_descending (RT := Reference.runtime) Samples.chennai
              (Some ["nature"]) 13.08 80.27 round_decimal_number) as [_ H].
  specialize (H 0%nat 1%nat).
  destruct (OSMRecommender._rank_places Samples.chennai (Some ["nature"]) 13.08 80.27)
    as [|a [|b l]] eqn:E.
  - vm_compute in E. discriminate E.
  - vm_compute in E. discriminate E.
  - apply H; [lia | reflexivity | reflexivity].
Defined.

(** ** The order and the origin of the ranked list *)

Section RankedOrder.
Import Py Pandas Joblib MLRankingModel PyFloat PyList FloatOrder.
Context `{RT : Runtime} `{SK : Sklearn}.

Lemma mapM_Forall2 {A B} (f : A -> result B) (l : list A) (l' : list B) :
  mapM f l = inr l' -> Forall2 (fun x y => f x = inr y) l l'.
Proof.
  revert l'. induction l as [|x l IH]; intros l' Hl; cbn in Hl.
  - injection Hl as <-. constructor.
  - destruct (f x) as [e|y] eqn:Hx; [discriminate|].
    destruct (mapM f l) as [e|ys]; [discriminate|].
    injection Hl as <-. constructor; [exact Hx | now apply IH].
Qed.

Lemma StronglySorted_app_intro {A} (R : A -> A -> Prop) (l1 l2 : list A) :
  StronglySorted R l1 -> StronglySorted R l2 ->
  (forall x y, x ∈ l1 -> y ∈ l2 -> R x y) ->
  StronglySorted R (l1 ++ l2).
Proof.
  intros H1 H2 H12. induction H1 as [|x l1 H1 IH Hx]; [exact H2|].
  cbn. constructor.
  - apply IH. intros a b Ha Hb. apply H12; [now apply list_elem_of_further | exact Hb].
  - apply Forall_app. split; [exact Hx|].
    apply Forall_forall. intros y Hy. apply H12; [apply list_elem_of_here | exact Hy].
Qed.

Lemma Forall_filter_keep {A} (P : A -> Prop) (Q : A -> Prop) `{forall x, Decision (Q x)}
    (l : list A) :
  Forall P l -> Forall P (filter Q l).
Proof.
  rewrite !Forall_forall. intros Hl x Hx. apply list_elem_of_filter in Hx as [_ Hx]. auto.
Qed.

Lemma ltb_nan_r (x y : float) : PrimFloat.is_nan y = true -> (x <? y)%float = false.
Proof.
  intros Hy. destruct (x <? y)%float eqn:E; [|reflexivity].
  destruct (ltb_true_not_nan _ _ E) as [_ Hn]. unfold not_nan in Hn. congruence.
Qed.

(** Sorting puts the keys into descending order, NaN last. *)
Lemma sort_values_desc_sorted (df sorted : DataFrame) (c : string) :
  sort_values_desc df c = inr sorted ->
  exists keyed : list (float * (Z * gmap string cell)),
    rows sorted = keyed.*2
    /\ Forall (fun kr => to_float (at_column c kr.2) = inr kr.1) keyed
    /\ StronglySorted (fun a b => descending a.1 b.1) keyed.
Proof.
  unfold sort_values_desc. destruct (numeric df c) as [e|keys] eqn:Hk; [discriminate|].
  cbn [bind ret]. intros Hs. injection Hs as <-. cbn [rows].
  eexists. split; [reflexivity|].
  assert (Hall : Forall (fun kr : float * (Z * gmap string cell) =>
                           to_float (at_column c kr.2) = inr kr.1)
                        (zip keys (rows df))).
  { unfold numeric, getitem in Hk. destruct (has_column c df); [|discriminate].
    cbn [bind ret] in Hk. rewrite mapM_compose in Hk.
    apply mapM_Forall2 in Hk. clear -Hk.
    induction Hk as [|r k l l' Hr _ IH]; cbn; constructor; assumption. }
  split.
  - apply Forall_app. split.
    + rewrite sorted_reverse_perm. now apply Forall_filter_keep.
    + now apply Forall_filter_keep.
  - apply StronglySorted_app_intro.
    + assert (Hnum : Forall (fun a : float * (Z * gmap string cell) => not_nan a.1)
                       (filter (fun kr : float * (Z * gmap string cell) =>
                                  PrimFloat.is_nan kr.1 = false) (zip keys (rows df)))).
      { apply Forall_forall. intros a Ha. now apply list_elem_of_filter in Ha as [Ha _]. }
      pose proof (sorted_reverse_sorted fst _ Hnum) as Hsorted.
      assert (Hnum' : Forall (fun a : float * (Z * gmap string cell) => not_nan a.1)
                        (sorted_reverse fst
                           (filter (fun kr : float * (Z * gmap string cell) =>
                                      PrimFloat.is_nan kr.1 = false) (zip keys (rows df)))))
        by now rewrite sorted_reverse_perm.
      revert Hsorted Hnum'. generalize (sorted_reverse fst
        (filter (fun kr : float * (Z * gmap string cell) =>
                   PrimFloat.is_nan kr.1 = false) (zip keys (rows df)))).
      intros l Hsorted Hnum'. induction Hsorted as [|a l Hs IH Ha]; constructor.
      * apply IH. now apply Forall_cons in Hnum' as [_ ?].
      * apply Forall_cons in Hnum' as [Hna _].
        eapply Forall_impl; [exact Ha|]. intros b Hb. split; [exact Hb|].
        unfold not_nan in Hna. congruence.
    + generalize (zip keys (rows df)). intros l.
      induction l as [|a l IH]; [constructor|].
      rewrite filter_cons. destruct (decide _) as [Hn|Hn]; [|exact IH].
      constructor; [exact IH|].
      apply Forall_forall. intros b Hb. apply list_elem_of_filter in Hb as [Hb _].
      assert (Hbn : PrimFloat.is_nan b.1 = true)
        by (destruct (PrimFloat.is_nan b.1); [reflexivity | contradiction]).
      split; [now apply ltb_nan_r | auto].
    + intros a b Ha Hb. rewrite sorted_reverse_perm in Ha.
      apply list_elem_of_filter in Ha as [Ha _], Hb as [Hb _].
      assert (Hbn : PrimFloat.is_nan b.1 = true)
        by (destruct (PrimFloat.is_nan b.1); [reflexivity | contradiction]).
      split; [now apply ltb_nan_r | congruence].
Qed.

Lemma head_take (df : DataFrame) (n : Z) :
  exists k, rows (head df n) = take k (rows df).
Proof. unfold head. cbn [rows]. destruct (0 <=? n); eauto. Qed.

(** The list of results follows the order of the sorted frame. *)
Lemma top_results_sorted (c : string) (df : DataFrame) (top_k : Z)
    (results : list RankedPlace) :
  top_results c df top_k = inr results ->
  forall i j a b, (i < j)%nat -> results !! i = Some a -> results !! j = Some b ->
    descending (score a) (score b).
Proof.
  unfold top_results.
  destruct (sort_values_desc df c) as [e|sorted] eqn:Hs; [discriminate|].
  cbn [bind]. intros Hm.
  destruct (sort_values_desc_sorted _ _ _ Hs) as (keyed & Hrows & Hkeys & Hsorted).
  destruct (head_take sorted top_k) as [k Hhead].
  unfold materialize in Hm. rewrite Hhead, Hrows in Hm.
  apply mapM_Forall2 in Hm.
  intros i j a b Hij Ha Hb.
  destruct (Forall2_lookup_r _ _ _ _ _ Hm Ha) as (ra & Hra & Hfa).
  destruct (Forall2_lookup_r _ _ _ _ _ Hm Hb) as (rb & Hrb & Hfb).
  rewrite <- fmap_take, list_lookup_fmap in Hra, Hrb.
  destruct (take k keyed !! i) as [ka|] eqn:Eka; [|discriminate].
  destruct (take k keyed !! j) as [kb|] eqn:Ekb; [|discriminate].
  injection Hra as <-. injection Hrb as <-.
  rewrite Forall_forall in Hkeys.
  apply lookup_take_Some in Eka as [Eka _], Ekb as [Ekb _].
  rewrite (Hkeys ka (list_elem_of_lookup_2 _ _ _ Eka)) in Hfa.
  rewrite (Hkeys kb (list_elem_of_lookup_2 _ _ _ Ekb)) in Hfb.
  cbn [bind ret] in Hfa, Hfb. injection Hfa as <-. injection Hfb as <-. cbn [score].
  exact (StronglySorted_lookup _ _ _ _ _ _ Hsorted Hij Eka Ekb).
Qed.

Lemma fallback_ranking_results (places_df : loc) (user_features : list (string * cell))
    (top_k : Z) (h : store) (results : list RankedPlace) :
  (_fallback_ranking places_df user_features top_k h).1 = inr results ->
  exists df', top_results "score" df' top_k = inr results.
Proof.
  unfold _fallback_ranking, mbind, copy, modify, read, lift.
  destruct (h !! places_df) as [df|]; [|discriminate].
  cbn beta iota zeta. rewrite lookup_insert_eq.
  destruct (fallback_score user_features df) as [e|df']; [discriminate|].
  rewrite lookup_insert_eq. cbn [fst]. eauto.
Qed.

(** X3. Whenever [rank_places] returns, trained or not, its list is in
    descending order of score: no entry has a smaller score than a later
    one, and entries whose score is NaN come last. *)
Theorem rank_places_descending_scores (self : t) (places_df : loc)
    (user_features : list (string * cell)) (top_k : Z) (h : store)
    (results : list RankedPlace) :
  (rank_places self places_df user_features top_k h).1 = inr results ->
  forall i j a b, (i < j)%nat -> results !! i = Some a -> results !! j = Some b ->
    (score a <? score b)%float = false
    /\ (PrimFloat.is_nan (score a) = true -> PrimFloat.is_nan (score b) = true).
Proof.
  intros Hrun.
  assert (Htop : exists c df', top_results c df' top_k = inr results).
  { unfold rank_places in Hrun. destruct (negb (is_trained self)).
    - destruct (fallback_ranking_results _ _ _ _ _ Hrun) as [df' H]. eauto.
    - unfold mbind at 1 in Hrun.
      destruct (modify places_df _ h) as [[e|[]] h1]; [discriminate|].
      unfold mbind at 1 in Hrun.
      destruct (attempt _ h1) as [[e|outcome] h2]; [discriminate|].
      destruct outcome as [e|[]].
      + destruct (fallback_ranking_results _ _ _ _ _ Hrun) as [df' H]. eauto.
      + unfold mbind, read, lift in Hrun.
        destruct (h2 !! places_df) as [df'|]; [|discriminate]. cbn [fst] in Hrun. eauto. }
  destruct Htop as (c & df' & Htop).
  exact (top_results_sorted c df' top_k results Htop).
Qed.

End RankedOrder.

Section PredictionFailure.
Import Py Pandas Joblib MLRankingModel PyFloat PyList FloatOrder.
Context `{RT : Runtime} `{SK : Sklearn}.

(** The fallback on a well-formed frame of the store: an entry per row kept,
    built from the row and scored by the fallback formula. *)
Lemma fallback_ranking_ok (places_df : loc) (df : DataFrame)
    (user_features : list (string * cell)) (top_k : Z) (h : store) :
  h !! places_df = Some df ->
  readable_places df ->
  readable_user user_features ->
  0 <= top_k ->
  exists results,
    (_fallback_ranking places_df user_features top_k h).1 = inr results
    /\ Z.of_nat (length results) = Z.min top_k (Z.of_nat (nrows df))
    /\ Forall (fun res =>
                 exists r, r ∈ rows df
                   /\ score res = fallback_formula user_features r
                   /\ place_id res = row_get df r "place_id" (Int r.1)
                   /\ name res = row_get df r "name" (Str "Unknown")
                   /\ rating res = at_column "rating" r
                   /\ category res = at_column "category" r
                   /\ price_level res = at_column "price_level" r)
              results.
Proof.
  intros Hh Hwf Hu Hk.
  destruct (fallback_score_ok user_features df Hwf Hu) as (df' & Hscore & U & S & V).
  rewrite (fallback_ranking_run _ _ _ _ _ Hh), Hscore. cbn [fst].
  unfold top_results.
  destruct (sort_values_desc_ok df' "score"
              (map (fallback_formula user_features) (rows df)))
    as (sorted & -> & Hcs & Hperm).
  { apply numeric_of_floats; [exact S | now rewrite V, map_map]. }
  cbn [bind].
  destruct (head_rows sorted top_k Hk) as [Hhc Hhr].
  assert (Hin : forall r', r' ∈ rows (head sorted top_k) -> r' ∈ rows df').
  { intros r' Hr'. rewrite Hhr in Hr'. rewrite <- Hperm.
    eapply subseteq_take; exact Hr'. }
  rewrite materialize_ok.
  2:{ apply Forall_forall. intros r' Hr'.
      destruct (updates_rows _ _ _ _ _ r' U V (Hin r' Hr')) as (r & _ & _ & _ & Hs).
      eauto. }
  eexists. split; [reflexivity|]. split.
  - pose proof (updates_nrows _ _ _ U) as Hn. unfold nrows in *.
    rewrite length_map, Hhr, length_take, Hperm, Hn. lia.
  - apply Forall_forall. intros res Hres.
    apply list_elem_of_fmap in Hres as (r' & -> & Hr'). cbn.
    destruct (updates_rows _ _ _ _ _ r' U V (Hin r' Hr')) as (r & Hr & Hl & Hkeep & Hs).
    assert (Hget : forall c d, c ∉ ["score"; "budget_penalty"] ->
              row_get (head sorted top_k) r' c d = row_get df r c d).
    { intros c d Hc. unfold row_get, has_column. rewrite Hhc, Hcs.
      exact (row_get_updates _ _ _ _ _ c d U Hc Hkeep). }
    assert (Hcol : forall c d, c ∈ ["rating"; "category"; "price_level"] ->
              row_get df r c d = at_column c r).
    { intros c d Hc. unfold row_get.
      rewrite (proj2 (has_column_true c df)); [reflexivity|].
      apply (proj1 Hwf).
      repeat (apply elem_of_cons in Hc as [->|Hc]; [in_list|]).
      now apply elem_of_nil in Hc. }
    exists r. split; [exact Hr|]. split; [unfold num; now rewrite Hs|].
    rewrite Hl. rewrite !Hget by not_in_list.
    rewrite (Hcol "rating"), (Hcol "category"), (Hcol "price_level") by in_list.
    repeat split.
Qed.

(** The rows of an updated frame and the rows they come from. *)
Lemma updates_row_of (ch : list string) (df df' : DataFrame) (r' : Z * gmap string cell) :
  updates ch df df' -> r' ∈ rows df' ->
  exists r, r ∈ rows df /\ r'.1 = r.1
    /\ forall c, c ∉ ch -> at_column c r' = at_column c r.
Proof.
  intros (_ & _ & Hrows) Hr'.
  induction Hrows as [|r0 r0' l l' [Hl Hk] _ IH].
  - now apply elem_of_nil in Hr'.
  - apply elem_of_cons in Hr' as [->|Hr'].
    + exists r0. split; [apply list_elem_of_here | auto].
    + destruct (IH Hr') as (r & Hr & Hrest).
      exists r. split; [now apply list_elem_of_further | exact Hrest].
Qed.

Lemma fallback_formula_ext (user_features : list (string * cell))
    (r r' : Z * gmap string cell) :
  (forall c, c ∈ ["rating"; "reviews_count"; "price_level"; "category"] ->
             at_column c r' = at_column c r) ->
  fallback_formula user_features r' = fallback_formula user_features r.
Proof.
  intros H. unfold fallback_formula, keyword_matches, category_of, num.
  rewrite (H "rating"), (H "reviews_count"), (H "price_level"), (H "category") by in_list.
  reflexivity.
Qed.

(** A trained model whose prediction raises, on a frame the fallback can
    read: the entries and their scores as the code computes them. *)
Lemma rank_places_prediction_failure_readable (self : t) (places_df : loc) (df : DataFrame)
    (user_features : list (string * cell)) (top_k : Z) (h : store) (e : exn) :
  is_trained self = true ->
  h !! places_df = Some df ->
  readable_places df ->
  readable_user user_features ->
  (forall key, key ∈ keys user_features ->
     key ∉ ["rating"; "reviews_count"; "price_level"; "category"; "place_id"; "name"]) ->
  predict self (broadcast user_features df) = inl e ->
  0 <= top_k ->
  exists results,
    (rank_places self places_df user_features top_k h).1 = inr results
    /\ Z.of_nat (length results) = Z.min top_k (Z.of_nat (nrows df))
    /\ Forall (fun res =>
                 exists r, r ∈ rows df
                   /\ score res = fallback_formula user_features r
                   /\ place_id res = row_get df r "place_id" (Int r.1)
                   /\ name res = row_get df r "name" (Str "Unknown")
                   /\ rating res = at_column "rating" r
                   /\ category res = at_column "category" r
                   /\ price_level res = at_column "price_level" r)
              results.
Proof.
  intros Htrained Hh Hwf Hu Hkeys Hfail Hk.
  rewrite (rank_places_trained_run _ _ _ _ _ _ Htrained Hh). cbn zeta.
  rewrite Hfail. cbn [bind].
  destruct (broadcast_updates user_features df) as [U _].
  set (B := broadcast user_features df) in *.
  assert (Hfree : forall c, c ∈ ["rating"; "reviews_count"; "price_level"; "category";
                                  "place_id"; "name"] -> c ∉ keys user_features).
  { intros c Hc Hin. exact (Hkeys c Hin Hc). }
  assert (HwfB : readable_places B).
  { destruct Hwf as [Hcols Hrows]. split.
    - intros c Hc. apply (proj1 U), Hcols, Hc.
    - apply Forall_forall. intros r' Hr'.
      destruct (updates_row_of _ _ _ r' U Hr') as (r & Hr & _ & Hkeep).
      rewrite Forall_forall in Hrows. destruct (Hrows r Hr) as [Hn [s Hs]]. split.
      + intros c s' Hc. rewrite Hkeep; [now apply Hn|].
        apply Hfree. repeat (apply elem_of_cons in Hc as [->|Hc]; [in_list|]).
        now apply elem_of_nil in Hc.
      + exists s. rewrite Hkeep; [exact Hs | apply Hfree; in_list]. }
  destruct (fallback_ranking_ok places_df B user_features top_k
              (<[places_df := B]> h) (lookup_insert_eq _ _ _) HwfB Hu Hk)
    as (results & Hrun & Hlen & Hres).
  exists results. split; [exact Hrun|]. split.
  - rewrite Hlen. now rewrite (updates_nrows _ _ _ U).
  - eapply Forall_impl; [exact Hres|]. cbn beta.
    intros res (r' & Hr' & Hs & Hid & Hname & Hrating & Hcat & Hprice).
    destruct (updates_row_of _ _ _ r' U Hr') as (r & Hr & Hl & Hkeep).
    exists r. split; [exact Hr|].
    rewrite Hs, Hid, Hname, Hrating, Hcat, Hprice, Hl.
    rewrite (fallback_formula_ext user_features r r').
    2:{ intros c Hc. apply Hkeep, Hfree.
        repeat (apply elem_of_cons in Hc as [->|Hc]; [in_list|]).
        now apply elem_of_nil in Hc. }
    rewrite !(row_get_updates _ _ _ r r' _ _ U) by (try apply Hfree; try exact Hkeep; in_list).
    rewrite !Hkeep by (apply Hfree; in_list).
    repeat split.
Qed.

(** X4. A trained model whose prediction raises answers as an untrained
    one: on a well-formed frame, with well-formed user features that do not
    name a column the results read, [rank_places] returns [min(top_k, number
    of places)] entries, each built from a row of the caller's frame and
    scored by the fallback score of the specification. *)
Theorem rank_places_prediction_failure (self : t) (places_df : loc) (df : DataFrame)
    (user_features : list (string * cell)) (top_k : Z) (h : store) (e : exn) :
  is_trained self = true ->
  h !! places_df = Some df ->
  well_formed_places df ->
  well_formed_user user_features ->
  (forall key, key ∈ keys user_features ->
     key ∉ ["rating"; "reviews_count"; "price_level"; "category"; "place_id"; "name"]) ->
  predict self (broadcast user_features df) = inl e ->
  0 <= top_k ->
  exists results,
    (rank_places self places_df user_features top_k h).1 = inr results
    /\ Z.of_nat (length results) = Z.min top_k (Z.of_nat (nrows df))
    /\ Forall (fun res =>
                 exists r, r ∈ rows df
                   /\ score res = FallbackSpec.score user_features r
                   /\ place_id res = row_get df r "place_id" (Int r.1)
                   /\ name res = row_get df r "name" (Str "Unknown")
                   /\ rating res = at_column "rating" r
                   /\ category res = at_column "category" r
                   /\ price_level res = at_column "price_level" r)
              results.
Proof.
  intros Htrained Hh Hwf Hu Hkeys Hfail Hk.
  destruct (rank_places_prediction_failure_readable self places_df df user_features
              top_k h e Htrained Hh (well_formed_places_readable _ Hwf)
              (well_formed_user_readable _ Hu) Hkeys Hfail Hk)
    as (results & Hrun & Hlen & Hres).
  exists results. split; [exact Hrun|]. split; [exact Hlen|].
  eapply Forall_impl; [exact Hres|]. cbn beta.
  intros res (r & Hr & Hs & Hrest). exists r. split; [exact Hr|]. split; [|exact Hrest].
  rewrite Hs. apply fallback_formula_spec; [exact Hu|].
  destruct Hwf as [_ Hrows]. rewrite Forall_forall in Hrows. exact (proj1 (Hrows r Hr)).
Qed.

End PredictionFailure.

Section RankedOrderCases.
Import Py Pandas Joblib MLRankingModel.

(** The first two recommendations for the sample user are in order. *)
Lemma rank_places_descending_scores_sample :
  match (rank_places (RT := Reference.runtime) (SK := Reference.sklearn)
           init 1%positive Samples.sample_user 3 Samples.sample_store).1 with
  | inr (a :: b :: _) => (score a <? score b)%float = false
  | _ => False
  end.
Proof.
  pose proof (rank_places_descending_scores (RT := Reference.runtime)
                (SK := Reference.sklearn) init 1%positive Samples.sample_user 3
                Samples.sample_store) as H.
  destruct (rank_places init 1%positive Samples.sample_user 3 Samples.sample_store).1
    as [e|[|a [|b l]]] eqn:E.
  - vm_compute in E. discriminate E.
  - vm_compute in E. discriminate E.
  - vm_compute in E. discriminate E.
  - exact (proj1 (H _ eq_refl 0%nat 1%nat a b ltac:(lia) eq_refl eq_refl)).
Defined.

(** The sample model trained on a feature the places do not have returns
    three fallback entries. *)
Lemma rank_places_prediction_failure_sample :
  exists results,
    (rank_places (RT := Reference.runtime) Samples.stale_ranker 1%positive
       Samples.sample_user 3 Samples.sample_store).1 = inr results
    /\ length results = 3%nat.
Proof.
  destruct (rank_places_prediction_failure (RT := Reference.runtime)
              Samples.stale_ranker 1%positive Samples.sample_places
              Samples.sample_user 3 Samples.sample_store (KeyError "quality_score")
              eq_refl eq_refl sample_places_well_formed sample_user_well_formed)
    as (results & Hrun & Hlen & _).
  - intros key Hkey.
    repeat (apply elem_of_cons in Hkey as [->|Hkey]; [not_in_list|]).
    now apply elem_of_nil in Hkey.
  - vm_compute. reflexivity.
  - lia.
  - exists results. split; [exact Hrun|].
    change (Z.of_nat (nrows Samples.sample_places)) with 5 in Hlen. lia.
Defined.

End RankedOrderCases.

(** ** Place features of rated places *)

Section PlaceFeaturesRated.
Import Py Pandas FeatureEngineer FloatOrder.
Context `{RT : Runtime}.

Ltac assign d' N K :=
  match goal with
  | |- context [setitem ?d ?c ?vs] =>
      let H := fresh "Hnew" in
      destruct (setitem_holds d c vs) as (d' & -> & N & H & K);
      [ rewrite ?length_map; unfold nrows in *; congruence | cbn [bind] ]
  end.

Ltac carry K :=
  repeat match goal with
  | H : holds _ ?c ?vs |- _ => apply (K c vs) in H; [|discriminate]
  end.

Lemma cut_rating_none (x : float) :
  (0 <? x)%float = false \/ (x <=? 5)%float = false ->
  cut [0; 3; 4; 5]%float [0; 1; 2] x = None.
Proof.
  intros Hx. destruct (PrimFloat.is_nan x) eqn:Hn.
  - unfold cut. cbn [List.filter].
    assert (H : forall b, (b <? x)%float = false).
    { intros b. destruct (b <? x)%float eqn:E; [|reflexivity].
      destruct (ltb_true_not_nan _ _ E) as [_ H]. unfold PyFloat.not_nan in H. congruence. }
    now rewrite !H.
  - destruct (cut_rating x) as (_ & _ & _ & H0 & H5).
    destruct Hx as [Hx|Hx].
    + apply H0. apply ltb_false_leb; [reflexivity | exact Hn | exact Hx].
    + apply H5. apply leb_false_ltb; [exact Hn | reflexivity | exact Hx].
Qed.

Lemma cut_rating_bucket (x : float) :
  (0 <? x)%float = true -> (x <=? 5)%float = true ->
  cut [0; 3; 4; 5]%float [0; 1; 2] x = Some (rating_bucket x).
Proof.
  intros Hpos Hmax. destruct (cut_rating x) as (H1 & H2 & H3 & _).
  destruct (leb_true_not_nan _ _ Hmax) as [Hx _]. unfold rating_bucket.
  destruct (x <=? 3)%float eqn:E3; [now apply H1|].
  destruct (x <=? 4)%float eqn:E4.
  - apply H2; [|reflexivity]. now apply leb_false_ltb.
  - apply H3; [|exact Hmax]. now apply leb_false_ltb.
Qed.

(** A rating without a bucket makes the call raise. *)
Lemma create_place_features_unbucketed (places_df : DataFrame) :
  "rating" ∈ columns places_df ->
  Forall (fun r => forall s, at_column "rating" r <> Str s) (rows places_df) ->
  Exists (fun r => cut [0; 3; 4; 5]%float [0; 1; 2] (num "rating" r) = None)
         (rows places_df) ->
  create_place_features places_df
  = inl (ValueError "Cannot convert float NaN to integer").
Proof.
  intros Hcol Hnum Hnone. unfold create_place_features.
  rewrite (proj2 (has_column_true _ _) Hcol).
  rewrite (numeric_rows _ _ Hcol Hnum). cbn [bind].
  match goal with
  | |- context [setitem places_df "rating_normalized" ?vs] =>
      destruct (setitem_ok places_df "rating_normalized" vs)
        as (df1 & -> & U1 & _ & _); [now rewrite !length_map|]
  end.
  cbn [bind].
  rewrite (numeric_updates _ _ _ _ U1) by (try exact Hcol; not_in_list).
  rewrite (numeric_rows _ _ Hcol Hnum). cbn [bind].
  match goal with
  | |- context [setitem df1 "has_rating" ?vs] =>
      destruct (setitem_ok df1 "has_rating" vs) as (df2 & -> & U2 & _ & _);
        [now rewrite !length_map, (updates_nrows _ _ _ U1)|]
  end.
  cbn [bind].
  rewrite (numeric_updates _ _ _ _ (updates_trans _ _ _ _ _ U1 U2))
    by (try exact Hcol; not_in_list).
  rewrite (numeric_rows _ _ Hcol Hnum). cbn [bind].
  rewrite astype_int_nan; [reflexivity|].
  apply Exists_exists in Hnone as (r & Hr & Hcut).
  apply list_elem_of_fmap. exists (num "rating" r). split; [now rewrite Hcut|].
  apply list_elem_of_fmap. eauto.
Qed.


Lemma create_place_features_ok (places_df : DataFrame) :
  readable_batch places_df ->
  Forall (fun r => (0 <? num "rating" r)%float = true
                   /\ (num "rating" r <=? 5)%float = true) (rows places_df) ->
  exists df', create_place_features places_df = inr df'
    /\ nrows df' = nrows places_df
    /\ Forall (fun cf => holds df' cf.1 (map cf.2 (rows places_df)))
              (place_features
                 (pd_median (map (num "reviews_count") (rows places_df)))
                 (series_max (map (fun r => np_log1p (num "reviews_count" r))
                                  (rows places_df))))
    /\ (forall c values,
          c ∉ (place_features 0 0).*1 -> PyStr.startswith "cat_" c = false ->
          holds places_df c values -> holds df' c values).
Proof.
  intros [Hcols Hwf] Hrows.
  assert (Hnum : forall c, c ∈ ["rating"; "reviews_count"; "price_level";
                                "latitude"; "longitude"] ->
            mapM to_float (map (at_column c) (rows places_df))
            = inr (map (num c) (rows places_df))).
  { intros c Hc. apply mapM_to_float_num.
    eapply Forall_impl; [exact Hwf|]. intros r (Hr & _) s. now apply Hr. }
  assert (Hrating : holds places_df "rating" (map (at_column "rating") (rows places_df)))
    by (split; [apply Hcols; in_list | reflexivity]).
  assert (Hreviews : holds places_df "reviews_count"
                       (map (at_column "reviews_count") (rows places_df)))
    by (split; [apply Hcols; in_list | reflexivity]).
  assert (Hprice : holds places_df "price_level"
                     (map (at_column "price_level") (rows places_df)))
    by (split; [apply Hcols; in_list | reflexivity]).
  assert (Hcategory : holds places_df "category"
                        (map (at_column "category") (rows places_df)))
    by (split; [apply Hcols; in_list | reflexivity]).
  assert (Hlat : holds places_df "latitude" (map (at_column "latitude") (rows places_df)))
    by (split; [apply Hcols; in_list | reflexivity]).
  assert (Hlon : holds places_df "longitude"
                   (map (at_column "longitude") (rows places_df)))
    by (split; [apply Hcols; in_list | reflexivity]).
  unfold create_place_features.
  rewrite (has_column_holds _ _ _ Hrating).
  (* rating_normalized *)
  rewrite (numeric_holds _ _ _ Hrating), Hnum by in_list. cbn [bind]. rewrite map_map.
  assign df1 N1 K1. carry K1.
  (* has_rating *)
  rewrite (numeric_holds _ _ _ Hrating), Hnum by in_list. cbn [bind]. rewrite map_map.
  assign df2 N2 K2. carry K2.
  (* rating_quality *)
  rewrite (numeric_holds _ _ _ Hrating), Hnum by in_list. cbn [bind]. rewrite map_map.
  unfold astype_int. rewrite mapM_compose.
  rewrite (mapM_map _ (fun r => Int (rating_bucket (num "rating" r)))).
  2:{ intros r Hr. rewrite Forall_forall in Hrows.
      destruct (Hrows r Hr) as (Hpos & Hmax).
      now rewrite (cut_rating_bucket _ Hpos Hmax). }
  cbn [bind].
  assign df3 N3 K3. carry K3.
  (* log_reviews *)
  rewrite (numeric_holds _ _ _ Hreviews), Hnum by in_list. cbn [bind]. rewrite map_map.
  assign df4 N4 K4. carry K4.
  (* popularity_score *)
  rewrite (numeric_holds _ _ _ Hrating), Hnum by in_list. cbn [bind].
  rewrite (numeric_holds _ _ _ Hreviews), Hnum by in_list. cbn [bind].
  rewrite zip_with_map2.
  assign df5 N5 K5. carry K5.
  (* is_popular *)
  rewrite (numeric_holds _ _ _ Hreviews), Hnum by in_list. cbn [bind]. rewrite map_map.
  assign df6 N6 K6. carry K6.
  (* price features *)
  rewrite (numeric_holds _ _ _ Hprice), Hnum by in_list. cbn [bind]. rewrite map_map.
  assign df7 N7 K7. carry K7.
  rewrite (numeric_holds _ _ _ Hprice), Hnum by in_list. cbn [bind]. rewrite map_map.
  assign df8 N8 K8. carry K8.
  rewrite (numeric_holds _ _ _ Hprice), Hnum by in_list. cbn [bind]. rewrite map_map.
  assign df9 N9 K9. carry K9.
  (* category features *)
  rewrite (getitem_holds _ _ _ Hcategory). cbn [bind].
  unfold category_labels. rewrite mapM_compose.
  rewrite (mapM_map _ (fun r => match at_column "category" r with
                                | Str s => Some s
                                | _ => None
                                end)).
  2:{ intros r Hr. rewrite Forall_forall in Hwf.
      destruct (Hwf r Hr) as (_ & [s ->]). reflexivity. }
  cbn [bind].
  match goal with
  | |- context [concat_dummies df9 "cat" ?labels] =>
      destruct (concat_dummies_holds df9 "cat" labels) as (df10 & -> & N10 & K10);
        [rewrite length_map; unfold nrows in *; congruence | cbn [bind]]
  end.
  repeat match goal with
  | H : holds df9 ?c ?vs |- _ => apply (K10 c vs) in H; [|reflexivity]
  end.
  (* geographic features *)
  rewrite (numeric_holds _ _ _ Hlat), Hnum by in_list. cbn [bind]. rewrite map_map.
  assign df11 N11 K11. carry K11.
  rewrite (numeric_holds _ _ _ Hlon), Hnum by in_list. cbn [bind]. rewrite map_map.
  assign df12 N12 K12. carry K12.
  (* composite score *)
  match goal with
  | H : holds df12 "rating_normalized" _ |- _ => rewrite (numeric_holds _ _ _ H)
  end.
  rewrite mapM_to_float_Num. cbn [bind].
  match goal with
  | H : holds df12 "log_reviews" _ |- _ => rewrite (numeric_holds _ _ _ H)
  end.
  rewrite mapM_to_float_Num. cbn [bind].
  rewrite (numeric_holds _ _ _ Hprice), Hnum by in_list. cbn [bind].
  rewrite !zip_map2, map_map.
  assign df13 N13 K13. carry K13.
  exists df13. split; [reflexivity|]. split; [unfold nrows in *; congruence|].
  split.
  - unfold place_features.
    repeat (apply Forall_cons; split; [cbn [fst snd]; assumption|]). constructor.
  - intros c values Hc Hpre Hh.
    apply K13; [intros ->; apply Hc; in_list|].
    apply K12; [intros ->; apply Hc; in_list|].
    apply K11; [intros ->; apply Hc; in_list|].
    apply K10; [exact Hpre|].
    apply K9; [intros ->; apply Hc; in_list|].
    apply K8; [intros ->; apply Hc; in_list|].
    apply K7; [intros ->; apply Hc; in_list|].
    apply K6; [intros ->; apply Hc; in_list|].
    apply K5; [intros ->; apply Hc; in_list|].
    apply K4; [intros ->; apply Hc; in_list|].
    apply K3; [intros ->; apply Hc; in_list|].
    apply K2; [intros ->; apply Hc; in_list|].
    apply K1; [intros ->; apply Hc; in_list|].
    exact Hh.
Qed.

(** X5. On a well-formed batch whose ratings all lie in (0, 5],
    [create_place_features] succeeds and keeps the rows: each of the twelve
    columns it assigns holds, row by row, the value computed from that row
    (the rating bucket being 0 up to 3, 1 up to 4 and 2 above), and every
    other column that does not start with [cat_] holds what it held. *)
Theorem create_place_features_rated (places_df : DataFrame) :
  well_formed_batch places_df ->
  Forall (fun r => (0 <? num "rating" r)%float = true
                   /\ (num "rating" r <=? 5)%float = true) (rows places_df) ->
  exists df', create_place_features places_df = inr df'
    /\ nrows df' = nrows places_df
    /\ Forall (fun cf => holds df' cf.1 (map cf.2 (rows places_df)))
              (place_features
                 (pd_median (map (num "reviews_count") (rows places_df)))
                 (series_max (map (fun r => np_log1p (num "reviews_count" r))
                                  (rows places_df))))
    /\ (forall c values,
          c ∉ (place_features 0 0).*1 -> PyStr.startswith "cat_" c = false ->
          holds places_df c values -> holds df' c values).
Proof.
  intros Hwf. apply create_place_features_ok.
  exact (well_formed_batch_readable _ Hwf).
Qed.

(** X6. On a well-formed batch, [create_place_features] returns a frame
    exactly when every rating lies in (0, 5]: one rating at or below 0,
    above 5 or missing makes the whole call raise. *)
Theorem create_place_features_succeeds_iff (places_df : DataFrame) :
  well_formed_batch places_df ->
  (exists df', create_place_features places_df = inr df')
  <-> Forall (fun r => (0 <? num "rating" r)%float = true
                       /\ (num "rating" r <=? 5)%float = true) (rows places_df).
Proof.
  intros Hwf%well_formed_batch_readable. split.
  - intros [df' Hdf]. apply Forall_forall. intros r Hr.
    destruct (0 <? num "rating" r)%float eqn:E0;
      [destruct (num "rating" r <=? 5)%float eqn:E5; [auto|]|].
    all: exfalso;
      rewrite create_place_features_unbucketed in Hdf;
      [discriminate Hdf | apply (proj1 Hwf); in_list | |].
    all: try (eapply Forall_impl; [exact (proj2 Hwf)|];
              intros r0 [Hn _] s; apply Hn; in_list).
    all: apply Exists_exists; exists r; split; [exact Hr|];
      apply cut_rating_none; auto.
  - intros Hrows.
    destruct (create_place_features_ok places_df Hwf Hrows) as (df' & Hdf & _).
    eauto.
Qed.

End PlaceFeaturesRated.

Section PlaceFeaturesRatedCases.
Import Py Pandas FeatureEngineer.
Lemma rated_batch_well_formed : well_formed_batch Samples.rated_batch.
Proof.
  split.
  - intros c Hc. repeat (apply elem_of_cons in Hc as [->|Hc]; [in_list|]).
    now apply elem_of_nil in Hc.
  - split; [|discriminate].
    repeat (apply Forall_cons; split; [split|]); try apply Forall_nil_2;
      try (eexists; split; reflexivity);
      intros c Hc;
      repeat (apply elem_of_cons in Hc as [->|Hc]; [vm_compute; try easy; exact I|]);
      now apply elem_of_nil in Hc.
Qed.

Lemma unrated_batch_well_formed : well_formed_batch Samples.unrated_batch.
Proof.
  split.
  - intros c Hc. repeat (apply elem_of_cons in Hc as [->|Hc]; [in_list|]).
    now apply elem_of_nil in Hc.
  - split; [|discriminate].
    repeat (apply Forall_cons; split; [split|]); try apply Forall_nil_2;
      try (eexists; split; reflexivity);
      intros c Hc;
      repeat (apply elem_of_cons in Hc as [->|Hc]; [vm_compute; try easy; exact I|]);
      now apply elem_of_nil in Hc.
Qed.

(** The buckets of the ratings 3.0, 3.01, 4.0 and 4.01. *)
Lemma create_place_features_rated_sample :
  exists df',
    create_place_features (RT := Reference.runtime) Samples.rated_batch = inr df'
    /\ map (at_column "rating_quality") (rows df') = [Int 0; Int 1; Int 1; Int 2].
Proof.
  destruct (create_place_features_rated (RT := Reference.runtime) Samples.rated_batch
              rated_batch_well_formed) as (df' & Hdf & _ & Hcols & _).
  - repeat constructor.
  - exists df'. split; [exact Hdf|].
    apply Forall_cons in Hcols as [_ Hcols]. apply Forall_cons in Hcols as [_ Hcols].
    apply Forall_cons in Hcols as [[_ Hq] _]. exact Hq.
Defined.

(** The rated sample batch succeeds; the batch with a rating of 0 does not. *)
Lemma create_place_features_succeeds_iff_sample :
  (exists df', create_place_features (RT := Reference.runtime) Samples.rated_batch = inr df')
  /\ ~ (exists df', create_place_features (RT := Reference.runtime) Samples.unrated_batch
                    = inr df').
Proof.
  split.
  - apply (create_place_features_succeeds_iff (RT := Reference.runtime)
             Samples.rated_batch rated_batch_well_formed).
    repeat constructor.
  - intros H.
    apply (create_place_features_succeeds_iff (RT := Reference.runtime)
             Samples.unrated_batch unrated_batch_well_formed) in H.
    apply Forall_cons in H as [_ H]. apply Forall_cons in H as [[H _] _].
    discriminate H.
Defined.
End PlaceFeaturesRatedCases.

(** ** User features *)

Section UserFeatures.
Import Py Pandas FeatureEngineer MLRankingModel.

Lemma int_get_budget (k : string) : int_get budget_map k 2 ∈ [1; 2; 3; 4].
Proof.
  unfold budget_map. cbn [int_get].
  repeat match goal with |- context [if ?b then _ else _] => destruct b end; in_list.
Qed.

(** X7. The user features have the same fifteen keys for every user, in the
    same order; the budget is encoded as 1, 2, 3 or 4 (2 for an unknown or
    missing level) and normalized by 4; an interest flag is 1 exactly when
    the interest is among the user's; the pace is 1, 2 or 3; and no user is
    both solo and a group. *)
Theorem create_user_features_shape (user_prefs : UserPrefs) :
  let features := create_user_features user_prefs in
  keys features
  = ["budget_encoded"; "budget_normalized"; "interest_culture"; "interest_nature";
     "interest_food"; "interest_adventure"; "interest_shopping"; "interest_history";
     "interest_beach"; "interest_nightlife"; "interest_relaxation"; "travel_pace";
     "group_size"; "is_solo"; "is_group"]
  /\ (exists b, b ∈ [1; 2; 3; 4]
        /\ dict_get features "budget_encoded" Null = Int b
        /\ dict_get features "budget_normalized" Null = Num (PyFloat.of_Z b / 4.0))
  /\ (forall interest, interest ∈ all_interests ->
        dict_get features ("interest_" ++ interest)%string Null
        = Int (if bool_decide (interest ∈ default [] (interests user_prefs))
               then 1 else 0))
  /\ dict_get features "travel_pace" Null ∈ [Int 1; Int 2; Int 3]
  /\ ~ (dict_get features "is_solo" Null = Int 1
        /\ dict_get features "is_group" Null = Int 1).
Proof.
  intros features. subst features. split; [reflexivity|]. split; [|split; [|split]].
  - eexists. split; [apply int_get_budget|]. split; reflexivity.
  - intros interest Hi. unfold all_interests in Hi.
    repeat (apply elem_of_cons in Hi as [->|Hi]; [reflexivity|]).
    now apply elem_of_nil in Hi.
  - change (dict_get (create_user_features user_prefs) "travel_pace" Null)
      with (Int (int_get style_map (default "moderate" (travel_style user_prefs)) 2)).
    unfold style_map. cbn [int_get].
    repeat match goal with |- context [if ?b then _ else _] => destruct b end; in_list.
  - change (dict_get (create_user_features user_prefs) "is_solo" Null)
      with (Int (if default 1 (group_size user_prefs) =? 1 then 1 else 0)).
    change (dict_get (create_user_features user_prefs) "is_group" Null)
      with (Int (if 4 <=? default 1 (group_size user_prefs) then 1 else 0)).
    intros [H1 H4].
    destruct (Z.eqb_spec (default 1 (group_size user_prefs)) 1) as [E|E]; [|discriminate].
    rewrite E in H4. discriminate.
Qed.

Lemma interests_of_app (a b : list (string * cell)) :
  interests_of (a ++ b) = interests_of a ++ interests_of b.
Proof. unfold interests_of. now rewrite List.filter_app, map_app. Qed.

Lemma startswith_prefix (p s : string) : PyStr.startswith p (p ++ s) = true.
Proof. induction p as [|a p IH]; simpl; [reflexivity | now rewrite Ascii.eqb_refl]. Qed.

(** The interest flags read back: the interests whose flag is 1. *)
Lemma interests_of_flags (b : string -> bool) (L : list string) :
  Forall (fun i => PyStr.replace "interest_" "" ("interest_" ++ i) = i) L ->
  interests_of (map (fun i : string =>
                       (("interest_" ++ i)%string, Int (if b i then 1 else 0))) L)
  = List.filter b L.
Proof.
  induction 1 as [|i L Hi _ IH]; [reflexivity|].
  unfold interests_of in *. cbn [map List.filter fst snd].
  rewrite startswith_prefix. cbn [andb is_one].
  destruct (b i); cbn [Z.eqb Pos.eqb map fst snd]; [|exact IH].
  now rewrite Hi, IH.
Qed.

(** The interests read back from the features of a user. *)
Lemma create_user_features_interests_of (user_prefs : UserPrefs) :
  interests_of (create_user_features user_prefs)
  = List.filter (fun interest => bool_decide (interest ∈ default [] (interests user_prefs)))
                all_interests.
Proof.
  unfold create_user_features. cbn zeta.
  rewrite !interests_of_app.
  change (interests_of [("budget_encoded", _); ("budget_normalized", _)]) with (@nil string).
  match goal with
  | |- context [interests_of [("travel_pace", ?a); ("group_size", ?b);
                              ("is_solo", ?c); ("is_group", ?d)]] =>
      change (interests_of [("travel_pace", a); ("group_size", b);
                            ("is_solo", c); ("is_group", d)]) with (@nil string)
  end.
  rewrite app_nil_r. cbn [app].
  apply (interests_of_flags
           (fun interest => bool_decide (interest ∈ default [] (interests user_prefs)))).
  repeat constructor.
Qed.

(** The features of a user are well-formed: the budget is one of 1 to 4 and
    the interest keys are those of the nine known interests. *)
Lemma create_user_features_well_formed (user_prefs : UserPrefs) :
  well_formed_user (create_user_features user_prefs).
Proof.
  split.
  - change (dict_get (create_user_features user_prefs) "budget_encoded" (Int 2))
      with (Int (int_get budget_map (default "medium" (budget_level user_prefs)) 2)).
    pose proof (int_get_budget (default "medium" (budget_level user_prefs))) as Hb.
    cbn [number].
    repeat (apply elem_of_cons in Hb as [->|Hb]; [lia|]).
    now apply elem_of_nil in Hb.
  - unfold create_user_features. cbn zeta.
    repeat (apply Forall_cons; split; [cbn; discriminate|]).
    apply Forall_app. split.
    + apply Forall_fmap. unfold all_interests.
      repeat (apply Forall_cons; split;
              [intros _; eexists; split; reflexivity|]).
      apply Forall_nil_2.
    + repeat (apply Forall_cons; split; [cbn; discriminate|]).
      apply Forall_nil_2.
Qed.

(** X8. The interests that the fallback ranking reads back from the user
    features are the user's interests that are among the nine known ones, in
    the order of the known ones: an interest outside them is dropped.  The
    features are well-formed user features for the ranking. *)
Theorem create_user_features_interests (user_prefs : UserPrefs) :
  let features := create_user_features user_prefs in
  interests_of features
  = List.filter (fun interest => bool_decide (interest ∈ default [] (interests user_prefs)))
                all_interests
  /\ well_formed_user features.
Proof.
  intros features. subst features. split.
  - apply create_user_features_interests_of.
  - apply create_user_features_well_formed.
Qed.

End UserFeatures.

(** ** Places from OpenStreetMap *)

Section Overpass.
Import Py PyStr OverpassService.

Lemma lower_upper_ascii (c : ascii) :
  PyStr.lower_ascii (upper_ascii c) = PyStr.lower_ascii c.
Proof. destruct c as [[] [] [] [] [] [] [] []]; reflexivity. Qed.

Lemma lower_lower_ascii (c : ascii) :
  PyStr.lower_ascii (PyStr.lower_ascii c) = PyStr.lower_ascii c.
Proof. destruct c as [[] [] [] [] [] [] [] []]; reflexivity. Qed.

Lemma lower_title_from (b : bool) (s : string) :
  PyStr.lower (title_from b s) = PyStr.lower s.
Proof.
  revert b. induction s as [|c s IH]; intros b; [reflexivity|].
  cbn [title_from]. destruct (is_lower c); [|destruct (is_upper c)];
    cbn [PyStr.lower]; rewrite IH; destruct b;
    now rewrite ?lower_upper_ascii, ?lower_lower_ascii.
Qed.

Lemma lower_app (a b : string) :
  PyStr.lower (a ++ b) = (PyStr.lower a ++ PyStr.lower b)%string.
Proof. induction a as [|c a IH]; simpl; [reflexivity | now rewrite IH]. Qed.

Lemma startswith_app_space (n a b : string) :
  Forall (fun c => c <> " "%char) (list_ascii_of_string n) ->
  PyStr.startswith n (a ++ String " " b) = PyStr.startswith n a.
Proof.
  revert n. induction a as [|x a IH]; intros n Hn.
  - destruct n as [|c n]; [reflexivity|]. simpl.
    apply Forall_cons in Hn as [Hc _].
    destruct (Ascii.eqb_spec c " "); [contradiction | reflexivity].
  - destruct n as [|c n]; [reflexivity|]. simpl.
    apply Forall_cons in Hn as [_ Hn].
    destruct (Ascii.eqb c x); [now apply IH | reflexivity].
Qed.

(** A needle without a space is found in [a ++ " " ++ b] where it is found
    in [a] or in [b]. *)
Lemma contains_app_space (n a b : string) :
  n <> "" ->
  Forall (fun c => c <> " "%char) (list_ascii_of_string n) ->
  PyStr.contains n (a ++ String " " b) = PyStr.contains n a || PyStr.contains n b.
Proof.
  intros Hne Hn. induction a as [|x a IH].
  - destruct n as [|c n]; [congruence|].
    apply Forall_cons in Hn as [Hc _]. simpl.
    destruct (Ascii.eqb_spec c " "); [contradiction | reflexivity].
  - change ((String x a ++ String " " b)%string) with (String x (a ++ String " " b)).
    cbn [PyStr.contains].
    change (String x (a ++ String " " b)) with ((String x a ++ String " " b)%string).
    rewrite startswith_app_space by exact Hn.
    destruct (PyStr.startswith n (String x a)); [reflexivity | exact IH].
Qed.

Lemma tag_set_filter (tags : gmap string string) (k : string) :
  k ∈ PLACE_TAGS ->
  OSMRecommender.tag_set (filter (fun kv : string * string => kv.1 ∈ PLACE_TAGS) tags) k
  = OSMRecommender.tag_set tags k.
Proof.
  intros Hk. unfold OSMRecommender.tag_set.
  destruct (tags !! k) as [v|] eqn:E.
  - now rewrite (map_lookup_filter_Some_2 _ _ _ _ E Hk).
  - now rewrite (map_lookup_filter_None_2 _ _ _ (or_introl E)).
Qed.

Lemma lookup_filter_tags (tags : gmap string string) (k : string) :
  k ∈ PLACE_TAGS ->
  filter (fun kv : string * string => kv.1 ∈ PLACE_TAGS) tags !! k = tags !! k.
Proof.
  intros Hk. destruct (tags !! k) as [v|] eqn:E.
  - now rewrite (map_lookup_filter_Some_2 _ _ _ _ E Hk).
  - now rewrite (map_lookup_filter_None_2 _ _ _ (or_introl E)).
Qed.

Lemma tag_value_truthy (tags : gmap string string) (k v : string) :
  tag_value tags k = Some v -> PyStr.truthy v = true.
Proof.
  unfold tag_value. destruct (tags !! k) as [w|]; [|discriminate].
  destruct (PyStr.truthy w) eqn:E; [|discriminate]. now intros [= <-].
Qed.

Lemma name_of_truthy (tags : gmap string string) (name : string) :
  name_of tags = Some name -> PyStr.truthy name = true.
Proof.
  unfold name_of.
  destruct (tag_value tags "name") as [n1|] eqn:E1.
  { intros [= <-]. exact (tag_value_truthy _ _ _ E1). }
  destruct (tag_value tags "name:en") as [n2|] eqn:E2.
  { intros [= <-]. exact (tag_value_truthy _ _ _ E2). }
  apply tag_value_truthy.
Qed.

(** X9. A place that [_parse_element] returns has a non-empty name, the
    category that [_categorize_place] gives the element's tags, coordinates
    that are not 0 (a named element on the equator or on the prime meridian
    is dropped), only tags among the nine kept ones, and no rank yet; the
    popularity the recommender computes for it is the one of the element's
    full tags. *)
Theorem parse_element_place (element : Element) (p : ParsedPlace) :
  _parse_element element = inr (Some p) ->
  PyStr.truthy (OSMRecommender.name (place p)) = true
  /\ OSMRecommender.category (place p) = _categorize_place (tags element)
  /\ (OSMRecommender.lat (place p) =? 0)%float = false
  /\ (OSMRecommender.lon (place p) =? 0)%float = false
  /\ (forall k, is_Some (OSMRecommender.tags (place p) !! k) -> k ∈ PLACE_TAGS)
  /\ (forall q, OSMRecommender.tags q = tags element ->
        OSMRecommender._calculate_popularity (place p)
        = OSMRecommender._calculate_popularity q)
  /\ OSMRecommender.rank_score (place p) = None
  /\ OSMRecommender.rank (place p) = None.
Proof.
  unfold _parse_element.
  destruct (name_of (tags element)) as [name|] eqn:Hname; [|discriminate].
  destruct (type element) as [ty|]; [|discriminate]. cbn [bind ret].
  destruct (if String.eqb ty "node" then _ else _) as [[la lo]|]; [|discriminate].
  destruct (coordinate la) as [la'|] eqn:Hla; [|discriminate].
  destruct (coordinate lo) as [lo'|] eqn:Hlo; [|discriminate].
  intros Hp. injection Hp as <-. cbn.
  repeat split.
  - exact (name_of_truthy _ _ Hname).
  - unfold coordinate in Hla. destruct la as [x|]; [|discriminate].
    destruct (x =? 0)%float eqn:E; [discriminate|]. now injection Hla as <-.
  - unfold coordinate in Hlo. destruct lo as [x|]; [|discriminate].
    destruct (x =? 0)%float eqn:E; [discriminate|]. now injection Hlo as <-.
  - intros k [v Hv]. apply map_lookup_filter_Some in Hv as [_ Hk]. exact Hk.
  - intros q Hq. unfold OSMRecommender._calculate_popularity. cbn. rewrite Hq.
    rewrite !tag_set_filter by in_list.
    now rewrite lookup_filter_tags by in_list.
Qed.

(** X10. No category that [_categorize_place] assigns contains the keyword
    [tourist_attraction] of the recommender's [CATEGORY_KEYWORDS] (the
    category is written [Tourist Attraction]), unless the religion tag of a
    place of worship does: the keyword never matches a fetched place. *)
Theorem categorize_place_never_tourist_attraction (tags : gmap string string) :
  (forall religion, tags !! "religion" = Some religion ->
     PyStr.contains "tourist_attraction" (PyStr.lower religion) = false) ->
  PyStr.contains "tourist_attraction" (PyStr.lower (_categorize_place tags)) = false.
Proof.
  intros Hreligion. unfold _categorize_place.
  repeat match goal with
  | |- context [if tag_is tags ?k ?v then _ else _] =>
      destruct (tag_is tags k v); [reflexivity|]
  end.
  destruct (tag_is tags "amenity" "place_of_worship");
    [|destruct (tag_is tags "leisure" "park"); reflexivity].
  cbn zeta. destruct (PyStr.truthy _); [|reflexivity].
  rewrite lower_app. unfold title. rewrite lower_title_from.
  change (PyStr.lower " Temple") with (String " " "temple").
  rewrite contains_app_space; [|discriminate | repeat constructor; discriminate].
  apply orb_false_iff. split; [|reflexivity].
  destruct (tags !! "religion") as [r|] eqn:E; [now apply Hreligion | reflexivity].
Qed.

Lemma temple_not_attraction (s : string) :
  (s ++ " Temple")%string <> "Tourist Attraction".
Proof.
  intros H.
  repeat (destruct s as [|? s]; [discriminate H|];
          simpl in H; first [discriminate H | injection H as _ H]).
Qed.

(** The parser gives the category [Tourist Attraction] to an element
    tagged [tourism=attraction] only. *)
Lemma categorize_place_attraction (tags : gmap string string) :
  _categorize_place tags = "Tourist Attraction" ->
  tags !! "tourism" = Some "attraction".
Proof.
  unfold _categorize_place.
  destruct (tag_is tags "natural" "beach"); [discriminate|].
  destruct (tag_is tags "natural" "peak"); [discriminate|].
  destruct (tag_is tags "natural" "waterfall"); [discriminate|].
  destruct (tag_is tags "tourism" "attraction") eqn:E;
    [intros _; now apply bool_decide_eq_true in E|].
  destruct (tag_is tags "tourism" "museum"); [discriminate|].
  destruct (tag_is tags "tourism" "viewpoint"); [discriminate|].
  destruct (tag_is tags "historic" "monument"); [discriminate|].
  destruct (tag_is tags "historic" "castle"); [discriminate|].
  destruct (tag_is tags "historic" "archaeological_site"); [discriminate|].
  destruct (tag_is tags "amenity" "place_of_worship").
  - cbn zeta. destruct (PyStr.truthy _); [|discriminate].
    intros H. now apply temple_not_attraction in H.
  - destruct (tag_is tags "leisure" "park"); discriminate.
Qed.

(** The category and the tags of a place that the parser returns. *)
Lemma parse_element_some (element : Element) (p : ParsedPlace) :
  _parse_element element = inr (Some p) ->
  OSMRecommender.category (place p) = _categorize_place (tags element)
  /\ OSMRecommender.tags (place p)
     = filter (fun kv : string * string => kv.1 ∈ PLACE_TAGS) (tags element).
Proof.
  unfold _parse_element.
  destruct (name_of (tags element)) as [name|]; [|discriminate].
  destruct (type element) as [ty|]; [|discriminate]. cbn [bind ret].
  destruct (if String.eqb ty "node" then _ else _) as [[la lo]|]; [|discriminate].
  destruct (coordinate la) as [la'|]; [|discriminate].
  destruct (coordinate lo) as [lo'|]; [|discriminate].
  intros Hp. injection Hp as <-. split; reflexivity.
Qed.

(** C5. For a candidate place, that is a place as [_parse_element] builds
    it from an element of the Overpass response, whose tags hold no
    Wikipedia, website or description entry and whose category is the one
    of attractions ([Tourist Attraction]), [_calculate_popularity] returns
    exactly 0.6, the 0.5 base plus the 0.1 attraction bonus: the bonus reads
    the tag [tourism=attraction], and the parser gives that category to an
    element with this tag only. *)
Theorem popularity_of_attraction (element : Element) (p : ParsedPlace) :
  _parse_element element = inr (Some p) ->
  OSMRecommender.category (place p) = "Tourist Attraction" ->
  OSMRecommender.tag_set (OSMRecommender.tags (place p)) "wikipedia" = false ->
  OSMRecommender.tag_set (OSMRecommender.tags (place p)) "website" = false ->
  OSMRecommender.tag_set (OSMRecommender.tags (place p)) "description" = false ->
  OSMRecommender.tags (place p) !! "tourism" = Some "attraction"
  /\ OSMRecommender._calculate_popularity (place p) = (0.5 + 0.1)%float
  /\ OSMRecommender._calculate_popularity (place p) = 0.6%float.
Proof.
  intros Hp Hc Hw Hs Hd.
  destruct (parse_element_some element p Hp) as [Hcat Htags].
  assert (Ht : OSMRecommender.tags (place p) !! "tourism" = Some "attraction").
  { rewrite Htags, lookup_filter_tags by in_list.
    apply categorize_place_attraction. congruence. }
  split; [exact Ht|].
  unfold OSMRecommender._calculate_popularity. rewrite Hw, Hs, Hd.
  rewrite bool_decide_eq_true_2 by exact Ht. split; reflexivity.
Qed.

End Overpass.

(** ** Summary statistics *)

Section Statistics.
Import Py PyList OSMRecommender.
Context `{RT : Runtime} (py_sum : list float -> float).

Lemma increment_lookup (c : string) (l : list (string * nat)) :
  NoDup l.*1 ->
  NoDup (increment c l).*1
  /\ (list_to_map (increment c l) : gmap string nat)
     = <[c := S (default 0%nat ((list_to_map l : gmap string nat) !! c))]> (list_to_map l).
Proof.
  induction l as [|[c' n] l IH]; intros Hnd.
  - cbn. split; [repeat constructor; set_solver | reflexivity].
  - cbn [increment]. apply NoDup_cons in Hnd as [Hc' Hnd]. cbn in Hc'.
    destruct (String.eqb_spec c c') as [->|Hne].
    + split; [cbn; now apply NoDup_cons|].
      rewrite !list_to_map_cons, lookup_insert_eq. cbn [default].
      now rewrite insert_insert_eq.
    + destruct (IH Hnd) as [Hnd' Hmap]. split.
      * cbn. apply NoDup_cons. split; [|exact Hnd'].
        intros Hin. apply list_elem_of_fmap in Hin as ([k m] & Hk & Hin). cbn in Hk. subst k.
        apply (elem_of_list_to_map_1 (M := gmap string)) in Hin; [|exact Hnd'].
        rewrite Hmap in Hin. rewrite lookup_insert_ne in Hin by congruence.
        apply (elem_of_list_to_map_2 (M := gmap string)) in Hin.
        apply Hc'. apply list_elem_of_fmap. exists (c', m). auto.
      * rewrite !list_to_map_cons, Hmap. rewrite lookup_insert_ne by congruence.
        apply insert_insert_ne. congruence.
Qed.

Lemma count_categories_lookup (recs pre : list Place) (l : list (string * nat)) :
  NoDup l.*1 ->
  (forall c, (list_to_map l : gmap string nat) !! c
             = if decide (category_count c pre = 0%nat) then None
               else Some (category_count c pre)) ->
  let l' := fold_left (fun categories place => increment (category place) categories)
                      recs l in
  NoDup l'.*1
  /\ forall c, (list_to_map l' : gmap string nat) !! c
               = if decide (category_count c (pre ++ recs) = 0%nat) then None
                 else Some (category_count c (pre ++ recs)).
Proof.
  revert pre l. induction recs as [|p recs IH]; intros pre l Hnd Hl; cbn zeta.
  - rewrite app_nil_r. auto.
  - cbn [fold_left].
    destruct (increment_lookup (category p) l Hnd) as [Hnd' Hmap].
    replace (pre ++ p :: recs) with ((pre ++ [p]) ++ recs) by now rewrite <- app_assoc.
    apply IH; [exact Hnd'|].
    intros c. rewrite Hmap.
    assert (Hcount : category_count c (pre ++ [p])
                     = (category_count c pre + if decide (category p = c) then 1 else 0)%nat).
    { unfold category_count. rewrite filter_app, length_app, filter_cons, filter_nil.
      now destruct (decide (category p = c)). }
    rewrite Hcount.
    destruct (decide (category p = c)) as [<-|Hne].
    + rewrite lookup_insert_eq, Hl.
      destruct (decide (category_count (category p) pre = 0%nat)) as [E|E]; cbn.
      * rewrite E. reflexivity.
      * destruct (decide _) as [E'|_]; [lia|]. f_equal. lia.
    + rewrite lookup_insert_ne by exact Hne. rewrite Hl, Nat.add_0_r. reflexivity.
Qed.

Lemma max_by_count_spec (best : string * nat) (rest : list (string * nat)) :
  let top := max_by_count best rest in
  exists i, (best :: rest) !! i = Some top
    /\ (forall kv, kv ∈ best :: rest -> (kv.2 <= top.2)%nat)
    /\ (forall j kv, (j < i)%nat -> (best :: rest) !! j = Some kv -> (kv.2 < top.2)%nat).
Proof.
  revert best. induction rest as [|kv rest IH]; intros best; cbn zeta.
  - exists 0%nat. cbn. split; [reflexivity|]. split.
    + intros kv Hkv. apply list_elem_of_singleton in Hkv as ->. lia.
    + intros j kv Hj. lia.
  - cbn [max_by_count].
    destruct (IH (if (best.2 <? kv.2)%nat then kv else best)) as (i & Hi & Hmax & Hfirst).
    set (top := max_by_count (if (best.2 <? kv.2)%nat then kv else best) rest) in *.
    destruct (Nat.ltb_spec best.2 kv.2) as [Hlt|Hge].
    + (* kv replaces best *)
      exists (S i). split; [exact Hi|]. split.
      * intros x Hx. apply elem_of_cons in Hx as [->|Hx]; [|now apply Hmax].
        pose proof (Hmax kv (list_elem_of_here _ _)). lia.
      * intros j x Hj Hx. destruct j as [|j].
        -- cbn in Hx. injection Hx as <-.
           pose proof (Hmax kv (list_elem_of_here _ _)). lia.
        -- apply (Hfirst j x); [lia | exact Hx].
    + (* best stays *)
      destruct i as [|i].
      * cbn in Hi. injection Hi as Hi. exists 0%nat. cbn. split; [now rewrite Hi|]. split.
        -- intros x Hx. apply elem_of_cons in Hx as [->|Hx]; [rewrite <- Hi; lia|].
           apply elem_of_cons in Hx as [->|Hx]; [rewrite <- Hi; lia|].
           apply Hmax. now apply list_elem_of_further.
        -- intros j x Hj. lia.
      * exists (S (S i)). split; [exact Hi|]. split.
        -- intros x Hx. apply elem_of_cons in Hx as [->|Hx];
             [apply Hmax, list_elem_of_here|].
           apply elem_of_cons in Hx as [->|Hx].
           ++ pose proof (Hmax best (list_elem_of_here _ _)). lia.
           ++ apply Hmax. now apply list_elem_of_further.
        -- intros j x Hj Hx. destruct j as [|j].
           ++ cbn in Hx. injection Hx as <-. apply (Hfirst 0%nat best); [lia | reflexivity].
           ++ destruct j as [|j].
              ** cbn in Hx. injection Hx as <-.
                 pose proof (Hfirst 0%nat best ltac:(lia) eq_refl). lia.
              ** apply (Hfirst (S j) x); [lia | exact Hx].
Qed.


Lemma increment_keys (c : string) (l : list (string * nat)) :
  (increment c l).*1 = if decide (c ∈ l.*1) then l.*1 else l.*1 ++ [c].
Proof.
  induction l as [|[c' n] l IH]; [reflexivity|].
  cbn [increment]. destruct (String.eqb_spec c c') as [->|Hne].
  - cbn. now rewrite decide_True by apply list_elem_of_here.
  - cbn. rewrite IH. destruct (decide (c ∈ l.*1)) as [Hin|Hout].
    + rewrite decide_True by (now right). reflexivity.
    + rewrite decide_False; [reflexivity|].
      intros Hin. apply elem_of_cons in Hin as [?|?]; congruence.
Qed.

Lemma first_seen_snoc (l : list string) (c : string) :
  first_seen (l ++ [c])
  = if decide (c ∈ first_seen l) then first_seen l else first_seen l ++ [c].
Proof.
  unfold first_seen. rewrite reverse_snoc. cbn [remove_dups].
  destruct (decide_rel elem_of c (reverse l)) as [Hin|Hout].
  - rewrite decide_True; [reflexivity|].
    rewrite elem_of_reverse, elem_of_remove_dups. exact Hin.
  - rewrite decide_False; [now rewrite reverse_cons|].
    rewrite elem_of_reverse, elem_of_remove_dups. exact Hout.
Qed.

Lemma count_categories_keys (recs pre : list Place) (l : list (string * nat)) :
  l.*1 = first_seen (map category pre) ->
  (fold_left (fun categories place => increment (category place) categories) recs l).*1
  = first_seen (map category (pre ++ recs)).
Proof.
  revert pre l. induction recs as [|p recs IH]; intros pre l Hl.
  - now rewrite app_nil_r.
  - cbn [fold_left].
    replace (pre ++ p :: recs) with ((pre ++ [p]) ++ recs) by now rewrite <- app_assoc.
    apply IH. rewrite increment_keys, map_app. cbn [map].
    rewrite first_seen_snoc, Hl. reflexivity.
Qed.

Lemma mapM_rank_scores (recs : list Place) :
  Forall (fun p => is_Some (rank_score p)) recs ->
  mapM (fun p => match rank_score p with
                 | Some x => ret x
                 | None => raise (KeyError "rank_score")
                 end) recs
  = inr (map rank_key recs).
Proof.
  intros H. apply mapM_map. intros p Hp. rewrite Forall_forall in H.
  destruct (H p Hp) as [x Hx]. unfold rank_key. now rewrite Hx.
Qed.

Lemma sum_counts (c : string) (l : list (string * nat)) :
  foldr (fun kv acc => (kv.2 + acc)%nat) 0%nat (increment c l)
  = S (foldr (fun kv acc => (kv.2 + acc)%nat) 0%nat l).
Proof.
  induction l as [|[c' n] l IH]; [reflexivity|].
  cbn [increment]. destruct (String.eqb c c'); cbn; [reflexivity|].
  rewrite IH. lia.
Qed.

Lemma sum_counts_fold (recs : list Place) (l : list (string * nat)) :
  foldr (fun kv acc => (kv.2 + acc)%nat) 0%nat
        (fold_left (fun categories place => increment (category place) categories) recs l)
  = (length recs + foldr (fun kv acc => (kv.2 + acc)%nat) 0%nat l)%nat.
Proof.
  revert l. induction recs as [|p recs IH]; intros l; [reflexivity|].
  cbn [fold_left length]. rewrite IH, sum_counts. lia.
Qed.

(** The summary of a non-empty list of ranked places. *)
Lemma summary_statistics_run (recs : list Place) :
  recs <> [] ->
  Forall (fun p => is_Some (rank_score p)) recs ->
  exists first rest,
    fold_left (fun categories place => increment (category place) categories) recs []
    = first :: rest
    /\ get_summary_statistics py_sum recs
       = inr (Some {| total_places := length recs;
                      categories := first :: rest;
                      average_score :=
                        py_round (py_sum (map rank_key recs)
                                  / PyFloat.of_nat (length recs)) 2;
                      top_category := (max_by_count first rest).1 |}).
Proof.
  intros Hne Hranked. unfold get_summary_statistics.
  destruct recs as [|p recs]; [congruence|].
  rewrite (mapM_rank_scores _ Hranked). cbn [bind].
  destruct (fold_left _ (p :: recs) []) as [|first rest] eqn:E.
  - exfalso. apply (f_equal (foldr (fun kv acc => (kv.2 + acc)%nat) 0%nat)) in E.
    rewrite sum_counts_fold in E. cbn in E. lia.
  - eauto.
Qed.

(** X11. For a non-empty list of ranked places, [get_summary_statistics]
    returns the number of places and the count of every category that
    occurs, keyed in the order of first occurrence: a category is listed
    exactly when a place has it, with the number of places that have it, and
    the counts add up to the number of places. *)
Theorem summary_statistics_counts (recs : list Place) :
  recs <> [] ->
  Forall (fun p => is_Some (rank_score p)) recs ->
  exists summary,
    get_summary_statistics py_sum recs = inr (Some summary)
    /\ total_places summary = length recs
    /\ (categories summary).*1 = first_seen (map category recs)
    /\ (forall c n, (c, n) ∈ categories summary
                    <-> n = category_count c recs /\ (0 < n)%nat)
    /\ foldr (fun kv acc => (kv.2 + acc)%nat) 0%nat (categories summary) = length recs.
Proof.
  intros Hne Hranked.
  destruct (summary_statistics_run recs Hne Hranked) as (first & rest & Hfold & ->).
  eexists. split; [reflexivity|]. cbn [total_places categories].
  split; [reflexivity|]. rewrite <- Hfold.
  split; [exact (count_categories_keys recs [] [] eq_refl)|].
  destruct (count_categories_lookup recs [] [] (NoDup_nil_2)) as [Hnd Hlook].
  { intros c. rewrite list_to_map_nil, lookup_empty. reflexivity. }
  cbn [app] in Hlook. split.
  - intros c n. rewrite (elem_of_list_to_map (M := gmap string)) by exact Hnd.
    rewrite Hlook. destruct (decide (category_count c recs = 0%nat)) as [E|E].
    + split; [discriminate | intros [-> H]; lia].
    + split; [intros [= <-]; split; [reflexivity | lia] | intros [-> _]; reflexivity].
  - rewrite sum_counts_fold. cbn. lia.
Qed.

(** X12. The [top_category] of the summary is the category of some place,
    no category has more places, and among the categories with as many
    places it is the one that occurs first in the list. *)
Theorem summary_statistics_top_category (recs : list Place) :
  recs <> [] ->
  Forall (fun p => is_Some (rank_score p)) recs ->
  exists summary,
    get_summary_statistics py_sum recs = inr (Some summary)
    /\ (exists p, p ∈ recs /\ category p = top_category summary)
    /\ (forall c, (category_count c recs
                   <= category_count (top_category summary) recs)%nat)
    /\ exists i, first_seen (map category recs) !! i = Some (top_category summary)
         /\ forall j c, (j < i)%nat -> first_seen (map category recs) !! j = Some c ->
              (category_count c recs < category_count (top_category summary) recs)%nat.
Proof.
  intros Hne Hranked.
  destruct (summary_statistics_run recs Hne Hranked) as (first & rest & Hfold & ->).
  eexists. split; [reflexivity|]. cbn [top_category].
  destruct (count_categories_lookup recs [] [] (NoDup_nil_2)) as [Hnd Hlook].
  { intros c. rewrite list_to_map_nil, lookup_empty. reflexivity. }
  cbn [app] in Hlook. cbn zeta in Hnd. rewrite Hfold in Hnd, Hlook.
  pose proof (count_categories_keys recs [] [] eq_refl) as Hkeys.
  cbn [app] in Hkeys. rewrite Hfold in Hkeys.
  assert (Hcount : forall c n, (c, n) ∈ first :: rest ->
            n = category_count c recs /\ (0 < n)%nat).
  { intros c n Hin. apply (elem_of_list_to_map_1 (M := gmap string)) in Hin; [|exact Hnd].
    rewrite Hlook in Hin. destruct (decide _) as [E|E]; [discriminate|].
    injection Hin as <-. split; [reflexivity | lia]. }
  destruct (max_by_count_spec first rest) as (i & Hi & Hmax & Hfirst).
  set (top := max_by_count first rest) in *.
  assert (Htop : top ∈ first :: rest) by exact (list_elem_of_lookup_2 _ _ _ Hi).
  destruct top as [tc tn] eqn:Etop. cbn [fst snd] in *.
  destruct (Hcount tc tn Htop) as [Htn Hpos].
  split; [|split].
  - assert (Hex : category_count tc recs <> 0%nat) by lia.
    unfold category_count in Hex.
    destruct (filter (fun p => category p = tc) recs) as [|p l] eqn:Ef; [cbn in Hex; lia|].
    assert (Hp : p ∈ filter (fun p => category p = tc) recs) by (rewrite Ef; left).
    apply list_elem_of_filter in Hp as [Hc Hp]. eauto.
  - intros c. destruct (decide (category_count c recs = 0%nat)) as [E|E]; [lia|].
    assert (Hin : (c, category_count c recs) ∈ first :: rest).
    { apply (elem_of_list_to_map_2 (M := gmap string)). rewrite Hlook.
      now rewrite decide_False by exact E. }
    pose proof (Hmax _ Hin) as Hle. cbn in Hle. lia.
  - exists i. split.
    + rewrite <- Hkeys, list_lookup_fmap, Hi. reflexivity.
    + intros j c Hj Hc. rewrite <- Hkeys, list_lookup_fmap in Hc.
      destruct ((first :: rest) !! j) as [[c' n']|] eqn:Ej; [|discriminate].
      cbn in Hc. injection Hc as ->.
      pose proof (Hfirst j (c, n') Hj Ej) as Hlt. cbn in Hlt.
      destruct (Hcount c n' (list_elem_of_lookup_2 _ _ _ Ej)) as [-> _]. lia.
Qed.

End Statistics.

Section ServiceCases.
Import Py PyStr PyList OSMRecommender.

(** The sample node parses to a beach that keeps its wikipedia tag. *)
Lemma parse_element_place_beach :
  exists p, OverpassService._parse_element Samples.beach_node = inr (Some p)
    /\ category (OverpassService.place p) = "Beach"
    /\ _calculate_popularity (OverpassService.place p) = 0.7%float.
Proof.
  destruct (OverpassService._parse_element Samples.beach_node) as [e|[p|]] eqn:E;
    try (vm_compute in E; discriminate E).
  destruct (parse_element_place Samples.beach_node p E) as (_ & Hc & _ & _ & _ & Hp & _).
  exists p. split; [reflexivity|]. split; [rewrite Hc; reflexivity|].
  rewrite (Hp (Samples.place "" "" 0 0
                 [("name", "Marina Beach"); ("natural", "beach");
                  ("wikipedia", "en:Marina Beach"); ("surface", "sand")]) eq_refl).
  reflexivity.
Defined.

(** A tourist attraction: its category does not contain the keyword, and a
    user interested in culture gets no interest match for it. *)
Lemma categorize_place_never_tourist_attraction_sample :
  OverpassService._categorize_place Samples.attraction_tags = "Tourist Attraction"
  /\ contains "tourist_attraction"
       (lower (OverpassService._categorize_place Samples.attraction_tags)) = false
  /\ _calculate_interest_match
       (Samples.place "Clock Tower"
          (OverpassService._categorize_place Samples.attraction_tags) 13.0 80.2 [])
       (Some ["culture"]) = 0%float.
Proof.
  split; [reflexivity|]. split; [|reflexivity].
  apply categorize_place_never_tourist_attraction.
  intros religion Hr. vm_compute in Hr. discriminate Hr.
Defined.

(** The attraction node: parsed, categorised as an attraction, scored 0.6. *)
Lemma popularity_of_attraction_node :
  exists p,
    OverpassService._parse_element Samples.attraction_node = inr (Some p)
    /\ OSMRecommender.category (OverpassService.place p) = "Tourist Attraction"
    /\ OSMRecommender._calculate_popularity (OverpassService.place p) = 0.6%float.
Proof.
  eexists. split; [reflexivity|]. split; [reflexivity|].
  refine (proj2 (proj2 (popularity_of_attraction Samples.attraction_node _
                          eq_refl eq_refl _ _ _))); reflexivity.
Defined.

(** The summary of four recommendations, three of them beaches. *)
Lemma summary_statistics_counts_sample :
  exists summary,
    get_summary_statistics Samples.sum_left (RT := Reference.runtime) Samples.recommended
    = inr (Some summary)
    /\ categories summary = [("Museum", 1%nat); ("Beach", 3%nat)].
Proof.
  destruct (summary_statistics_counts (RT := Reference.runtime) Samples.sum_left
              Samples.recommended) as (summary & Hrun & _).
  - discriminate.
  - repeat constructor; eexists; reflexivity.
  - exists summary. split; [exact Hrun|].
    vm_compute in Hrun. injection Hrun as <-. reflexivity.
Defined.

Lemma summary_statistics_top_category_sample :
  exists summary,
    get_summary_statistics Samples.sum_left (RT := Reference.runtime) Samples.recommended
    = inr (Some summary)
    /\ top_category summary = "Beach".
Proof.
  destruct (summary_statistics_top_category (RT := Reference.runtime) Samples.sum_left
              Samples.recommended) as (summary & Hrun & _).
  - discriminate.
  - repeat constructor; eexists; reflexivity.
  - exists summary. split; [exact Hrun|].
    vm_compute in Hrun. injection Hrun as <-. reflexivity.
Defined.

End ServiceCases.

(** ** The files of a model *)

Section ModelFiles.
Import Py Pandas Joblib.
Context `{RT : Runtime} `{SK : Sklearn}.

(** A successful [save] of a ranking model leaves the three attributes in
    the three files. *)
Lemma ranking_save_true_files (self : MLRankingModel.t) (model_name : string)
    (fs fs' : FileSystem) :
  MLRankingModel.save self model_name fs = (inr true, fs') ->
  MLRankingModel.is_trained self = true
  /\ files fs' !! artifact model_name ".joblib" = Some (MLRankingModel.model self)
  /\ files fs' !! artifact model_name "_scaler.joblib" = Some (MLRankingModel.scaler self)
  /\ files fs' !! artifact model_name "_features.joblib"
     = Some (MLRankingModel.feature_names self).
Proof.
  unfold MLRankingModel.save. destruct (MLRankingModel.is_trained self); [|discriminate]. cbn [negb].
  destruct (dump (MLRankingModel.model self) _ fs) as [[e1|[]] fs1] eqn:D1; [discriminate|].
  destruct (dump (MLRankingModel.scaler self) _ fs1) as [[e2|[]] fs2] eqn:D2;
    [discriminate|].
  destruct (dump (MLRankingModel.feature_names self) _ fs2) as [[e3|[]] fs3] eqn:D3;
    [discriminate|].
  apply dump_inv in D1 as [F1 _], D2 as [F2 _], D3 as [F3 _].
  destruct (_ && _); intros Hs; [|discriminate]. injection Hs as <-.
  assert (H12 : artifact model_name ".joblib" <> artifact model_name "_scaler.joblib")
    by (apply artifact_suffix_ne; cbn; lia).
  assert (H13 : artifact model_name ".joblib" <> artifact model_name "_features.joblib")
    by (apply artifact_suffix_ne; cbn; lia).
  assert (H23 : artifact model_name "_scaler.joblib"
                <> artifact model_name "_features.joblib")
    by (apply artifact_suffix_ne; cbn; lia).
  rewrite F3, F2, F1. split; [reflexivity|]. repeat split.
  - rewrite lookup_insert_ne by congruence.
    rewrite lookup_insert_ne by congruence. apply lookup_insert_eq.
  - rewrite lookup_insert_ne by congruence. apply lookup_insert_eq.
  - apply lookup_insert_eq.
Qed.

(** X13. After a [save] of a ranking model that returned [True], [load] of
    the same name on any model object gives it the regressor, the scaler and
    the feature names of the saved model and marks it trained: the loaded
    object is the saved one, and predicts as it does. *)
Theorem ranking_save_load_round_trip (self other : MLRankingModel.t)
    (model_name : string) (fs fs' : FileSystem) :
  MLRankingModel.save self model_name fs = (inr true, fs') ->
  MLRankingModel.load other model_name fs' = (inr tt, self)
  /\ forall X, MLRankingModel.predict (MLRankingModel.load other model_name fs').2 X
               = MLRankingModel.predict self X.
Proof.
  intros Hsave.
  destruct (ranking_save_true_files _ _ _ _ Hsave) as (Htrained & Hm & Hs & Hf).
  assert (Hload : MLRankingModel.load other model_name fs' = (inr tt, self)).
  { unfold MLRankingModel.load, exists_, Joblib.load. rewrite Hm, Hs, Hf.
    rewrite bool_decide_eq_true_2 by eauto. cbn.
    destruct self as [m s f tr]. cbn in *. now subst tr. }
  split; [exact Hload|]. intros X. now rewrite Hload.
Qed.


(** The files after a successful [save] to an empty disk. *)
Lemma budget_save_files (self : MLBudgetModel.t) (model_name : string)
    (fs fs' : FileSystem) (path : string) :
  files fs = ∅ ->
  MLBudgetModel.save self model_name fs = (inr true, fs') ->
  is_Some (files fs' !! path) ->
  path ∈ [artifact model_name ".joblib"; artifact model_name "_scaler.joblib";
          artifact model_name "_features.joblib"].
Proof.
  intros Hempty. unfold MLBudgetModel.save.
  destruct (negb (MLBudgetModel.is_trained self)); [discriminate|].
  destruct (dump (MLBudgetModel.model self) _ fs) as [[e1|[]] fs1] eqn:D1; [discriminate|].
  destruct (dump (MLBudgetModel.scaler self) _ fs1) as [[e2|[]] fs2] eqn:D2;
    [discriminate|].
  destruct (dump (MLBudgetModel.feature_names self) _ fs2) as [[e3|[]] fs3] eqn:D3;
    [discriminate|].
  apply dump_inv in D1 as [F1 _], D2 as [F2 _], D3 as [F3 _].
  destruct (_ && _); intros Hs; [|discriminate]. injection Hs as <-.
  rewrite F3, F2, F1, Hempty. intros [v Hv].
  apply lookup_insert_Some in Hv as [[<- _]|[_ Hv]]; [in_list|].
  apply lookup_insert_Some in Hv as [[<- _]|[_ Hv]]; [in_list|].
  apply lookup_insert_Some in Hv as [[<- _]|[_ Hv]]; [in_list|].
  now rewrite lookup_empty in Hv.
Qed.

Lemma artifact_length (model_name suffix : string) :
  String.length (artifact model_name suffix)
  = (15 + String.length model_name + String.length suffix)%nat.
Proof. unfold artifact. rewrite !string_length_app. reflexivity. Qed.

(** X15. The constructor of the budget model does not load what [save]
    wrote: after a [save] to an empty disk under a plain file name (one
    without a directory part), the constructor given the path of any of the
    three written files raises [FileNotFoundError], for it hands the path to
    [load] as a model name, which looks for it under [trained_models/] with
    [.joblib] appended. *)
Theorem budget_init_does_not_load_saved (self : MLBudgetModel.t) (model_name : string)
    (fs fs' : FileSystem) :
  PyStr.contains "/" model_name = false ->
  files fs = ∅ ->
  MLBudgetModel.save self model_name fs = (inr true, fs') ->
  forall suffix, suffix ∈ [".joblib"; "_scaler.joblib"; "_features.joblib"] ->
    MLBudgetModel.__init__ (Some (artifact model_name suffix)) fs'
    = inl (FileNotFoundError (artifact (artifact model_name suffix) ".joblib")).
Proof.
  intros _ Hempty Hsave.
  destruct (save_true_files _ _ _ _ Hsave) as (Hm & Hs & Hf).
  assert (Hnot : forall path,
            (forall suffix, suffix ∈ [".joblib"; "_scaler.joblib"; "_features.joblib"] ->
               String.length path <> String.length (artifact model_name suffix)) ->
            exists_ fs' path = false).
  { intros path Hlen. unfold exists_. apply bool_decide_eq_false. intros Hsome.
    pose proof (budget_save_files _ _ _ _ path Hempty Hsave Hsome) as Hin.
    repeat (apply elem_of_cons in Hin as [->|Hin];
            [eapply Hlen; [|reflexivity]; in_list|]).
    now apply elem_of_nil in Hin. }
  intros suffix Hsfx. unfold MLBudgetModel.__init__.
  assert (Hex : exists_ fs' (artifact model_name suffix) = true).
  { unfold exists_. apply bool_decide_eq_true.
    repeat (apply elem_of_cons in Hsfx as [->|Hsfx]; [eauto|]).
    now apply elem_of_nil in Hsfx. }
  rewrite Hex. cbn [PyStr.truthy artifact append andb].
  unfold MLBudgetModel.load, MLBudgetModel.load_from.
  rewrite Hnot; [reflexivity|].
  intros sfx' Hsfx'. rewrite !artifact_length.
  repeat (apply elem_of_cons in Hsfx as [->|Hsfx];
          [repeat (apply elem_of_cons in Hsfx' as [->|Hsfx']; [cbn; lia|]);
           now apply elem_of_nil in Hsfx'|]).
  now apply elem_of_nil in Hsfx.
Qed.

(** X16. A [load] that fails leaves the trained flag and the feature names
    as they were, but not always the model: the regressor and the scaler
    read before the failure stay assigned.  It raises [FileNotFoundError]
    when the model file does not exist, and then assigns nothing; otherwise
    it raises again, as it is, the exception of the [joblib.load] that
    failed on one of the three files, whatever that exception is. *)
Theorem budget_load_failure (path_exists : string -> bool)
    (joblib_load : string -> result pyobj)
    (self self' : MLBudgetModel.t) (model_name : string) (e : exn) :
  MLBudgetModel.load_from path_exists joblib_load self model_name = (inl e, self') ->
  MLBudgetModel.is_trained self' = MLBudgetModel.is_trained self
  /\ MLBudgetModel.feature_names self' = MLBudgetModel.feature_names self
  /\ (path_exists (artifact model_name ".joblib") = false
      /\ e = FileNotFoundError (artifact model_name ".joblib")
      /\ self' = self
      \/ path_exists (artifact model_name ".joblib") = true
         /\ exists suffix, suffix ∈ [".joblib"; "_scaler.joblib"; "_features.joblib"]
              /\ joblib_load (artifact model_name suffix) = inl e)
  /\ (MLBudgetModel.model self' = MLBudgetModel.model self
      \/ joblib_load (artifact model_name ".joblib") = inr (MLBudgetModel.model self'))
  /\ (MLBudgetModel.scaler self' = MLBudgetModel.scaler self
      \/ joblib_load (artifact model_name "_scaler.joblib")
         = inr (MLBudgetModel.scaler self')).
Proof.
  unfold MLBudgetModel.load_from.
  destruct (path_exists (artifact model_name ".joblib")) eqn:Ex; cbn [negb].
  2:{ intros [= <- <-]. repeat split; auto. }
  destruct (joblib_load (artifact model_name ".joblib")) as [em|m] eqn:Em.
  { intros [= <- <-]. repeat split; auto. right. split; [reflexivity|].
    exists ".joblib". split; [in_list | exact Em]. }
  destruct (joblib_load (artifact model_name "_scaler.joblib")) as [es|s] eqn:Es.
  { intros [= <- <-]. cbn. repeat split; auto. right. split; [reflexivity|].
    exists "_scaler.joblib". split; [in_list | exact Es]. }
  destruct (joblib_load (artifact model_name "_features.joblib")) as [ef|f] eqn:Ef;
    [|discriminate].
  intros [= <- <-]. cbn. repeat split; auto. right. split; [reflexivity|].
  exists "_features.joblib". split; [in_list | exact Ef].
Qed.

End ModelFiles.

(** ** What a prediction reads *)

Section PredictReads.
Import Py Pandas Joblib.
Context `{RT : Runtime} `{SK : Sklearn}.

Lemma mapM_Forall2_ext {A A' B} (f : A -> result B) (g : A' -> result B)
    (l : list A) (l' : list A') :
  Forall2 (fun x y => f x = g y) l l' -> mapM f l = mapM g l'.
Proof.
  induction 1 as [|x y l l' Hxy _ IH]; [reflexivity|]. cbn. now rewrite Hxy, IH.
Qed.

Lemma select_agree (names : list string) (X X' : DataFrame) :
  agree_on names X X' ->
  (exists e, select X names = inl e /\ select X' names = inl e)
  \/ (exists sel sel', select X names = inr sel /\ select X' names = inr sel'
         /\ to_matrix sel = to_matrix sel').
Proof.
  intros [Hcols Hrows]. unfold select.
  assert (Hf : List.filter (fun c => negb (has_column c X)) names
               = List.filter (fun c => negb (has_column c X')) names).
  { apply List.filter_ext_in. intros c Hc. apply list_elem_of_In in Hc. f_equal.
    unfold has_column. apply bool_decide_ext. now apply Hcols. }
  rewrite <- Hf.
  destruct (List.filter (fun c => negb (has_column c X)) names); [|left; eauto].
  right. eexists _, _. split; [reflexivity|]. split; [reflexivity|].
  unfold to_matrix. cbn [columns rows].
  rewrite !mapM_compose. apply mapM_Forall2_ext.
  eapply Forall2_impl; [exact Hrows|]. intros r r' Hr. cbn beta.
  apply mapM_ext. intros c Hc.
  rewrite !at_column_filter by exact Hc. f_equal. now apply Hr.
Qed.

(** X17. [predict] reads the stored feature columns only: on two frames that
    agree on these columns it returns the same predictions or raises the
    same exception, whatever their other columns, the order of their
    columns and their index; for the budget model and the ranking model. *)
Theorem predict_reads_features_only (names : list string) (X X' : DataFrame) :
  agree_on names X X' ->
  (forall self : MLBudgetModel.t,
     MLBudgetModel.feature_names self = PyStrList names ->
     MLBudgetModel.predict self X = MLBudgetModel.predict self X')
  /\ (forall self : MLRankingModel.t,
        MLRankingModel.feature_names self = PyStrList names ->
        MLRankingModel.predict self X = MLRankingModel.predict self X').
Proof.
  intros Hagree.
  destruct (select_agree names X X' Hagree)
    as [(e & Hx & Hx')|(sel & sel' & Hx & Hx' & Hm)]; split.
  - intros self Hnames. unfold MLBudgetModel.predict. now rewrite Hnames, Hx, Hx'.
  - intros self Hnames. unfold MLRankingModel.predict. now rewrite Hnames, Hx, Hx'.
  - intros self Hnames. unfold MLBudgetModel.predict. rewrite Hnames, Hx, Hx'.
    cbn [bind]. now rewrite Hm.
  - intros self Hnames. unfold MLRankingModel.predict. rewrite Hnames, Hx, Hx'.
    cbn [bind]. now rewrite Hm.
Qed.

End PredictReads.

Section ModelFilesCases.
Import Py Pandas Joblib.

(** The round trip of the sample ranking model through an empty disk. *)
Lemma ranking_save_load_round_trip_sample :
  (MLRankingModel.save (SK := Reference.sklearn) Samples.ranker "ranking_model"
     Samples.empty_disk).1 = inr true
  /\ MLRankingModel.load (SK := Reference.sklearn) MLRankingModel.init "ranking_model"
       (MLRankingModel.save (SK := Reference.sklearn) Samples.ranker "ranking_model"
          Samples.empty_disk).2
     = (inr tt, Samples.ranker).
Proof.
  split; [vm_compute; reflexivity|].
  apply (ranking_save_load_round_trip (SK := Reference.sklearn) Samples.ranker
           MLRankingModel.init "ranking_model" Samples.empty_disk).
  apply injective_projections; [vm_compute; reflexivity | reflexivity].
Defined.

(** The constructor of the budget model on the disk that [save] wrote. *)
Lemma budget_init_does_not_load_saved_sample :
  MLBudgetModel.__init__ (Some "trained_models/budget_model.joblib")
    (MLBudgetModel.save Samples.budget_model "budget_model" Samples.empty_disk).2
  = inl (FileNotFoundError "trained_models/trained_models/budget_model.joblib.joblib").
Proof.
  apply (budget_init_does_not_load_saved Samples.budget_model "budget_model"
           Samples.empty_disk
           (MLBudgetModel.save Samples.budget_model "budget_model" Samples.empty_disk).2
           eq_refl eq_refl).
  - apply injective_projections; [vm_compute; reflexivity | reflexivity].
  - in_list.
Defined.

(** A scaler file that cannot be read: the load fails with the exception of
    the read, the model stays trained and holds the regressor just read. *)
Lemma budget_load_failure_sample :
  let loaded := MLBudgetModel.load_from (fun _ => true) Samples.unreadable_scaler
                  Samples.budget_model "budget_model" in
  loaded.1 = inl (OSError "trained_models/budget_model_scaler.joblib")
  /\ MLBudgetModel.is_trained loaded.2 = true
  /\ MLBudgetModel.scaler loaded.2 = MLBudgetModel.scaler Samples.budget_model
  /\ MLBudgetModel.model loaded.2
     = Joblib.PyRegressor (SK := Reference.sklearn) [200]%float.
Proof.
  cbn zeta.
  set (loaded := MLBudgetModel.load_from (fun _ => true) Samples.unreadable_scaler
                   Samples.budget_model "budget_model").
  assert (E : loaded.1 = inl (OSError "trained_models/budget_model_scaler.joblib"))
    by reflexivity.
  destruct (budget_load_failure (fun _ => true) Samples.unreadable_scaler
              Samples.budget_model loaded.2 "budget_model"
              (OSError "trained_models/budget_model_scaler.joblib"))
    as (Ht & _ & _ & _ & [Hs|Hs]).
  - apply injective_projections; [exact E | reflexivity].
  - split; [exact E|]. split; [exact Ht|]. split; [exact Hs | reflexivity].
  - discriminate Hs.
Defined.

(** The sample budget model predicts the same for a trip and for the trip
    with another column, its columns swapped and another index label. *)
Lemma predict_reads_features_only_sample :
  MLBudgetModel.predict Samples.budget_model Samples.shuffled_trip
  = MLBudgetModel.predict Samples.budget_model Samples.plain_trip.
Proof.
  apply (predict_reads_features_only (SK := Reference.sklearn)
           ["num_days"; "num_people"] Samples.shuffled_trip Samples.plain_trip);
    [|reflexivity].
  split.
  - intros c Hc. repeat (apply elem_of_cons in Hc as [->|Hc]; [split; intros _; in_list|]).
    now apply elem_of_nil in Hc.
  - repeat constructor. intros c Hc.
    repeat (apply elem_of_cons in Hc as [->|Hc]; [reflexivity|]).
    now apply elem_of_nil in Hc.
Defined.

End ModelFilesCases.

(** ** The routes *)

Section NotBelowZero.
Import PyFloat.

Lemma ltb_zero (x : float) :
  (x <? 0)%float
  = match Prim2SF x with
    | S754_infinity true | S754_finite true _ _ => true
    | _ => false
    end.
Proof.
  rewrite ltb_spec. change (Prim2SF 0) with (S754_zero false).
  destruct (Prim2SF x) as [[]|[]| |[] m e]; reflexivity.
Qed.

Lemma nonneg_not_below (x : float) : nonneg x -> (x <? 0)%float = false.
Proof.
  unfold nonneg. rewrite ltb_zero.
  destruct (Prim2SF x) as [[]|[]| |[] m e]; intros H; try contradiction; reflexivity.
Qed.

(** [abs(x) if x < 0 else x] is not below 0. *)
Lemma abs_not_below (x : float) :
  ((if (x <? 0)%float then PrimFloat.abs x else x) <? 0)%float = false.
Proof.
  destruct (x <? 0)%float eqn:E; [|exact E].
  rewrite ltb_zero in *. rewrite abs_spec.
  destruct (Prim2SF x) as [[]|[]| |[] m e]; try discriminate; reflexivity.
Qed.

Lemma mul_not_below (x c : float) :
  (x <? 0)%float = false -> positive_finite c -> (x * c <? 0)%float = false.
Proof.
  intros Hx Hc. rewrite ltb_zero in Hx.
  destruct (Prim2SF x) as [s|s| |s m e] eqn:Ex.
  - rewrite ltb_zero, FloatAxioms.mul_spec, Ex. unfold positive_finite in Hc.
    destruct (Prim2SF c) as [sc|sc| |[] mc ec]; try contradiction.
    destruct s; reflexivity.
  - destruct s; [discriminate|]. apply nonneg_not_below, FloatSign.nonneg_mul_r; [exact Hc|].
    unfold nonneg. now rewrite Ex.
  - rewrite ltb_zero, FloatAxioms.mul_spec, Ex. reflexivity.
  - destruct s; [discriminate|]. apply nonneg_not_below, FloatSign.nonneg_mul_r; [exact Hc|].
    unfold nonneg. now rewrite Ex.
Qed.

Lemma div_not_below (x y : float) :
  (x <? 0)%float = false -> nonneg y -> (x / y <? 0)%float = false.
Proof.
  intros Hx Hy. rewrite ltb_zero in Hx.
  destruct (Prim2SF x) as [s|s| |s m e] eqn:Ex.
  - rewrite ltb_zero, FloatAxioms.div_spec, Ex. unfold nonneg in Hy.
    destruct (Prim2SF y) as [[]|[]| |[] my ey]; try contradiction; destruct s; reflexivity.
  - destruct s; [discriminate|].
    rewrite ltb_zero, FloatAxioms.div_spec, Ex. unfold nonneg in Hy.
    destruct (Prim2SF y) as [[]|[]| |[] my ey]; try contradiction; reflexivity.
  - rewrite ltb_zero, FloatAxioms.div_spec, Ex. reflexivity.
  - destruct s; [discriminate|].
    assert (Hpos : positive_finite x) by (unfold positive_finite; now rewrite Ex).
    apply nonneg_not_below, FloatSign.nonneg_div; assumption.
Qed.

End NotBelowZero.

Section BudgetRoutes.
Import Py Pandas Joblib Routes.
Context `{SK : Sklearn}.
Variable py_str : error -> string.

Ltac range_tests :=
  repeat match goal with
         | |- context [(?a <? ?b)%Z] => destruct (Z.ltb_spec a b)
         | |- context [(?a <=? ?b)%Z] => destruct (Z.leb_spec a b)
         end;
  cbn [orb].

Lemma predicted_budget_not_below (num_days num_people accommodation_level : Z)
    (fs : FileSystem) (budget : float) :
  predicted_budget num_days num_people accommodation_level fs = inr budget ->
  (budget <? 0)%float = false.
Proof.
  unfold predicted_budget. cbn [MLBudgetModel.__init__ bind ret].
  destruct (MLBudgetModel.load _ _ fs) as [[e|u] model]; [discriminate|].
  destruct (MLBudgetModel.predict_trip_budget model _) as [e|p]; [discriminate|].
  cbn [bind ret]. intros [= <-]. apply abs_not_below.
Qed.

Lemma positive_finite_035 : PyFloat.positive_finite 0.35.
Proof. exact I. Qed.
Lemma positive_finite_030 : PyFloat.positive_finite 0.30.
Proof. exact I. Qed.
Lemma positive_finite_020 : PyFloat.positive_finite 0.20.
Proof. exact I. Qed.
Lemma positive_finite_015 : PyFloat.positive_finite 0.15.
Proof. exact I. Qed.

(** The parts of a breakdown are not below 0 when the budget is not. *)
Lemma breakdown_not_below (budget : float) :
  (budget <? 0)%float = false ->
  exists parts, breakdown budget = Object parts
    /\ forall key, key ∈ ["accommodation"; "food"; "activities"; "transport"] ->
         exists x, member key parts = Some (Num x) /\ (x <? 0)%float = false.
Proof.
  intros Hb. eexists. split; [reflexivity|]. intros key Hkey.
  repeat (apply elem_of_cons in Hkey as [->|Hkey];
          [eexists; split; [reflexivity|];
           apply mul_not_below;
           [exact Hb
           | first [exact positive_finite_035 | exact positive_finite_030
                   | exact positive_finite_020 | exact positive_finite_015]]|]).
  now apply elem_of_nil in Hkey.
Qed.

(** X18. The budget routes answer 400 exactly when a field of the request
    is out of range (days 1..365, people 1..50, accommodation level 1..5),
    whatever the model files are; a request in range gets a response, or
    500 with the exception of the model in its detail. *)
Theorem budget_routes_bad_request (request : Budget.BudgetRequest) (fs : FileSystem) :
  let in_range :=
    1 <= Budget.num_days request <= 365 /\ 1 <= Budget.num_people request <= 50
    /\ 1 <= Budget.accommodation_level request <= 5 in
  let predicted := Budget.predict_budget py_str request fs in
  let estimated :=
    Budget.estimate_budget py_str (Budget.destination request) (Budget.num_days request)
      (Budget.num_people request) (Budget.accommodation_level request) fs in
  ((exists detail, predicted = inl (HTTPException 400 detail)) <-> ~ in_range)
  /\ ((exists detail, estimated = inl (HTTPException 400 detail)) <-> ~ in_range)
  /\ (in_range ->
      ((exists r, predicted = inr r)
       \/ exists e, predicted
                    = inl (HTTPException 500 ("Error predicting budget: " ++ py_str (Raised e))))
      /\ ((exists r, estimated = inr r)
          \/ exists e, estimated
                       = inl (HTTPException 500
                                ("Error estimating budget: " ++ py_str (Raised e))))).
Proof.
  cbn zeta. unfold Budget.predict_budget, Budget.estimate_budget.
  destruct request as [d nd np al ts]. cbn [Budget.num_days Budget.num_people
    Budget.accommodation_level Budget.destination Budget.travel_style].
  range_tests; cbn [except_http_exception];
    try (split; [split; [intros _; lia | intros _; eauto]|];
         split; [split; [intros _; lia | intros _; eauto]|]; intros ?; lia).
  destruct (predicted_budget nd np al fs) as [e|b]; cbn [except_http_exception].
  - split; [split; [intros [? [=]] | intros Hn; exfalso; apply Hn; lia]|].
    split; [split; [intros [? [=]] | intros Hn; exfalso; apply Hn; lia]|].
    intros _. split; right; eauto.
  - split; [split; [intros [? [=]] | intros Hn; exfalso; apply Hn; lia]|].
    split; [split; [intros [? [=]] | intros Hn; exfalso; apply Hn; lia]|].
    intros _. split; left; eauto.
Qed.

(** X19. No amount in a response of [predict_budget] is below 0: the
    predicted budget, its share per person and per day, and the four parts
    of the breakdown (each of them may still be NaN). *)
Theorem predict_budget_amounts (request : Budget.BudgetRequest) (fs : FileSystem)
    (r : response) :
  Budget.predict_budget py_str request fs = inr r ->
  (forall key, key ∈ ["predicted_budget"; "per_person"; "per_day"] ->
     exists x, member key r = Some (Value (Num x)) /\ (x <? 0)%float = false)
  /\ exists parts, member "breakdown" r = Some (Object parts)
       /\ forall key, key ∈ ["accommodation"; "food"; "activities"; "transport"] ->
            exists x, member key parts = Some (Num x) /\ (x <? 0)%float = false.
Proof.
  unfold Budget.predict_budget.
  destruct request as [d nd np al ts]. cbn [Budget.num_days Budget.num_people
    Budget.accommodation_level Budget.destination Budget.travel_style].
  range_tests; cbn [except_http_exception]; try discriminate.
  destruct (predicted_budget nd np al fs) as [e|b] eqn:Eb;
    cbn [except_http_exception]; [discriminate|].
  intros [= <-]. pose proof (predicted_budget_not_below _ _ _ _ _ Eb) as Hb.
  split.
  - intros key Hkey.
    apply elem_of_cons in Hkey as [->|Hkey]; [eexists; split; [reflexivity | exact Hb]|].
    apply elem_of_cons in Hkey as [->|Hkey];
      [eexists; split; [reflexivity|]; apply div_not_below;
       [exact Hb | apply FloatSign.nonneg_of_Z; lia]|].
    apply elem_of_cons in Hkey as [->|Hkey];
      [eexists; split; [reflexivity|]; apply div_not_below;
       [exact Hb | apply FloatSign.nonneg_of_Z; lia]|].
    now apply elem_of_nil in Hkey.
  - destruct (breakdown_not_below b Hb) as (parts & Hparts & Hall).
    exists parts. split; [|exact Hall]. cbn. now rewrite Hparts.
Qed.

(** X20. [estimate_trip] never answers 400: whatever it raises is a 500,
    and a number of days or of people out of range, for which it raises
    [HTTPException(400)], is answered with 500 and the text of that
    exception in the detail. *)
Theorem estimate_trip_never_400 (destination : string) (num_days num_people : Z)
    (budget_level : string) (fs : FileSystem) :
  let answer := Trip.estimate_trip py_str destination num_days num_people budget_level fs in
  (forall e, answer = inl e -> exists detail, e = HTTPException 500 detail)
  /\ (num_days < 1 \/ 365 < num_days ->
      answer = inl (HTTPException 500
                      ("Error estimating trip: "
                       ++ py_str (HTTPException 400 "num_days must be between 1 and 365"))))
  /\ (1 <= num_days <= 365 -> num_people < 1 \/ 50 < num_people ->
      answer = inl (HTTPException 500
                      ("Error estimating trip: "
                       ++ py_str (HTTPException 400 "num_people must be between 1 and 50")))).
Proof.
  cbn zeta. unfold Trip.estimate_trip.
  split; [|split].
  - intros e. destruct (if _ : bool then _ else _) as [e'|r]; cbn [except_exception];
      [intros [= <-]; eauto | discriminate].
  - intros Hd. range_tests; try lia; reflexivity.
  - intros Hd Hp. range_tests; try lia; reflexivity.
Qed.

Section PlanTrip.
Variable datetime : Type.
Variable fromisoformat : string -> result datetime.
Variable days_between : datetime -> datetime -> result Z.
Variable first_part : string -> string.
Variable itinerary : Trip.TripRequest -> Z -> string -> float -> outcome response.


End PlanTrip.

End BudgetRoutes.

(** ** The ranking for any model *)

Section RankingReturns.
Import Py Pandas Joblib MLRankingModel FloatOrder.
Context `{RT : Runtime} `{SK : Sklearn}.

(** The user features leave a well-formed frame well-formed when none of
    them names a column the ranking reads. *)
Lemma broadcast_well_formed (user_features : list (string * cell)) (df : DataFrame) :
  readable_places df ->
  (forall key, key ∈ keys user_features ->
     key ∉ ["rating"; "reviews_count"; "price_level"; "category"]) ->
  readable_places (broadcast user_features df).
Proof.
  intros [Hcols Hrows] Hkeys.
  destruct (broadcast_updates user_features df) as [U _].
  assert (Hfree : forall c, c ∈ ["rating"; "reviews_count"; "price_level"; "category"] ->
                            c ∉ keys user_features).
  { intros c Hc Hin. exact (Hkeys c Hin Hc). }
  split.
  - intros c Hc. apply (proj1 U), Hcols, Hc.
  - apply Forall_forall. intros r' Hr'.
    destruct (updates_row_of _ _ _ r' U Hr') as (r & Hr & _ & Hkeep).
    rewrite Forall_forall in Hrows. destruct (Hrows r Hr) as [Hn [s Hs]]. split.
    + intros c s' Hc. rewrite Hkeep; [now apply Hn|].
      apply Hfree. repeat (apply elem_of_cons in Hc as [->|Hc]; [in_list|]).
      now apply elem_of_nil in Hc.
    + exists s. rewrite Hkeep; [exact Hs | apply Hfree; in_list].
Qed.

Lemma map_Num_Forall {A} (f : A -> cell) (l : list A) (xs : list float) :
  map f l = map Num xs -> Forall (fun r => exists x, f r = Num x) l.
Proof.
  revert xs. induction l as [|a l IH]; intros [|x xs] H; try discriminate; constructor.
  - injection H as Ha _. eauto.
  - injection H as _ Hl. eauto.
Qed.

(** The results of a frame with a column of scores. *)
Lemma top_results_ok (c : string) (df : DataFrame) (scores : list float) (top_k : Z) :
  c ∈ columns df -> map (at_column c) (rows df) = map Num scores -> 0 <= top_k ->
  exists results, top_results c df top_k = inr results
    /\ Z.of_nat (length results) = Z.min top_k (Z.of_nat (nrows df)).
Proof.
  intros Hc Hv Hk. unfold top_results.
  destruct (sort_values_desc_ok df c scores) as (sorted & -> & Hcs & Hperm).
  { now apply numeric_of_floats. }
  cbn [bind]. destruct (head_rows sorted top_k Hk) as [Hhc Hhr].
  rewrite materialize_ok.
  2:{ apply Forall_forall. intros r Hr. rewrite Hhr in Hr.
      apply subseteq_take in Hr. rewrite Hperm in Hr.
      pose proof (map_Num_Forall _ _ _ Hv) as Hall. rewrite Forall_forall in Hall.
      now apply Hall. }
  eexists. split; [reflexivity|].
  unfold nrows. rewrite length_map, Hhr, length_take, Hperm. lia.
Qed.

(** [rank_places] returns for every model. *)
Lemma rank_places_returns (self : t) (places_df : loc) (df : DataFrame)
    (user_features : list (string * cell)) (top_k : Z) (h : store) :
  h !! places_df = Some df ->
  readable_places df ->
  readable_user user_features ->
  (forall key, key ∈ keys user_features ->
     key ∉ ["rating"; "reviews_count"; "price_level"; "category"]) ->
  0 <= top_k ->
  exists results,
    (rank_places self places_df user_features top_k h).1 = inr results
    /\ Z.of_nat (length results) = Z.min top_k (Z.of_nat (nrows df)).
Proof.
  intros Hh Hwf Hu Hkeys Hk.
  destruct (is_trained self) eqn:Htrained.
  2:{ unfold rank_places. rewrite Htrained. cbn [negb].
      destruct (fallback_ranking_ok places_df df user_features top_k h Hh Hwf Hu Hk)
        as (results & Hrun & Hlen & _). eauto. }
  rewrite (rank_places_trained_run _ _ _ _ _ _ Htrained Hh). cbn zeta.
  destruct (broadcast_updates user_features df) as [U _].
  pose proof (broadcast_well_formed _ _ Hwf Hkeys) as HwfB.
  set (B := broadcast user_features df) in *.
  destruct (predict self B) as [e|scores]; cbn [bind].
  - destruct (fallback_ranking_ok places_df B user_features top_k
                (<[places_df := B]> h) (lookup_insert_eq _ _ _) HwfB Hu Hk)
      as (results & Hrun & Hlen & _).
    exists results. split; [exact Hrun|]. now rewrite Hlen, (updates_nrows _ _ _ U).
  - destruct (setitem B "ml_score" (map Num scores)) as [e|df'] eqn:Hset.
    + destruct (fallback_ranking_ok places_df B user_features top_k
                  (<[places_df := B]> h) (lookup_insert_eq _ _ _) HwfB Hu Hk)
        as (results & Hrun & Hlen & _).
      exists results. split; [exact Hrun|]. now rewrite Hlen, (updates_nrows _ _ _ U).
    + assert (Hlen : length (map Num scores) = nrows B).
      { unfold setitem in Hset.
        destruct (length (map Num scores) =? nrows B)%nat eqn:E; [|discriminate].
        now apply Nat.eqb_eq. }
      destruct (setitem_ok B "ml_score" (map Num scores) Hlen)
        as (df'' & Hset' & U' & Hc & Hv).
      rewrite Hset in Hset'. injection Hset' as <-. cbn [fst].
      destruct (top_results_ok "ml_score" df' scores top_k Hc Hv Hk)
        as (results & Hrun & Hl).
      exists results. split; [exact Hrun|].
      now rewrite Hl, (updates_nrows _ _ _ U'), (updates_nrows _ _ _ U).
Qed.

(** The results are those of a frame sorted by a score column. *)
Lemma rank_places_top_results (self : t) (places_df : loc)
    (user_features : list (string * cell)) (top_k : Z) (h : store)
    (results : list RankedPlace) :
  (rank_places self places_df user_features top_k h).1 = inr results ->
  exists c df', top_results c df' top_k = inr results.
Proof.
  intros Hrun. unfold rank_places in Hrun. destruct (negb (is_trained self)).
  - destruct (fallback_ranking_results _ _ _ _ _ Hrun) as [df' H]. eauto.
  - unfold mbind at 1 in Hrun.
    destruct (modify places_df _ h) as [[e|[]] h1]; [discriminate|].
    unfold mbind at 1 in Hrun.
    destruct (attempt _ h1) as [[e|outcome] h2]; [discriminate|].
    destruct outcome as [e|[]].
    + destruct (fallback_ranking_results _ _ _ _ _ Hrun) as [df' H]. eauto.
    + unfold mbind, read, lift in Hrun.
      destruct (h2 !! places_df) as [df'|]; [|discriminate]. cbn [fst] in Hrun. eauto.
Qed.

(** X22. [rank_places] never raises on a well-formed frame, for any model:
    untrained, trained, or trained with a prediction that fails.  With
    well-formed user features (a numeric budget, plain interest keys) that
    name none of the columns [rating], [reviews_count], [price_level],
    [category], and a non-negative [top_k], it returns [min(top_k, number of
    places)] entries in descending order of score. *)
Theorem rank_places_never_raises (self : t) (places_df : loc) (df : DataFrame)
    (user_features : list (string * cell)) (top_k : Z) (h : store) :
  h !! places_df = Some df ->
  well_formed_places df ->
  well_formed_user user_features ->
  (forall key, key ∈ keys user_features ->
     key ∉ ["rating"; "reviews_count"; "price_level"; "category"]) ->
  0 <= top_k ->
  exists results,
    (rank_places self places_df user_features top_k h).1 = inr results
    /\ Z.of_nat (length results) = Z.min top_k (Z.of_nat (nrows df))
    /\ forall i j a b, (i < j)%nat -> results !! i = Some a -> results !! j = Some b ->
         PyFloat.descending (score a) (score b).
Proof.
  intros Hh Hwf Hu Hkeys Hk.
  destruct (rank_places_returns self places_df df user_features top_k h Hh
              (well_formed_places_readable _ Hwf) (well_formed_user_readable _ Hu)
              Hkeys Hk)
    as (results & Hrun & Hlen).
  exists results. split; [exact Hrun|]. split; [exact Hlen|].
  destruct (rank_places_top_results _ _ _ _ _ _ Hrun) as (c & df' & Htop).
  exact (top_results_sorted c df' top_k results Htop).
Qed.

End RankingReturns.

(** ** The recommendation route *)

Section RecommendRoute.
Import Py Pandas Joblib Routes.
Context `{RT : Runtime} `{SK : Sklearn}.
Variable py_str : error -> string.

Lemma dict_get_dict_set (d : list (string * cell)) (k : string) (v dflt : cell) :
  dict_get (dict_set d k v) k dflt = v.
Proof.
  induction d as [|[k' v'] d IH]; cbn.
  - now rewrite String.eqb_refl.
  - destruct (String.eqb k k') eqn:E; cbn; rewrite E; [reflexivity | exact IH].
Qed.

Lemma keys_dict_set (d : list (string * cell)) (k : string) (v : cell) (key : string) :
  key ∈ keys (dict_set d k v) -> key = k \/ key ∈ keys d.
Proof.
  unfold keys. induction d as [|[k' v'] d IH]; cbn.
  - intros H. apply elem_of_cons in H as [->|H]; [now left | now apply elem_of_nil in H].
  - destruct (String.eqb k k'); cbn; intros H.
    + now right.
    + apply elem_of_cons in H as [->|H]; [right; apply list_elem_of_here|].
      destruct (IH H) as [->|Hd]; [now left | right; now apply list_elem_of_further].
Qed.

Lemma keys_interest_flags (interests : list string) (d : list (string * cell))
    (key : string) :
  key ∈ keys (fold_left (fun user_features interest =>
                           dict_set user_features ("interest_" ++ interest)%string (Int 1))
                        interests d) ->
  key ∈ keys d \/ exists interest : string, key = ("interest_" ++ interest)%string.
Proof.
  revert d. induction interests as [|i l IH]; intros d; cbn [fold_left]; [now left|].
  intros H. destruct (IH _ H) as [Hd|Hi]; [|now right].
  apply keys_dict_set in Hd as [->|Hd]; [right; eauto | now left].
Qed.

(** The keys of the route's user features name no column of the places. *)
Lemma user_features_of_keys (interests : list string) (key : string) :
  key ∈ keys (Places.user_features_of interests) ->
  key ∉ ["rating"; "reviews_count"; "price_level"; "category"].
Proof.
  unfold Places.user_features_of. intros H.
  apply keys_dict_set in H as [->|H]; [not_in_list|].
  apply keys_interest_flags in H as [H|[i ->]]; [now apply elem_of_nil in H|].
  simpl. not_in_list.
Qed.

Lemma route_places_well_formed : MLRankingModel.readable_places Places.sample_places.
Proof. exact (well_formed_places_readable _ sample_places_well_formed). Qed.

(** X23. [recommend_places] answers 500 when the files of [ranking_model]
    do not load; when they load it returns, for every model in them, every
    list of interests and every [top_k]: the city, the interests (culture
    and food when none are given), and [min(5, max(1, top_k))] of the five
    sample places in descending order of score. *)
Theorem recommend_places_count (city : string) (interests : option (list string))
    (top_k : Z) (fs : FileSystem) :
  let answer := Places.recommend_places py_str city interests top_k fs in
  match (MLRankingModel.load MLRankingModel.init "ranking_model" fs).1 with
  | inl e => answer = inl (HTTPException 500 (py_str (Raised e)))
  | inr _ =>
      exists r, answer = inr r
        /\ Places.city r = city
        /\ Places.interests r
           = match interests with
             | None | Some [] => ["culture"; "food"]
             | Some given => given
             end
        /\ Places.recommendations_count r = length (Places.recommendations r)
        /\ Z.of_nat (Places.recommendations_count r) = Z.min 5 (Z.max 1 top_k)
        /\ forall i j a b, (i < j)%nat ->
             Places.recommendations r !! i = Some a ->
             Places.recommendations r !! j = Some b ->
             PyFloat.descending (MLRankingModel.score a) (MLRankingModel.score b)
  end.
Proof.
  cbn zeta. unfold Places.recommend_places.
  cbn [MLRankingModel.__init__ ret].
  destruct (MLRankingModel.load MLRankingModel.init "ranking_model" fs)
    as [[e|u] model]; cbn [fst except_exception]; [reflexivity|].
  set (given := match interests with
                | Some (interest :: others) => interest :: others
                | _ => ["culture"; "food"]
                end).
  set (k := if (if 20 <? top_k then 20 else top_k) <? 1 then 1
            else if 20 <? top_k then 20 else top_k).
  assert (Hk : k = Z.max 1 (Z.min top_k 20)).
  { subst k. destruct (Z.ltb_spec 20 top_k); [cbn; lia|].
    destruct (Z.ltb_spec top_k 1); lia. }
  destruct (rank_places_returns model 1%positive Places.sample_places
              (Places.user_features_of given) k
              {[ 1%positive := Places.sample_places ]})
    as (results & Hrun & Hlen).
  { apply lookup_singleton_eq. }
  { exact route_places_well_formed. }
  { intros s. unfold Places.user_features_of. rewrite dict_get_dict_set. discriminate. }
  { exact (user_features_of_keys given). }
  { lia. }
  rewrite Hrun. cbn [except_exception]. eexists. split; [reflexivity|].
  cbn [Places.city Places.interests Places.recommendations_count Places.recommendations].
  split; [reflexivity|]. split; [subst given; now destruct interests as [[|? ?]|]|].
  split; [reflexivity|]. split.
  - rewrite Hlen, Hk. change (Z.of_nat (nrows Places.sample_places)) with 5. lia.
  - destruct (rank_places_top_results _ _ _ _ _ _ Hrun) as (c & df' & Htop).
    exact (top_results_sorted c df' k results Htop).
Qed.

End RecommendRoute.

Section RouteCases.
Import Py Pandas Joblib Routes.

(** The response to a week for two on a disk that holds the sample model. *)
Lemma predict_budget_amounts_sample :
  exists r,
    Budget.predict_budget Samples.kind_of Samples.week_request Samples.model_disk = inr r
    /\ exists x, member "per_person" r = Some (Value (Num x)) /\ (x <? 0)%float = false.
Proof.
  destruct (Budget.predict_budget Samples.kind_of Samples.week_request
              Samples.model_disk) as [e|r] eqn:E.
  - exfalso.
    assert (H : match Budget.predict_budget Samples.kind_of Samples.week_request
                        Samples.model_disk with
                | inl _ => false
                | inr _ => true
                end = true) by (vm_compute; reflexivity).
    rewrite E in H. discriminate H.
  - exists r. split; [reflexivity|].
    destruct (predict_budget_amounts Samples.kind_of Samples.week_request
                Samples.model_disk r E) as [Hamounts _].
    apply Hamounts. in_list.
Defined.

(** The trained sample model on the places of the recommendation route. *)
Lemma rank_places_never_raises_sample :
  exists results,
    (MLRankingModel.rank_places (RT := Reference.runtime) Samples.ranker 1%positive
       Samples.sample_user 3 Samples.sample_store).1 = inr results
    /\ length results = 3%nat.
Proof.
  destruct (rank_places_never_raises (RT := Reference.runtime) Samples.ranker
              1%positive Samples.sample_places Samples.sample_user 3
              Samples.sample_store eq_refl sample_places_well_formed
              sample_user_well_formed)
    as (results & Hrun & Hlen & _).
  - intros key Hkey.
    repeat (apply elem_of_cons in Hkey as [->|Hkey]; [not_in_list|]).
    now apply elem_of_nil in Hkey.
  - lia.
  - exists results. split; [exact Hrun|]. apply Nat2Z.inj. rewrite Hlen. reflexivity.
Defined.

End RouteCases.

(** ** Requests to the Overpass API *)

Section EndpointRotation.
Import Py OverpassService.
Context {A : Type}.
Variable post : nat -> string -> reply A.

Lemma get_endpoint_cycle (current_endpoint : nat) :
  Permutation [_get_endpoint current_endpoint; _get_endpoint (1 + current_endpoint);
               _get_endpoint (2 + current_endpoint)] ENDPOINTS.
Proof.
  unfold _get_endpoint. change (length ENDPOINTS) with 3%nat.
  rewrite (Nat.div_mod_eq current_endpoint 3) at 1 2 3.
  set (q := (current_endpoint / 3)%nat).
  assert (Hr : (current_endpoint mod 3 < 3)%nat) by (apply Nat.mod_upper_bound; lia).
  set (r := (current_endpoint mod 3)%nat) in *.
  replace (1 + (3 * q + r))%nat with ((1 + r) + q * 3)%nat by lia.
  replace (2 + (3 * q + r))%nat with ((2 + r) + q * 3)%nat by lia.
  replace (3 * q + r)%nat with (r + q * 3)%nat by lia.
  rewrite !Nat.Div0.mod_add.
  destruct r as [|[|[|r]]]; [| | |lia]; cbn.
  - reflexivity.
  - change ENDPOINTS with ([nth 0 ENDPOINTS ""] ++ [nth 1 ENDPOINTS ""; nth 2 ENDPOINTS ""]).
    apply Permutation_app_comm with (l := [_; _]) (l' := [_]).
  - change ENDPOINTS with ([nth 0 ENDPOINTS ""; nth 1 ENDPOINTS ""] ++ [nth 2 ENDPOINTS ""]).
    apply Permutation_app_comm with (l := [_]) (l' := [_; _]).
Qed.

(** X24. [_make_request] asks the endpoints in cyclic order from the
    current one, each of the three once, and stops at the first that does
    not fail with a [RequestException]: it returns its JSON (or raises its
    exception) and keeps it as the current endpoint for the next call.  When
    all three fail it returns [None], and the current endpoint is the one
    asked last. *)
Theorem make_request_first_answer (current_endpoint : nat) :
  let asked i := post i (_get_endpoint (i + current_endpoint)) in
  let outcome (r : reply A) : result (option A) :=
    match r with
    | Json response => ret (Some response)
    | Raises e => raise e
    | RequestException => ret None
    end in
  Permutation (map (fun i => _get_endpoint (i + current_endpoint)) [0; 1; 2]%nat) ENDPOINTS
  /\ _make_request post current_endpoint
     = match asked 0%nat, asked 1%nat, asked 2%nat with
       | RequestException, RequestException, r => (outcome r, (2 + current_endpoint)%nat)
       | RequestException, r, _ => (outcome r, (1 + current_endpoint)%nat)
       | r, _, _ => (outcome r, current_endpoint)
       end.
Proof.
  cbn zeta. split; [exact (get_endpoint_cycle current_endpoint)|].
  unfold _make_request. change (length ENDPOINTS) with 3%nat.
  cbn [attempts Nat.ltb Nat.leb Nat.sub Nat.add]. unfold _rotate_endpoint.
  destruct (post 0%nat (_get_endpoint current_endpoint)); try reflexivity.
  destruct (post 1%nat (_get_endpoint (S current_endpoint))); try reflexivity.
  destruct (post 2%nat (_get_endpoint (S (S current_endpoint)))); reflexivity.
Qed.

End EndpointRotation.

(** ** The entry points of the recommender *)

Section RecommenderEntryPoints.
Import Py.
Variable Location Validation Recommendations : Type.
Variable validate : string -> option string -> option string -> result Validation.
Variable valid : Validation -> result bool.
Variable not_found : Validation -> result Location.
Variable found : string -> option string -> option string -> Validation -> result Location.
Variable recommendations_at : Location -> option (list string) -> Z -> result Recommendations.
Variable places_at : Location -> string -> Z -> result (list OSMRecommender.Place).
Variable recommendations_of : Recommendations -> list OSMRecommender.Place.

(** X25. A recommender whose location cache is empty, as after
    [OSMRecommender()], never returns a recommendation:
    [get_recommendations], [get_top_places] and [get_places_by_category]
    raise [AttributeError] for every location, because [resolve_location]
    calls [validate_location], a method [NominatimService] does not have;
    the cache stays empty, so every later call raises as well. *)
Theorem recommender_never_returns (country : string) (state city : option string)
    (interests : option (list string)) (category : string) (limit : Z) :
  let e := AttributeError "'NominatimService' object has no attribute 'validate_location'" in
  LocationResolver.resolve_location Location Validation validate valid not_found found
    ∅ country state city = (inl e, ∅)
  /\ OSMRecommender.get_recommendations Location Validation Recommendations validate valid not_found
       found recommendations_at ∅ country state city interests limit = (inl e, ∅)
  /\ OSMRecommender.get_top_places Location Validation Recommendations validate valid not_found found
       recommendations_at recommendations_of ∅ country state city interests = (inl e, ∅)
  /\ OSMRecommender.get_places_by_category Location Validation validate valid not_found found places_at
       ∅ country state city category limit = (inl e, ∅).
Proof.
  cbn zeta.
  assert (H : LocationResolver.resolve_location Location Validation validate valid
                not_found found ∅ country state city
              = (inl (AttributeError
                        "'NominatimService' object has no attribute 'validate_location'"),
                 ∅)).
  { unfold LocationResolver.resolve_location. rewrite lookup_empty. reflexivity. }
  unfold OSMRecommender.get_top_places, OSMRecommender.get_recommendations,
    OSMRecommender.get_places_by_category.
  rewrite H. repeat split.
Qed.

End RecommenderEntryPoints.

(** ** Interaction features *)

Section InteractionFeatures.
Import Py Pandas FeatureEngineer MLRankingModel.
Context `{RT : Runtime}.

(** An assignment: the new column holds the values, every other column
    holds what it held and is there exactly when it was. *)
Lemma setitem_assigns (df : DataFrame) (c : string) (values : list cell) :
  length values = nrows df ->
  exists df', setitem df c values = inr df'
    /\ nrows df' = nrows df
    /\ holds df' c values
    /\ (forall c' values', c' <> c -> holds df c' values' -> holds df' c' values')
    /\ (forall c', c' <> c -> c' ∈ columns df' -> c' ∈ columns df).
Proof.
  intros Hlen.
  destruct (setitem_holds df c values Hlen) as (df' & Hset & N & Hnew & K).
  exists df'. split; [exact Hset|]. split; [exact N|]. split; [exact Hnew|].
  split; [exact K|].
  intros c' Hne Hin. unfold setitem in Hset. rewrite Hlen, Nat.eqb_refl in Hset.
  injection Hset as <-. cbn [columns] in Hin.
  apply elem_of_with_column in Hin as [->|Hin]; [contradiction | exact Hin].
Qed.

Lemma setitem_scalar_assigns (df : DataFrame) (c : string) (v : cell) :
  nrows (setitem_scalar df c v) = nrows df
  /\ holds (setitem_scalar df c v) c (map (fun _ => v) (rows df))
  /\ (forall c' values', c' <> c -> holds df c' values' ->
        holds (setitem_scalar df c v) c' values')
  /\ (forall c', c' <> c -> c' ∈ columns (setitem_scalar df c v) -> c' ∈ columns df).
Proof.
  unfold setitem_scalar, nrows, holds. cbn [columns rows].
  split; [now rewrite length_map|]. split; [split|]; [| |split].
  - apply elem_of_with_column. now left.
  - rewrite map_map. apply map_ext. intros [i m]. apply at_column_insert_eq.
  - intros c' values' Hne [Hin <-]. split.
    + apply elem_of_with_column. now right.
    + rewrite map_map. apply map_ext. intros [i m].
      apply at_column_insert_ne. congruence.
  - intros c' Hne Hin. apply elem_of_with_column in Hin as [->|Hin];
      [contradiction | exact Hin].
Qed.

Ltac assigns d' N K C :=
  match goal with
  | |- context [setitem ?d ?c ?vs] =>
      let H := fresh "Hnew" in
      destruct (setitem_assigns d c vs) as (d' & -> & N & H & K & C);
      [ rewrite ?length_map; unfold nrows in *; congruence | cbn [bind] ]
  end.

Ltac carry K :=
  repeat match goal with
  | H : holds _ ?c ?vs |- _ => apply (K c vs) in H; [|discriminate]
  end.

(** The assignments up to the compatibility score, on a frame whose prices
    are numbers and whose categories are strings. *)
Lemma interaction_features_run (df : DataFrame) (user_features : list (string * cell))
    (budget : Z) (pace : cell) (price_level : list cell) (prices : list float)
    (categories : list string) :
  dict_item user_features "budget_encoded" = inr (Int budget) ->
  dict_item user_features "travel_pace" = inr pace ->
  holds df "price_level" price_level ->
  mapM to_float price_level = inr prices ->
  holds df "category" (map Str categories) ->
  length prices = nrows df -> length categories = nrows df ->
  let budget_match := map (fun p => (1 - PrimFloat.abs (p - PyFloat.of_Z budget) / 4.0)%float)
                          prices in
  let interest_match := map (interest_match_of (interests_of user_features)) categories in
  exists df',
    nrows df' = nrows df
    /\ holds df' "budget_match" (map Num budget_match)
    /\ holds df' "interest_match" (map Num interest_match)
    /\ holds df' "pace_match" (map (fun c => pace_match_of pace (Str c)) categories)
    /\ (forall c values,
          c ∉ ["budget_match"; "interest_match"; "pace_match"] ->
          holds df c values -> holds df' c values)
    /\ (forall c, c ∉ ["budget_match"; "interest_match"; "pace_match"] ->
          c ∈ columns df' -> c ∈ columns df)
    /\ create_interaction_features df user_features
       = let* quality_score := numeric df' "quality_score" in
         setitem df' "compatibility_score"
           (map (fun '(b, i, q) => Num (b * 0.3 + i * 0.4 + q * 0.3)%float)
                (zip (zip budget_match interest_match) quality_score)).
Proof.
  intros Hbudget Hpace Hprice Hprices Hcat Lp Lc. cbn zeta.
  unfold create_interaction_features. rewrite Hbudget. cbn [bind].
  rewrite (numeric_holds _ _ _ Hprice), Hprices. cbn [bind to_float ret].
  assigns df1 N1 K1 C1. carry K1.
  rewrite (getitem_holds _ _ _ Hcat). cbn [bind].
  rewrite mapM_compose.
  rewrite (mapM_map _ (interest_match_of (interests_of user_features)))
    by (intros c _; reflexivity).
  cbn [bind]. rewrite map_map.
  assigns df2 N2 K2 C2. carry K2.
  rewrite Hpace. cbn [bind].
  assert (Hpm : exists df3,
             (if equals pace 1
              then let* category := getitem df2 "category" in
                   setitem df2 "pace_match" (map (isin ["beach"; "park"; "spa"]) category)
              else if equals pace 3
                   then let* category := getitem df2 "category" in
                        setitem df2 "pace_match"
                          (map (isin ["attraction"; "museum"; "shopping"]) category)
                   else ret (setitem_scalar df2 "pace_match" (Num 0.5))) = inr df3
             /\ nrows df3 = nrows df2
             /\ holds df3 "pace_match" (map (fun c => pace_match_of pace (Str c)) categories)
             /\ (forall c' values', c' <> "pace_match" -> holds df2 c' values' ->
                   holds df3 c' values')
             /\ (forall c', c' <> "pace_match" -> c' ∈ columns df3 -> c' ∈ columns df2)).
  { unfold pace_match_of. destruct (equals pace 1); [|destruct (equals pace 3)].
    - rewrite (getitem_holds _ _ _ Hcat). cbn [bind]. rewrite map_map.
      assigns df3 N3 K3 C3. exists df3. auto.
    - rewrite (getitem_holds _ _ _ Hcat). cbn [bind]. rewrite map_map.
      assigns df3 N3 K3 C3. exists df3. auto.
    - destruct (setitem_scalar_assigns df2 "pace_match" (Num 0.5)) as (N3 & H3 & K3 & C3).
      eexists. split; [reflexivity|]. split; [exact N3|]. split; [|auto].
      destruct H3 as [Hin Hv]. split; [exact Hin|]. rewrite Hv.
      destruct Hcat as [_ Hc]. apply (f_equal (@length _)) in Hc.
      rewrite !length_map in Hc. clear -Hc.
      revert categories Hc. induction (rows df2) as [|r l IH]; intros [|c cs] Hc;
        try discriminate; cbn; [reflexivity|]. f_equal. apply IH. now injection Hc. }
  destruct Hpm as (df3 & -> & N3 & Hpm & K3 & C3). cbn [bind]. carry K3.
  exists df3. split; [congruence|].
  repeat match goal with
         | H : holds df3 ?c _ |- _ =>
             lazymatch c with
             | "budget_match" => rewrite (numeric_holds _ _ _ H), mapM_to_float_Num
             | _ => fail
             end
         end.
  cbn [bind].
  repeat match goal with
         | H : holds df3 ?c _ |- _ =>
             lazymatch c with
             | "interest_match" => rewrite (numeric_holds _ _ _ H), mapM_to_float_Num
             | _ => fail
             end
         end.
  cbn [bind]. rewrite ?map_id.
  repeat (split; [assumption|]).
  split; [|split; [|reflexivity]].
  - intros c values Hc Hh.
    apply K3; [intros ->; apply Hc; in_list|].
    apply K2; [intros ->; apply Hc; in_list|].
    apply K1; [intros ->; apply Hc; in_list|].
    exact Hh.
  - intros c Hc Hin.
    apply C1; [intros ->; apply Hc; in_list|].
    apply C2; [intros ->; apply Hc; in_list|].
    apply C3; [intros ->; apply Hc; in_list|].
    exact Hin.
Qed.

Lemma map_eq_Forall {A B} (f : A -> B) (P : B -> Prop) (l1 l2 : list A) :
  map f l1 = map f l2 -> Forall (fun x => P (f x)) l2 -> Forall (fun x => P (f x)) l1.
Proof.
  revert l2. induction l1 as [|a l1 IH]; intros [|b l2] Heq H; try discriminate;
    constructor.
  - injection Heq as -> _. now apply Forall_cons in H as [H _].
  - injection Heq as _ Heq. apply Forall_cons in H as [_ H]. eauto.
Qed.

(** The interaction features of a batch that can be read, in the terms of
    the code. *)
Lemma create_interaction_features_run (places_df : DataFrame)
    (user_prefs : UserPrefs) :
  readable_batch places_df ->
  Forall (fun r => (0 <? num "rating" r)%float = true
                   /\ (num "rating" r <=? 5)%float = true) (rows places_df) ->
  let user_features := create_user_features user_prefs in
  let budget := int_get budget_map (default "medium" (budget_level user_prefs)) 2 in
  let budget_match r :=
    (1 - PrimFloat.abs (num "price_level" r - PyFloat.of_Z budget) / 4.0)%float in
  let interest_match r :=
    interest_match_of (interests_of user_features) (category_of r) in
  (exists df1 df2 quality_score,
     create_place_features places_df = inr df1
     /\ create_interaction_features df1 user_features = inr df2
     /\ nrows df2 = nrows places_df
     /\ holds df1 "quality_score" (map (fun r => Num (quality_score r)) (rows places_df))
     /\ holds df2 "budget_match" (map (fun r => Num (budget_match r)) (rows places_df))
     /\ holds df2 "interest_match" (map (fun r => Num (interest_match r)) (rows places_df))
     /\ holds df2 "compatibility_score"
          (map (fun r => Num (budget_match r * 0.3 + interest_match r * 0.4
                              + quality_score r * 0.3)%float)
               (rows places_df)))
  /\ ("quality_score" ∉ columns places_df ->
      create_interaction_features places_df user_features = inl (KeyError "quality_score")).
Proof.
  intros Hwf Hrated. cbn zeta.
  set (user_features := create_user_features user_prefs).
  set (budget := int_get budget_map (default "medium" (budget_level user_prefs)) 2).
  assert (Hb : dict_item user_features "budget_encoded" = inr (Int budget))
    by reflexivity.
  assert (Hp : exists pace, dict_item user_features "travel_pace" = inr pace)
    by (eexists; reflexivity).
  destruct Hp as [pace Hp].
  assert (Hcells : forall df,
            holds df "price_level" (map (at_column "price_level") (rows places_df)) ->
            holds df "category" (map (at_column "category") (rows places_df)) ->
            nrows df = nrows places_df ->
            exists df',
              nrows df' = nrows df
              /\ holds df' "budget_match"
                   (map (fun r => Num (1 - PrimFloat.abs (num "price_level" r
                                                          - PyFloat.of_Z budget) / 4.0)%float)
                        (rows places_df))
              /\ holds df' "interest_match"
                   (map (fun r => Num (interest_match_of (interests_of user_features)
                                         (category_of r))) (rows places_df))
              /\ (forall c values,
                    c ∉ ["budget_match"; "interest_match"; "pace_match"] ->
                    holds df c values -> holds df' c values)
              /\ (forall c, c ∉ ["budget_match"; "interest_match"; "pace_match"] ->
                    c ∈ columns df' -> c ∈ columns df)
              /\ create_interaction_features df user_features
                 = let* quality_score := numeric df' "quality_score" in
                   setitem df' "compatibility_score"
                     (map (fun '(b, i, q) => Num (b * 0.3 + i * 0.4 + q * 0.3)%float)
                          (zip (zip (map (fun r => (1 - PrimFloat.abs
                                                          (num "price_level" r
                                                           - PyFloat.of_Z budget) / 4.0)%float)
                                         (rows places_df))
                                    (map (fun r => interest_match_of
                                                     (interests_of user_features)
                                                     (category_of r))
                                         (rows places_df)))
                               quality_score))).
  { intros df Hprice Hcat Hn.
    destruct Hwf as [_ Hrows].
    assert (Hcats : map (at_column "category") (rows places_df)
                    = map Str (map category_of (rows places_df))).
    { rewrite map_map. apply map_ext_in. intros r Hr.
      rewrite Forall_forall in Hrows. apply list_elem_of_In in Hr.
      destruct (Hrows r Hr) as (_ & s & Hs). unfold category_of. now rewrite Hs. }
    rewrite Hcats in Hcat.
    destruct (interaction_features_run df user_features budget pace
                (map (at_column "price_level") (rows places_df))
                (map (num "price_level") (rows places_df))
                (map category_of (rows places_df)) Hb Hp Hprice)
      as (df' & N & Hbm & Him & _ & K & C & Hrun); try assumption.
    - apply mapM_to_float_num. eapply Forall_impl; [exact Hrows|].
      intros r (Hr & _) s. apply Hr. in_list.
    - unfold nrows in *. now rewrite length_map.
    - unfold nrows in *. now rewrite length_map.
    - rewrite !map_map in Hbm, Him, Hrun.
      exists df'. auto 10. }
  split.
  - destruct (create_place_features_ok places_df Hwf Hrated)
      as (df1 & Hdf1 & N1 & Hnew & Hkeep).
    assert (Hq : exists quality_score,
               holds df1 "quality_score"
                 (map (fun r => Num (quality_score r)) (rows places_df))).
    { rewrite Forall_forall in Hnew. eexists.
      refine (Hnew (_, _) _). unfold place_features. in_list. }
    destruct Hq as [quality_score Hq].
    destruct (Hcells df1) as (df' & N & Hbm & Him & K & C & Hrun).
    { apply Hkeep; [not_in_list | reflexivity|].
      split; [apply (proj1 Hwf); in_list | reflexivity]. }
    { apply Hkeep; [not_in_list | reflexivity|].
      split; [apply (proj1 Hwf); in_list | reflexivity]. }
    { exact N1. }
    assert (Hq' := K "quality_score" _ ltac:(not_in_list) Hq).
    rewrite (numeric_holds _ _ _ Hq'), mapM_to_float_Num in Hrun. cbn [bind] in Hrun.
    rewrite !zip_map2, map_map in Hrun.
    match type of Hrun with
    | _ = setitem df' "compatibility_score" ?vs =>
        destruct (setitem_assigns df' "compatibility_score" vs)
          as (df2 & Hset & N2 & Hcs & K2 & _);
          [rewrite length_map; unfold nrows in *; congruence|]
    end.
    exists df1, df2, quality_score.
    split; [exact Hdf1|]. split; [now rewrite Hrun|]. split; [congruence|].
    split; [exact Hq|].
    split; [apply K2; [discriminate | exact Hbm]|].
    split; [apply K2; [discriminate | exact Him]|].
    exact Hcs.
  - intros Hmissing.
    destruct (Hcells places_df) as (df' & N & _ & _ & _ & C & ->).
    { split; [apply (proj1 Hwf); in_list | reflexivity]. }
    { split; [apply (proj1 Hwf); in_list | reflexivity]. }
    { reflexivity. }
    unfold numeric, getitem.
    rewrite (proj2 (has_column_false "quality_score" df')); [reflexivity|].
    intros Hin. apply Hmissing, C; [not_in_list | exact Hin].
Qed.

(** The interest match of the code is the share of the interests that the
    category serves. *)
Lemma interest_match_of_share (user_interests : list string)
    (r : Z * gmap string cell) :
  interest_match_of user_interests (category_of r)
  = interest_share user_interests (FallbackSpec.category_at r).
Proof.
  unfold interest_match_of, interest_share, matches.
  rewrite keywords_map, category_of_category_at.
  rewrite (size_inter_filter _ _ (keywords_NoDup _)). do 3 f_equal.
  apply filter_ext. intros k. apply bool_decide_ext. apply elem_of_list_to_set.
Qed.

(** X26. The features of a user and of a batch of places fit together: on
    a well-formed batch whose ratings lie in (0, 5], the interaction features
    of [create_place_features(batch)] and [create_user_features(prefs)] are
    computed without an exception, for every user.  Row by row,
    [budget_match] is [1 - |price_level - budget| / 4], [interest_match] is
    the share of the user's interests that the category serves (the
    interests being those of the user that are among the nine known ones),
    and [compatibility_score] is [0.3 budget_match + 0.4 interest_match
    + 0.3 quality_score].  On the batch itself, which has no
    [quality_score], the call raises [KeyError]. *)
Theorem create_interaction_features_pipeline (places_df : DataFrame)
    (user_prefs : UserPrefs) :
  well_formed_batch places_df ->
  Forall (fun r => (0 <? num "rating" r)%float = true
                   /\ (num "rating" r <=? 5)%float = true) (rows places_df) ->
  let user_features := create_user_features user_prefs in
  let budget := int_get budget_map (default "medium" (budget_level user_prefs)) 2 in
  let user_interests :=
    List.filter (fun interest => bool_decide (interest ∈ default [] (interests user_prefs)))
                all_interests in
  let budget_match r :=
    (1 - PrimFloat.abs (FallbackSpec.number_at "price_level" r - PyFloat.of_Z budget)
         / 4.0)%float in
  let interest_match r :=
    interest_share user_interests (FallbackSpec.category_at r) in
  (exists df1 df2 quality_score,
     create_place_features places_df = inr df1
     /\ create_interaction_features df1 user_features = inr df2
     /\ nrows df2 = nrows places_df
     /\ holds df1 "quality_score" (map (fun r => Num (quality_score r)) (rows places_df))
     /\ holds df2 "budget_match" (map (fun r => Num (budget_match r)) (rows places_df))
     /\ holds df2 "interest_match" (map (fun r => Num (interest_match r)) (rows places_df))
     /\ holds df2 "compatibility_score"
          (map (fun r => Num (budget_match r * 0.3 + interest_match r * 0.4
                              + quality_score r * 0.3)%float)
               (rows places_df)))
  /\ ("quality_score" ∉ columns places_df ->
      create_interaction_features places_df user_features = inl (KeyError "quality_score")).
Proof.
  intros Hwf Hrated. cbn zeta.
  destruct (create_interaction_features_run places_df user_prefs
              (well_formed_batch_readable _ Hwf) Hrated) as [Hrun Hraw].
  split; [|exact Hraw].
  destruct Hrun as (df1 & df2 & quality_score & H1 & H2 & N & Hq & Hbm & Him & Hcs).
  exists df1, df2, quality_score.
  rewrite create_user_features_interests_of in Him, Hcs.
  assert (Hprice : forall r, r ∈ rows places_df ->
            num "price_level" r = FallbackSpec.number_at "price_level" r).
  { intros r Hr. apply num_number_at.
    destruct Hwf as (_ & Hrows & _). rewrite Forall_forall in Hrows.
    apply (proj1 (Hrows r Hr)). in_list. }
  repeat (split; [assumption|]).
  split; [|split].
  - erewrite map_ext_in; [exact Hbm|].
    intros r Hr%list_elem_of_In. cbn beta. now rewrite (Hprice r Hr).
  - erewrite map_ext_in; [exact Him|].
    intros r _. cbn beta. now rewrite interest_match_of_share.
  - erewrite map_ext_in; [exact Hcs|].
    intros r Hr%list_elem_of_In. cbn beta.
    now rewrite (Hprice r Hr), interest_match_of_share.
Qed.

End InteractionFeatures.

(** ** The ensemble *)

Section Ensemble.
Import Py Pandas Joblib.
Context `{RT : Runtime} `{SK : Sklearn}.
Variable np_sum : list float -> float.
Variable np_average : list (list float) -> list float -> result (list float).

Local Abbreviation ensemble_rank := (EnsembleRankingModel.rank_places np_sum np_average).

Lemma filter_trained_idem (ms : list MLRankingModel.t) :
  List.filter MLRankingModel.is_trained (List.filter MLRankingModel.is_trained ms)
  = List.filter MLRankingModel.is_trained ms.
Proof.
  induction ms as [|m ms IH]; [reflexivity|]. cbn.
  destruct (MLRankingModel.is_trained m) eqn:E; [|exact IH]. cbn. now rewrite E, IH.
Qed.

Lemma mapM_raises {A B} (f : A -> result B) (l : list A) (x : A) (e : exn) :
  x ∈ l -> f x = inl e -> exists e', mapM f l = inl e'.
Proof.
  induction l as [|a l IH]; intros Hin Hx; [now apply elem_of_nil in Hin|].
  cbn. destruct (f a) as [ea|b] eqn:Ea; [eauto|].
  apply elem_of_cons in Hin as [->|Hin]; [congruence|].
  destruct (IH Hin Hx) as [e' ->]. eauto.
Qed.

(** X27. An ensemble weights its trained models by position, not by the
    weight they were added with: when some model is trained, [rank_places]
    gives what the ensemble of the trained models alone gives with the first
    weights of the list.  The i-th trained model gets the i-th weight of the
    list, which is the weight of another model as soon as an untrained model
    stands before it. *)
Theorem ensemble_weights_by_position (self : EnsembleRankingModel.t) (places_df : loc)
    (user_features : list (string * cell)) (top_k : Z) (h : store) :
  let trained := List.filter MLRankingModel.is_trained (EnsembleRankingModel.models self) in
  trained <> [] ->
  ensemble_rank self places_df user_features top_k h
  = ensemble_rank
      {| EnsembleRankingModel.models := trained;
         EnsembleRankingModel.weights :=
           take (length trained) (EnsembleRankingModel.weights self) |}
      places_df user_features top_k h.
Proof.
  cbn zeta. intros Hsome.
  unfold EnsembleRankingModel.rank_places, mbind, read, lift.
  cbn [EnsembleRankingModel.models EnsembleRankingModel.weights].
  destruct (h !! places_df) as [X|]; [|reflexivity].
  rewrite filter_trained_idem.
  destruct (mapM _ (List.filter MLRankingModel.is_trained (EnsembleRankingModel.models self)))
    as [e|scores_list] eqn:Hs; [reflexivity|].
  apply mapM_length in Hs.
  destruct scores_list as [|scores rest].
  - destruct (List.filter _ _); [contradiction | discriminate].
  - rewrite <- Hs, take_take, Nat.min_id. reflexivity.
Qed.

(** X28. An ensemble with a trained model never reads the user features,
    and has no fallback: [rank_places] gives the same for any two
    dictionaries of user features, and it raises when the prediction of a
    trained model raises. *)
Theorem ensemble_ignores_user_features (self : EnsembleRankingModel.t) (places_df : loc)
    (top_k : Z) (h : store) (X : DataFrame) (model : MLRankingModel.t) :
  model ∈ EnsembleRankingModel.models self ->
  MLRankingModel.is_trained model = true ->
  h !! places_df = Some X ->
  (forall user_features user_features',
     ensemble_rank self places_df user_features top_k h
     = ensemble_rank self places_df user_features' top_k h)
  /\ (forall e, MLRankingModel.predict model X = inl e ->
        exists e', (ensemble_rank self places_df [] top_k h).1 = inl e').
Proof.
  intros Hin Htrained Hh.
  assert (Hmem : model ∈ List.filter MLRankingModel.is_trained
                            (EnsembleRankingModel.models self)).
  { apply list_elem_of_In, filter_In. split; [now apply list_elem_of_In | exact Htrained]. }
  split.
  - intros uf uf'. unfold EnsembleRankingModel.rank_places, mbind, read, lift.
    rewrite Hh.
    destruct (mapM _ _) as [e|scores_list] eqn:Hs; [reflexivity|].
    destruct scores_list as [|scores rest]; [|reflexivity].
    apply mapM_length in Hs. destruct (List.filter _ _); [|discriminate].
    now apply elem_of_nil in Hmem.
  - intros e He. unfold EnsembleRankingModel.rank_places, mbind, read, lift.
    rewrite Hh.
    destruct (mapM_raises (fun model => MLRankingModel.predict model X) _ model e Hmem He)
      as [e' ->].
    eauto.
Qed.

End Ensemble.

Section PipelineCases.
Import Py Pandas.

(** The sample traveller and the rated sample batch: the features fit, and
    the batch alone has no quality score. *)
Lemma create_interaction_features_pipeline_sample :
  (exists df1 df2,
     FeatureEngineer.create_place_features (RT := Reference.runtime) Samples.rated_batch
     = inr df1
     /\ FeatureEngineer.create_interaction_features df1
          (FeatureEngineer.create_user_features Samples.traveller) = inr df2
     /\ nrows df2 = 4%nat
     /\ holds df2 "budget_match" [Num 0.75; Num 0.5; Num 1; Num 0.75]
     /\ holds df2 "interest_match" [Num 0.5; Num 0; Num 0.5; Num 0])
  /\ FeatureEngineer.create_interaction_features Samples.rated_batch
       (FeatureEngineer.create_user_features Samples.traveller)
     = inl (KeyError "quality_score").
Proof.
  destruct (create_interaction_features_pipeline (RT := Reference.runtime)
              Samples.rated_batch Samples.traveller rated_batch_well_formed)
    as [(df1 & df2 & q & H1 & H2 & N & _ & Hbm & Him & _) Hraw].
  - repeat constructor.
  - split; [exists df1, df2; auto|]. apply Hraw. not_in_list.
Defined.

(** The weight 1 of the trained model is not read: the ensemble ranks as
    the trained model alone with the weight 5 of the untrained one. *)
Lemma ensemble_weights_by_position_sample :
  EnsembleRankingModel.rank_places (RT := Reference.runtime) Samples.plain_sum
    Samples.plain_average Samples.mixed_ensemble 1%positive Samples.sample_user 3
    Samples.sample_store
  = EnsembleRankingModel.rank_places (RT := Reference.runtime) Samples.plain_sum
      Samples.plain_average
      {| EnsembleRankingModel.models := [Samples.ranker];
         EnsembleRankingModel.weights := [5%float] |}
      1%positive Samples.sample_user 3 Samples.sample_store.
Proof.
  apply (ensemble_weights_by_position (RT := Reference.runtime) Samples.plain_sum
           Samples.plain_average Samples.mixed_ensemble 1%positive Samples.sample_user 3
           Samples.sample_store).
  discriminate.
Defined.

(** The model trained on a feature the places lack: alone it falls back,
    in an ensemble it makes the ranking raise. *)
Lemma ensemble_ignores_user_features_sample :
  exists e,
    (EnsembleRankingModel.rank_places (RT := Reference.runtime) Samples.plain_sum
       Samples.plain_average Samples.stale_ensemble 1%positive [] 3
       Samples.sample_store).1 = inl e.
Proof.
  destruct (ensemble_ignores_user_features (RT := Reference.runtime) Samples.plain_sum
              Samples.plain_average Samples.stale_ensemble 1%positive 3
              Samples.sample_store Samples.sample_places Samples.stale_ranker)
    as [_ Hraise].
  - in_list.
  - reflexivity.
  - reflexivity.
  - apply (Hraise (KeyError "quality_score")). reflexivity.
Defined.

End PipelineCases.
